(** * ptvsd/wrapper.py: the bridge between the VSCode debug protocol and pydevd

    A shallow embedding of [IDMap], [PydevdSocket] and the request and event
    handlers of [VSCodeMessageProcessor], and the properties of them that the
    specification states.

    Python dictionaries are finite maps ([gmap]); a method that mutates its
    object is a computation in a state-and-exception monad, in which a raised
    exception keeps the mutations made before it, as in Python. *)

From Stdlib Require Import ZArith Lia Ascii String.
From stdpp Require Import base option list gmap strings pretty sorting.

Open Scope string_scope.
Open Scope list_scope.
Open Scope Z_scope.

(** ** Python values and built-ins *)

(** The exceptions the modelled code can raise. *)
Inductive exn : Type :=
| KeyError
| ValueError
| TypeError
| IndexError
| AttributeError
| Exception (msg : string).

(** The outcome of a call: a value, or a raised exception. *)
Inductive result (A : Type) : Type :=
| Ok (a : A)
| Raise (e : exn).
Arguments Ok {A} a.
Arguments Raise {A} e.

(** A computation over a mutable object of type [S]. *)
Definition M (S A : Type) : Type := S → result A * S.

Definition ret {S A} (a : A) : M S A := λ s, (Ok a, s).

Definition raise {S A} (e : exn) : M S A := λ s, (Raise e, s).

Definition bind {S A B} (c : M S A) (k : A → M S B) : M S B :=
  λ s, match c s with
       | (Ok a, s') => k a s'
       | (Raise e, s') => (Raise e, s')
       end.

Definition get {S} : M S S := λ s, (Ok s, s).

Definition modify {S} (f : S → S) : M S unit := λ s, (Ok tt, f s).

(** Run a method of a member object: [proj] reads the member, [upd] stores it
    back. *)
Definition zoom {S T A} (proj : S → T) (upd : T → S → S) (c : M T A) : M S A :=
  λ s, let '(r, t) := c (proj s) in (r, upd t s).

(** [try: c except KeyError: h]. *)
Definition except_KeyError {S A} (c : M S A) (h : M S A) : M S A :=
  λ s, match c s with
       | (Raise KeyError, s') => h s'
       | other => other
       end.

Declare Scope py_scope.
Delimit Scope py_scope with py.
Notation "x <- c ;; k" := (bind c (λ x, k))
  (at level 100, c at next level, right associativity) : py_scope.
Notation "c ;;; k" := (bind c (λ _, k))
  (at level 100, right associativity) : py_scope.
Open Scope py_scope.

(** [for x in l: body x]. *)
Fixpoint for_ {S A} (l : list A) (body : A → M S unit) : M S unit :=
  match l with
  | [] => ret tt
  | x :: l' => body x ;;; for_ l' body
  end.

(** [s.split(sep, maxsplit)]; [maxsplit] is the number of splits still
    allowed. *)
Fixpoint py_split (sep : ascii) (maxsplit : nat) (s : string) : list string :=
  match s with
  | EmptyString => [""]
  | String c r =>
      match maxsplit with
      | S n =>
          if Ascii.eqb c sep then "" :: py_split sep n r
          else match py_split sep maxsplit r with
               | [] => [String c ""]
               | f :: fs => String c f :: fs
               end
      | O => [s]
      end
  end.

Definition TAB : ascii := Ascii.ascii_of_nat 9.
Definition NL : ascii := Ascii.ascii_of_nat 10.
Definition tab : string := String TAB "".

(** [s.split('\t')]: no bound on the number of splits. *)
Definition split_tab (s : string) : list string :=
  py_split TAB (String.length s) s.

(** [sep.join(l)]. *)
Fixpoint join (sep : string) (l : list string) : string :=
  match l with
  | [] => ""
  | [x] => x
  | x :: l' => x +:+ sep +:+ join sep l'
  end.

(** [bool(x)] of an attribute value: [None] and the empty string are false. *)
Definition py_bool (x : option string) : bool :=
  match x with
  | None => false
  | Some s => negb (String.eqb s "")
  end.

(** The components of the tuples used as pydevd ids: strings and integers. *)
Inductive atom : Type :=
| AStr (s : string)
| AInt (z : Z).

#[global] Instance atom_eq_dec : EqDecision atom.
Proof. solve_decision. Defined.

#[global] Instance atom_countable : Countable atom.
Proof.
  refine (inj_countable'
    (λ a, match a with AStr s => inl s | AInt z => inr z end)
    (λ x, match x with inl s => AStr s | inr z => AInt z end) _).
  by intros [].
Defined.

(** [str(a)]. *)
Definition py_str (a : atom) : string :=
  match a with
  | AStr s => s
  | AInt z => pretty z
  end.

(** ** pydevd's command ids ([_pydevd_bundle.pydevd_comm]) *)

Definition CMD_RUN : Z := 101.
Definition CMD_LIST_THREADS : Z := 102.
Definition CMD_THREAD_CREATE : Z := 103.
Definition CMD_THREAD_KILL : Z := 104.
Definition CMD_THREAD_SUSPEND : Z := 105.
Definition CMD_THREAD_RUN : Z := 106.
Definition CMD_STEP_INTO : Z := 107.
Definition CMD_STEP_OVER : Z := 108.
Definition CMD_STEP_RETURN : Z := 109.
Definition CMD_GET_VARIABLE : Z := 110.
Definition CMD_SET_BREAK : Z := 111.
Definition CMD_REMOVE_BREAK : Z := 112.
Definition CMD_GET_FRAME : Z := 114.
Definition CMD_STEP_CAUGHT_EXCEPTION : Z := 137.
Definition CMD_ADD_EXCEPTION_BREAK : Z := 122.
Definition CMD_REMOVE_EXCEPTION_BREAK : Z := 123.
Definition CMD_SEND_CURR_EXCEPTION_TRACE : Z := 138.
Definition CMD_SEND_CURR_EXCEPTION_TRACE_PROCEEDED : Z := 139.

(** ** class IDMap *)

Module IDMap.
Section methods.
Context {K : Type} `{Countable K}.

Record t : Type := mk {
  _vscode_to_pydevd : gmap Z K;
  _pydevd_to_vscode : gmap K Z;
  _next_id : Z;
}.

(** [__init__]. *)
Definition init : t := mk ∅ ∅ 1.

Definition pairs (self : t) : list (K * Z) :=
  map_to_list (_pydevd_to_vscode self).

(** The argument of [add]: a pydevd id, or a callable that makes one from
    the new VSCode id. *)
Inductive id_arg : Type :=
| Plain (pydevd_id : K)
| Callable (f : Z → K).

Definition add (pydevd_id : id_arg) : M t Z := λ self,
  let vscode_id := _next_id self in
  let pydevd_id :=
    match pydevd_id with
    | Plain p => p
    | Callable f => f vscode_id
    end in
  (Ok vscode_id,
   mk (<[vscode_id := pydevd_id]> (_vscode_to_pydevd self))
      (<[pydevd_id := vscode_id]> (_pydevd_to_vscode self))
      (_next_id self + 1)).

(** [d[k]]. *)
Definition getitem {A B} `{Countable A} (d : gmap A B) (k : A) : result B :=
  match d !! k with
  | Some v => Ok v
  | None => Raise KeyError
  end.

(** [remove(pydevd_id=None, vscode_id=None)]; [None] is Python's [None],
    which is never a key of either dictionary. *)
Definition remove (pydevd_id : option K) (vscode_id : option Z) : M t unit :=
  λ self,
  let keys : result (K * Z) :=
    match pydevd_id, vscode_id with
    | None, None => Raise KeyError
    | None, Some v =>
        match getitem (_vscode_to_pydevd self) v with
        | Ok p => Ok (p, v)
        | Raise e => Raise e
        end
    | Some p, None =>
        match getitem (_pydevd_to_vscode self) p with
        | Ok v => Ok (p, v)
        | Raise e => Raise e
        end
    | Some p, Some v => Ok (p, v)
    end in
  match keys with
  | Raise e => (Raise e, self)
  | Ok (p, v) =>
      match _vscode_to_pydevd self !! v with
      | None => (Raise KeyError, self)
      | Some _ =>
          let self1 := mk (delete v (_vscode_to_pydevd self))
                          (_pydevd_to_vscode self) (_next_id self) in
          match _pydevd_to_vscode self !! p with
          | None => (Raise KeyError, self1)
          | Some _ =>
              (Ok tt, mk (delete v (_vscode_to_pydevd self))
                         (delete p (_pydevd_to_vscode self)) (_next_id self))
          end
      end
  end.

Definition to_pydevd (vscode_id : Z) : M t K := λ self,
  (getitem (_vscode_to_pydevd self) vscode_id, self).

Definition to_vscode (pydevd_id : K) (autogen : bool) : M t Z := λ self,
  match _pydevd_to_vscode self !! pydevd_id with
  | Some v => (Ok v, self)
  | None => if autogen then add (Plain pydevd_id) self else (Raise KeyError, self)
  end.

Definition pydevd_ids (self : t) : list K :=
  (map_to_list (_pydevd_to_vscode self)).*1.

Definition vscode_ids (self : t) : list Z :=
  (map_to_list (_vscode_to_pydevd self)).*1.

End methods.
Arguments t K {_ _}.
Arguments id_arg K : clear implicits.
Arguments add : simpl never.
Arguments remove : simpl never.
Arguments to_pydevd : simpl never.
Arguments to_vscode : simpl never.
End IDMap.

(** ** class PydevdSocket *)

(** Event loops and futures ([ptvsd.futures]) are objects; the model names an
    object by a number. *)
Definition EventLoop : Type := nat.
Definition Future : Type := nat.

Module PydevdSocket.

(** What [send] does with a parsed packet: it calls [self.event_handler], or
    it schedules [fut.set_result] on [loop] with [call_soon_threadsafe]. *)
Inductive delivery : Type :=
| event_handler (cmd_id seq : Z) (args : string)
| call_soon_threadsafe (loop : EventLoop) (fut : Future) (result : Z * Z * string).

(** [pipe] holds what was written to [pipe_w], oldest first; [futures] counts
    the futures created so far, the next one's identity. *)
Record t : Type := mk {
  seq : Z;
  requests : gmap Z (EventLoop * Future);
  pipe : list string;
  futures : nat;
}.

(** [__init__]. *)
Definition init : t := mk 1000000000 ∅ [] 0.

Definition set_seq (f : Z → Z) (self : t) : t :=
  mk (f (seq self)) (requests self) (pipe self) (futures self).
Definition set_requests (f : gmap Z (EventLoop * Future) → gmap Z (EventLoop * Future))
    (self : t) : t :=
  mk (seq self) (f (requests self)) (pipe self) (futures self).

(** [os.write(self.pipe_w, s)]. *)
Definition os_write (s : string) : M t unit :=
  modify (λ self, mk (seq self) (requests self) (pipe self ++ [s]) (futures self)).

(** [loop.create_future()]. *)
Definition create_future (loop : EventLoop) : M t Future := λ self,
  (Ok (futures self),
   mk (seq self) (requests self) (pipe self) (S (futures self))).

(** ["%s\t%s\t%s\n" % (cmd_id, seq, args)]. *)
Definition packet (cmd_id seq : Z) (args : string) : string :=
  pretty cmd_id +:+ tab +:+ pretty seq +:+ tab +:+ args +:+ String NL "".

Definition make_packet (cmd_id : Z) (args : string) : M t (Z * string) :=
  self <- get ;;
  let seq := seq self in
  modify (set_seq (λ n, n + 1)) ;;;
  ret (seq, packet cmd_id seq args).

Definition pydevd_notify (cmd_id : Z) (args : string) : M t unit :=
  p <- make_packet cmd_id args ;;
  os_write p.2.

Definition pydevd_request (loop : EventLoop) (cmd_id : Z) (args : string) : M t Future :=
  p <- make_packet cmd_id args ;;
  fut <- create_future loop ;;
  modify (set_requests <[p.1 := (loop, fut)]>) ;;;
  os_write p.2 ;;;
  ret fut.

Section send.
(** [urllib.unquote], and [int] on a string ([None]: it raises
    [ValueError]). *)
Variable urllib_unquote : string → string.
Variable int : string → option Z.

Definition py_int {S} (s : string) : M S Z :=
  match int s with
  | Some z => ret z
  | None => raise ValueError
  end.

Definition send (data : string) : M t (Z * delivery) :=
  let result := Z.of_nat (String.length data) in
  let data := urllib_unquote data in
  match py_split TAB 2 data with
  | [cmd_id; seq; args] =>
      cmd_id <- py_int cmd_id ;;
      seq <- py_int seq ;;
      self <- get ;;
      match requests self !! seq with
      | None => ret (result, event_handler cmd_id seq args)
      | Some (loop, fut) =>
          modify (set_requests (delete seq)) ;;;
          ret (result, call_soon_threadsafe loop fut (cmd_id, seq, args))
      end
  | _ => raise ValueError
  end.

End send.
End PydevdSocket.

(** ** class VSCodeMessageProcessor *)

(** The elements [untangle] decodes from pydevd's XML, by the attributes the
    handlers read; [None] is an absent attribute. *)
Record xthread : Type := {
  xthread_id : string;
  xthread_name : option string;
}.

(** A [frame] element: the attributes the handlers read, and the number of
    its child elements, which is what [len] of the element is. *)
Record xframe : Type := {
  xframe_id : string;
  xframe_name : option string;
  xframe_file : option string;
  xframe_line : string;
  xframe_children : nat;
}.

Record xvar : Type := {
  xvar_name : string;
  xvar_type : option string;
  xvar_value : option string;
  xvar_isContainer : option string;
}.

(** The [thread] element of a suspend message, with its [frame] children. *)
Record xsuspended : Type := {
  xsuspended_id : string;
  xsuspended_stop_reason : string;
  xsuspended_frame : list xframe;
}.

(** The messages sent to the IDE. *)
Record Thread : Type := { thread_id : Z; thread_name : option string }.

Record StackFrame : Type := {
  frame_id : Z;
  frame_name : option string;
  frame_source_path : option string;
  frame_line : Z;
  frame_column : Z;
}.

Record Variable_ : Type := {
  var_name : string;
  var_type : option string;
  var_value : option string;
  var_variablesReference : option Z;
}.

Record Breakpoint : Type := {
  bp_id : Z;
  bp_verified : bool;
  bp_line : Z;
}.

Record Scope : Type := {
  scope_name : string;
  scope_expensive : bool;
  scope_variablesReference : Z;
}.

Inductive body : Type :=
| no_body
| threads_body (threads : list Thread)
| stackTrace_body (stackFrames : list StackFrame) (totalFrames : Z)
| scopes_body (scopes : list Scope)
| variables_body (variables : list Variable_)
| breakpoints_body (breakpoints : list Breakpoint).

Inductive message : Type :=
| response (request : Z) (b : body)
| event (name : string) (fields : list (string * atom)).

Module VSCodeMessageProcessor.

(** [sent] holds the messages written to the IDE's socket, oldest first. *)
Record t : Type := mk {
  pydevd : PydevdSocket.t;
  stack_traces : gmap string (list xframe);
  thread_map : IDMap.t string;
  frame_map : IDMap.t (string * Z);
  var_map : IDMap.t (list atom);
  bp_map : IDMap.t (string * Z);
  loop : EventLoop;
  sent : list message;
}.

Definition init (loop : EventLoop) : t :=
  mk PydevdSocket.init ∅ IDMap.init IDMap.init IDMap.init IDMap.init loop [].

Definition upd_pydevd (x : PydevdSocket.t) (self : t) : t :=
  mk x (stack_traces self) (thread_map self) (frame_map self) (var_map self)
     (bp_map self) (loop self) (sent self).
Definition upd_stack_traces (x : gmap string (list xframe)) (self : t) : t :=
  mk (pydevd self) x (thread_map self) (frame_map self) (var_map self)
     (bp_map self) (loop self) (sent self).
Definition upd_thread_map (x : IDMap.t string) (self : t) : t :=
  mk (pydevd self) (stack_traces self) x (frame_map self) (var_map self)
     (bp_map self) (loop self) (sent self).
Definition upd_frame_map (x : IDMap.t (string * Z)) (self : t) : t :=
  mk (pydevd self) (stack_traces self) (thread_map self) x (var_map self)
     (bp_map self) (loop self) (sent self).
Definition upd_var_map (x : IDMap.t (list atom)) (self : t) : t :=
  mk (pydevd self) (stack_traces self) (thread_map self) (frame_map self) x
     (bp_map self) (loop self) (sent self).
Definition upd_bp_map (x : IDMap.t (string * Z)) (self : t) : t :=
  mk (pydevd self) (stack_traces self) (thread_map self) (frame_map self)
     (var_map self) x (loop self) (sent self).
Definition upd_sent (x : list message) (self : t) : t :=
  mk (pydevd self) (stack_traces self) (thread_map self) (frame_map self)
     (var_map self) (bp_map self) (loop self) x.

(** Calls on the member objects. *)
Definition in_pydevd {A} : M PydevdSocket.t A → M t A := zoom pydevd upd_pydevd.
Definition in_thread_map {A} : M (IDMap.t string) A → M t A :=
  zoom thread_map upd_thread_map.
Definition in_frame_map {A} : M (IDMap.t (string * Z)) A → M t A :=
  zoom frame_map upd_frame_map.
Definition in_var_map {A} : M (IDMap.t (list atom)) A → M t A :=
  zoom var_map upd_var_map.
Definition in_bp_map {A} : M (IDMap.t (string * Z)) A → M t A :=
  zoom bp_map upd_bp_map.

Definition send_response (request : Z) (b : body) : M t unit :=
  modify (λ self, upd_sent (sent self ++ [response request b]) self).

Definition send_event (name : string) (fields : list (string * atom)) : M t unit :=
  modify (λ self, upd_sent (sent self ++ [event name fields]) self).

Definition pydevd_notify (cmd_id : Z) (args : string) : M t unit :=
  in_pydevd (PydevdSocket.pydevd_notify cmd_id args).

Definition pydevd_request (cmd_id : Z) (args : string) : M t Future :=
  self <- get ;;
  in_pydevd (PydevdSocket.pydevd_request (loop self) cmd_id args).

Section handlers.
(** [urllib.unquote], and [int] on a string ([None]: it raises
    [ValueError]). *)
Variable urllib_unquote : string → string.
Variable int : string → option Z.

(** The module's [unquote]: [None] stays [None]. *)
Definition unquote (s : option string) : option string :=
  urllib_unquote <$> s.

Definition py_int (s : string) : M t Z :=
  match int s with
  | Some z => ret z
  | None => raise ValueError
  end.

(** [name and name.startswith('pydevd.')]. *)
Definition is_pydevd_name (name : option string) : bool :=
  match name with
  | None => false
  | Some n => negb (String.eqb n "") && String.prefix "pydevd." n
  end.

(** *** on_threads

    The handler yields a request for the thread list; [on_threads_resumed]
    is the rest of it, run with the decoded reply. *)
Definition on_threads (request : Z) : M t Future :=
  pydevd_request CMD_LIST_THREADS "".

Fixpoint on_threads_for (xthreads : list xthread) (threads : list Thread)
    : M t (list Thread) :=
  match xthreads with
  | [] => ret threads
  | xthread :: xthreads' =>
      tid <- in_thread_map (IDMap.to_vscode (xthread_id xthread) true) ;;
      let name := unquote (xthread_name xthread) in
      on_threads_for xthreads'
        (if is_pydevd_name name then threads
         else threads ++ [{| thread_id := tid; thread_name := name |}])
  end.

Definition on_threads_resumed (request : Z) (xthreads : list xthread) : M t unit :=
  threads <- on_threads_for xthreads [] ;;
  send_response request (threads_body threads).

(** *** on_stackTrace *)
Fixpoint on_stackTrace_for (tid : string) (xframes : list xframe)
    (startFrame levels : Z) (stackFrames : list StackFrame)
    : M t (list StackFrame) :=
  match xframes with
  | [] => ret stackFrames
  | xframe :: xframes' =>
      if (0 <? startFrame)%Z then
        on_stackTrace_for tid xframes' (startFrame - 1) levels stackFrames
      else if (levels <=? 0)%Z then ret stackFrames
      else
        let levels := levels - 1 in
        pyd_fid <- py_int (xframe_id xframe) ;;
        fid <- in_frame_map (IDMap.to_vscode (tid, pyd_fid) true) ;;
        let name := unquote (xframe_name xframe) in
        let file := unquote (xframe_file xframe) in
        line <- py_int (xframe_line xframe) ;;
        on_stackTrace_for tid xframes' startFrame levels
          (stackFrames ++ [{| frame_id := fid; frame_name := name;
                              frame_source_path := file; frame_line := line;
                              frame_column := 0 |}])
  end.

(** [len(xframes)] for the cached [xml.thread.frame]. For a thread element
    with several [frame] children untangle gives their list; for one with a
    single [frame] child it gives that element itself, whose [len] is the
    number of its own children and whose iteration yields the element once.
    The cache holds the frames in the order of iteration, so that a list of
    one frame stands for the element. *)
Definition len (xframes : list xframe) : Z :=
  match xframes with
  | [xframe] => Z.of_nat (xframe_children xframe)
  | _ => Z.of_nat (length xframes)
  end.

Definition on_stackTrace (request : Z) (threadId startFrame levels : Z) : M t unit :=
  tid <- in_thread_map (IDMap.to_pydevd threadId) ;;
  self <- get ;;
  match stack_traces self !! tid with
  | None => raise KeyError
  | Some xframes =>
      let totalFrames := len xframes in
      let levels := if (levels =? 0)%Z then totalFrames else levels in
      stackFrames <- on_stackTrace_for tid xframes startFrame levels [] ;;
      send_response request (stackTrace_body stackFrames totalFrames)
  end.

(** *** on_scopes *)
Definition on_scopes (request : Z) (frameId : Z) : M t unit :=
  pyd <- in_frame_map (IDMap.to_pydevd frameId) ;;
  let pyd_var := [AStr pyd.1; AInt pyd.2; AStr "FRAME"] in
  vsc_var <- in_var_map (IDMap.to_vscode pyd_var true) ;;
  send_response request
    (scopes_body [{| scope_name := "Locals"; scope_expensive := false;
                     scope_variablesReference := vsc_var |}]).

(** *** on_variables

    [on_variables] runs up to the yielded request and returns the local
    [pyd_var] with the future; [on_variables_resumed] is the rest. *)
Definition on_variables_cmd (pyd_var : list atom) : Z :=
  if (length pyd_var =? 3)%nat then CMD_GET_FRAME else CMD_GET_VARIABLE.

Definition on_variables (request : Z) (variablesReference : Z)
    : M t (list atom * Future) :=
  pyd_var <- in_var_map (IDMap.to_pydevd variablesReference) ;;
  let cmd := on_variables_cmd pyd_var in
  fut <- pydevd_request cmd (join tab (py_str <$> pyd_var)) ;;
  ret (pyd_var, fut).

Fixpoint on_variables_for (pyd_var : list atom) (xvars : list xvar)
    (vars : list Variable_) : M t (list Variable_) :=
  match xvars with
  | [] => ret vars
  | xvar :: xvars' =>
      let name := urllib_unquote (xvar_name xvar) in
      let type := unquote (xvar_type xvar) in
      let value := unquote (xvar_value xvar) in
      if py_bool (xvar_isContainer xvar) then
        let pyd_child := (pyd_var ++ [AStr name])%list in
        ref <- in_var_map (IDMap.to_vscode pyd_child true) ;;
        on_variables_for pyd_var xvars'
          (vars ++ [{| var_name := name; var_type := type; var_value := value;
                       var_variablesReference := Some ref |}])
      else
        on_variables_for pyd_var xvars'
          (vars ++ [{| var_name := name; var_type := type; var_value := value;
                       var_variablesReference := None |}])
  end.

Definition on_variables_resumed (request : Z) (pyd_var : list atom)
    (xvars : list xvar) : M t unit :=
  vars <- on_variables_for pyd_var xvars [] ;;
  send_response request (variables_body vars).

(** *** on_pause *)
Definition on_pause (request : Z) (threadId : Z) : M t unit :=
  (if (threadId =? 0)%Z then
     self <- get ;;
     for_ (IDMap.pydevd_ids (thread_map self))
       (λ pyd_tid, pydevd_notify CMD_THREAD_SUSPEND pyd_tid)
   else
     pyd_tid <- in_thread_map (IDMap.to_pydevd threadId) ;;
     pydevd_notify CMD_THREAD_SUSPEND pyd_tid) ;;;
  send_response request no_body.

(** *** on_setBreakpoints *)
Fixpoint on_setBreakpoints_for (path : string) (src_bps : list Z)
    (bps : list Breakpoint) : M t (list Breakpoint) :=
  match src_bps with
  | [] => ret bps
  | line :: src_bps' =>
      vsc_bpid <- in_bp_map (IDMap.add (IDMap.Callable (λ vsc_bpid, (path, vsc_bpid)))) ;;
      pydevd_notify CMD_SET_BREAK
        (pretty vsc_bpid +:+ tab +:+ "python-line" +:+ tab +:+ path +:+ tab +:+
         pretty line +:+ tab +:+ "None" +:+ tab +:+ "None" +:+ tab +:+ "None") ;;;
      on_setBreakpoints_for path src_bps'
        (bps ++ [{| bp_id := vsc_bpid; bp_verified := true; bp_line := line |}])
  end.

Definition on_setBreakpoints (request : Z) (path : string) (src_bps : list Z)
    : M t unit :=
  self <- get ;;
  for_ (IDMap.pairs (bp_map self))
    (λ b, pydevd_notify CMD_REMOVE_BREAK
            ("python-line" +:+ tab +:+ path +:+ tab +:+ pretty b.2) ;;;
          in_bp_map (IDMap.remove (Some b.1) (Some b.2))) ;;;
  bps <- on_setBreakpoints_for path src_bps [] ;;
  send_response request (breakpoints_body bps).

(** *** on_pydevd_thread_run *)
Definition on_pydevd_thread_run (seq : Z) (args : string) : M t unit :=
  match split_tab args with
  | [pyd_tid; reason] =>
      vsc_tid <- in_thread_map (IDMap.to_vscode pyd_tid true) ;;
      self <- get ;;
      match stack_traces self !! pyd_tid with
      | None => raise KeyError
      | Some _ => modify (λ self, upd_stack_traces (delete pyd_tid (stack_traces self)) self)
      end ;;;
      self <- get ;;
      for_ (IDMap.pairs (frame_map self))
        (λ f, if decide (f.1.1 = pyd_tid)
              then in_frame_map (IDMap.remove (Some f.1) (Some f.2))
              else ret tt) ;;;
      self <- get ;;
      for_ (IDMap.pairs (var_map self))
        (λ v, match v.1 with
              | [] => raise IndexError
              | a :: _ =>
                  if decide (a = AStr pyd_tid)
                  then in_var_map (IDMap.remove (Some v.1) (Some v.2))
                  else ret tt
              end) ;;;
      send_event "continued" [("threadId", AInt vsc_tid)]
  | _ => raise ValueError
  end.

(** *** on_continue, on_next, on_stepIn, on_stepOut *)
Definition on_continue (request : Z) (threadId : Z) : M t unit :=
  tid <- in_thread_map (IDMap.to_pydevd threadId) ;;
  pydevd_notify CMD_THREAD_RUN tid ;;;
  send_response request no_body.

Definition on_next (request : Z) (threadId : Z) : M t unit :=
  tid <- in_thread_map (IDMap.to_pydevd threadId) ;;
  pydevd_notify CMD_STEP_OVER tid ;;;
  send_response request no_body.

Definition on_stepIn (request : Z) (threadId : Z) : M t unit :=
  tid <- in_thread_map (IDMap.to_pydevd threadId) ;;
  pydevd_notify CMD_STEP_INTO tid ;;;
  send_response request no_body.

Definition on_stepOut (request : Z) (threadId : Z) : M t unit :=
  tid <- in_thread_map (IDMap.to_pydevd threadId) ;;
  pydevd_notify CMD_STEP_RETURN tid ;;;
  send_response request no_body.

(** *** on_pydevd_thread_create, on_pydevd_thread_kill *)
Definition on_pydevd_thread_create (seq : Z) (xthread : xthread) : M t unit :=
  tid <- in_thread_map (IDMap.to_vscode (xthread_id xthread) true) ;;
  send_event "thread" [("reason", AStr "started"); ("threadId", AInt tid)].

Definition on_pydevd_thread_kill (seq : Z) (args : string) : M t unit :=
  r <- except_KeyError
         (tid <- in_thread_map (IDMap.to_vscode args false) ;; ret (Some tid))
         (ret None) ;;
  match r with
  | None => ret tt
  | Some tid => send_event "thread" [("reason", AStr "exited"); ("threadId", AInt tid)]
  end.

(** *** on_pydevd_thread_suspend

    [xml.thread.frame] raises [AttributeError] when the element has no
    [frame] child. *)
Definition stop_reason (reason : Z) : string :=
  if bool_decide (reason = CMD_STEP_INTO ∨ reason = CMD_STEP_OVER
                  ∨ reason = CMD_STEP_RETURN) then "step"
  else if bool_decide (reason = CMD_STEP_CAUGHT_EXCEPTION) then "exception"
  else if bool_decide (reason = CMD_SET_BREAK) then "breakpoint"
  else "pause".

Definition on_pydevd_thread_suspend (seq : Z) (xthread : xsuspended) : M t unit :=
  let tid := xsuspended_id xthread in
  reason <- py_int (xsuspended_stop_reason xthread) ;;
  let reason := stop_reason reason in
  match xsuspended_frame xthread with
  | [] => raise AttributeError
  | frame => modify (λ self, upd_stack_traces (<[tid := frame]> (stack_traces self)) self)
  end ;;;
  tid <- in_thread_map (IDMap.to_vscode tid true) ;;
  send_event "stopped" [("reason", AStr reason); ("threadId", AInt tid)].

End handlers.

(** *** on_configurationDone, on_disconnect *)
Definition on_configurationDone (request : Z) : M t unit :=
  send_response request no_body.

Definition on_disconnect (request : Z) : M t unit :=
  send_response request no_body.

(** *** on_setExceptionBreakpoints *)
Definition on_setExceptionBreakpoints (request : Z) (filters : list string)
    : M t unit :=
  pydevd_notify CMD_REMOVE_EXCEPTION_BREAK "python-BaseException" ;;;
  let break_raised := bool_decide ("raised" ∈ filters) in
  let break_uncaught := bool_decide ("uncaught" ∈ filters) in
  (if break_raised || break_uncaught then
     pydevd_notify CMD_ADD_EXCEPTION_BREAK
       ("python-BaseException" +:+ tab +:+
        pretty (if break_raised then 2 else 0) +:+ tab +:+
        pretty (if break_uncaught then 1 else 0) +:+ tab +:+ pretty 0)
   else ret tt) ;;;
  send_response request no_body.

(** *** pydevd_events and on_pydevd_event

    The decorated methods, by name, and the dictionary that the decorator
    fills. *)
Inductive pydevd_handler : Type :=
| handler_thread_create
| handler_thread_kill
| handler_thread_suspend
| handler_thread_run
| handler_send_curr_exception_trace
| handler_send_curr_exception_trace_proceeded.

Definition pydevd_events : gmap Z pydevd_handler :=
  list_to_map
    [(CMD_THREAD_CREATE, handler_thread_create);
     (CMD_THREAD_KILL, handler_thread_kill);
     (CMD_THREAD_SUSPEND, handler_thread_suspend);
     (CMD_THREAD_RUN, handler_thread_run);
     (CMD_SEND_CURR_EXCEPTION_TRACE, handler_send_curr_exception_trace);
     (CMD_SEND_CURR_EXCEPTION_TRACE_PROCEEDED,
      handler_send_curr_exception_trace_proceeded)].

Definition on_pydevd_send_curr_exception_trace_proceeded (seq : Z) (args : string)
    : M t unit :=
  ret tt.

Section events.
Variable urllib_unquote : string → string.
Variable int : string → option Z.
(** [untangle.parse(args).xml.thread], as the handlers of thread-create and
    thread-suspend read it; [None]: the parse raises. *)
Variable untangle_thread : string → option xthread.
Variable untangle_suspended : string → option xsuspended.
(** The handler of the current-exception trace, whose cache
    [active_exceptions] this record does not hold. *)
Variable on_pydevd_send_curr_exception_trace : Z → string → M t unit.

(** [f(self, seq, args)] for the method [f]. *)
Definition call_handler (f : pydevd_handler) (seq : Z) (args : string) : M t unit :=
  match f with
  | handler_thread_create =>
      match untangle_thread args with
      | Some xthread => on_pydevd_thread_create seq xthread
      | None => raise (Exception "untangle.parse")
      end
  | handler_thread_kill => on_pydevd_thread_kill seq args
  | handler_thread_suspend =>
      match untangle_suspended args with
      | Some xthread => on_pydevd_thread_suspend int seq xthread
      | None => raise (Exception "untangle.parse")
      end
  | handler_thread_run => on_pydevd_thread_run seq args
  | handler_send_curr_exception_trace => on_pydevd_send_curr_exception_trace seq args
  | handler_send_curr_exception_trace_proceeded =>
      on_pydevd_send_curr_exception_trace_proceeded seq args
  end.

Definition on_pydevd_event (cmd_id seq : Z) (args : string) : M t unit :=
  match pydevd_events !! cmd_id with
  | None => raise (Exception ("Unsupported pydevd command " +:+ pretty cmd_id))
  | Some f => call_handler f seq args
  end.

(** [pydevd.send(data)] for the socket that [start_server] and
    [start_client] make, whose event handler is [proc.on_pydevd_event]. It
    returns [len(data)], and here also the callback that was scheduled, if
    one was. *)
Definition pydevd_send (data : string)
    : M t (Z * option (EventLoop * Future * (Z * Z * string))) :=
  r <- in_pydevd (PydevdSocket.send urllib_unquote int data) ;;
  match r.2 with
  | PydevdSocket.event_handler cmd_id seq args =>
      on_pydevd_event cmd_id seq args ;;; ret (r.1, None)
  | PydevdSocket.call_soon_threadsafe loop fut result =>
      ret (r.1, Some (loop, fut, result))
  end.

End events.
End VSCodeMessageProcessor.

(** ** Sequences of calls, and the invariants of the maps *)

Section IDMap_calls.
Context {K : Type} `{Countable K}.

(** A call on an [IDMap]. *)
Inductive idmap_op : Type :=
| op_add (pydevd_id : IDMap.id_arg K)
| op_remove (pydevd_id : option K) (vscode_id : option Z)
| op_to_vscode (pydevd_id : K) (autogen : bool).

(** The map after a call; a call that raises leaves what it had done. *)
Definition idmap_call (o : idmap_op) (m : IDMap.t K) : IDMap.t K :=
  match o with
  | op_add a => (IDMap.add a m).2
  | op_remove p v => (IDMap.remove p v m).2
  | op_to_vscode p g => (IDMap.to_vscode p g m).2
  end.

Definition idmap_run (ops : list idmap_op) (m : IDMap.t K) : IDMap.t K :=
  foldl (λ m o, idmap_call o m) m ops.

(** The id that a call of [add] returns. *)
Definition added_by (o : idmap_op) (m : IDMap.t K) : list Z :=
  match o with
  | op_add a =>
      match (IDMap.add a m).1 with
      | Ok v => [v]
      | Raise _ => []
      end
  | _ => []
  end.

(** The ids that the calls of [add] in a sequence return, in order. *)
Fixpoint idmap_added (ops : list idmap_op) (m : IDMap.t K) : list Z :=
  match ops with
  | [] => []
  | o :: ops' => added_by o m ++ idmap_added ops' (idmap_call o m)
  end.

(** The two dictionaries are inverse of each other. *)
Definition inverse (m : IDMap.t K) : Prop :=
  ∀ v p, IDMap._vscode_to_pydevd m !! v = Some p
         ↔ IDMap._pydevd_to_vscode m !! p = Some v.

(** Every id given out is below the counter. *)
Definition below_next (m : IDMap.t K) : Prop :=
  ∀ v p, IDMap._vscode_to_pydevd m !! v = Some p → v < IDMap._next_id m.

(** A call that keeps the dictionaries inverse: [add] of a pydevd id that is
    not mapped, [remove] by one key, or by a pair that is mapped. *)
Definition guarded_call (o : idmap_op) (m : IDMap.t K) : Prop :=
  match o with
  | op_add (IDMap.Plain p) => IDMap._pydevd_to_vscode m !! p = None
  | op_add (IDMap.Callable f) =>
      IDMap._pydevd_to_vscode m !! f (IDMap._next_id m) = None
  | op_remove (Some p) (Some v) => IDMap._pydevd_to_vscode m !! p = Some v
  | _ => True
  end.

Fixpoint guarded (ops : list idmap_op) (m : IDMap.t K) : Prop :=
  match ops with
  | [] => True
  | o :: ops' => guarded_call o m ∧ guarded ops' (idmap_call o m)
  end.

End IDMap_calls.
Arguments idmap_op K : clear implicits.

(** A call on a [PydevdSocket]. *)
Inductive socket_op : Type :=
| op_notify (cmd_id : Z) (args : string)
| op_request (loop : EventLoop) (cmd_id : Z) (args : string)
| op_send (data : string).

Section socket_calls.
Variable urllib_unquote : string → string.
Variable int : string → option Z.

Definition socket_call (o : socket_op) (s : PydevdSocket.t) : PydevdSocket.t :=
  match o with
  | op_notify c a => (PydevdSocket.pydevd_notify c a s).2
  | op_request l c a => (PydevdSocket.pydevd_request l c a s).2
  | op_send d => (PydevdSocket.send urllib_unquote int d s).2
  end.

Definition socket_run (ops : list socket_op) (s : PydevdSocket.t) : PydevdSocket.t :=
  foldl (λ s o, socket_call o s) s ops.

End socket_calls.

(** The sequence numbers that [make_packet] returns to the calls of a
    sequence, in order. *)
Definition issued_by (o : socket_op) (s : PydevdSocket.t) : list Z :=
  match o with
  | op_notify c a | op_request _ c a =>
      match (PydevdSocket.make_packet c a s).1 with
      | Ok p => [p.1]
      | Raise _ => []
      end
  | op_send _ => []
  end.

Section socket_issued.
Variable urllib_unquote : string → string.
Variable int : string → option Z.

Fixpoint socket_issued (ops : list socket_op) (s : PydevdSocket.t) : list Z :=
  match ops with
  | [] => []
  | o :: ops' =>
      issued_by o s ++ socket_issued ops' (socket_call urllib_unquote int o s)
  end.

End socket_issued.

(** The sequence number and the event loop of each call of
    [pydevd_request] in a sequence, in order. *)
Definition requester_of (o : socket_op) (s : PydevdSocket.t) : list (Z * EventLoop) :=
  match o with
  | op_request l c a =>
      match (PydevdSocket.make_packet c a s).1 with
      | Ok p => [(p.1, l)]
      | Raise _ => []
      end
  | _ => []
  end.

Section socket_requesters.
Variable urllib_unquote : string → string.
Variable int : string → option Z.

Fixpoint socket_requesters (ops : list socket_op) (s : PydevdSocket.t)
    : list (Z * EventLoop) :=
  match ops with
  | [] => []
  | o :: ops' =>
      requester_of o s ++ socket_requesters ops' (socket_call urllib_unquote int o s)
  end.

End socket_requesters.

(** A reader of decimal numerals, to stand for [int] in the examples. *)
Fixpoint digits (s : string) (acc : N) : option N :=
  match s with
  | EmptyString => Some acc
  | String c r =>
      let n := N_of_ascii c in
      if (48 <=? n)%N && (n <=? 57)%N then digits r (10 * acc + (n - 48))%N
      else None
  end.

Definition decimal (s : string) : option Z :=
  match s with
  | EmptyString => None
  | String c r =>
      if Ascii.eqb c "-" then
        match r with
        | EmptyString => None
        | _ => (λ n, - Z.of_N n) <$> digits r 0
        end
      else Z.of_N <$> digits s 0
  end.

(** The command id and arguments of the packets that a sequence of calls
    makes, in order. *)
Definition socket_packets (ops : list socket_op) : list (Z * string) :=
  omap (λ o, match o with
             | op_notify c a => Some (c, a)
             | op_request _ c a => Some (c, a)
             | op_send _ => None
             end) ops.

(** The slice [l[start : start + count]] of a list, for [start >= 0]. *)
Definition slice {A} (l : list A) (start count : Z) : list A :=
  take (Z.to_nat count) (drop (Z.to_nat start) l).

(** ** The states the processor goes through *)

(** What the processor is given to handle: a request of the IDE, the reply of
    pydevd that resumes a handler, or an event of pydevd. *)
Inductive call : Type :=
| threads_request (request : Z)
| threads_reply (request : Z) (xthreads : list xthread)
| stackTrace_request (request threadId startFrame levels : Z)
| scopes_request (request frameId : Z)
| variables_request (request variablesReference : Z)
| variables_reply (request : Z) (pyd_var : list atom) (xvars : list xvar)
| pause_request (request threadId : Z)
| continue_request (request threadId : Z)
| next_request (request threadId : Z)
| stepIn_request (request threadId : Z)
| stepOut_request (request threadId : Z)
| setBreakpoints_request (request : Z) (path : string) (lines : list Z)
| thread_create_event (seq : Z) (xthread : xthread)
| thread_kill_event (seq : Z) (args : string)
| thread_suspend_event (seq : Z) (xthread : xsuspended)
| thread_run_event (seq : Z) (args : string).

Section handle.
Variable urllib_unquote : string → string.
Variable int : string → option Z.

(** The processor after a call; a handler that raises leaves what it had
    done ([async_handler] and the reading loops report the exception). *)
Definition handle (c : call) (st : VSCodeMessageProcessor.t)
    : VSCodeMessageProcessor.t :=
  match c with
  | threads_request r => (VSCodeMessageProcessor.on_threads r st).2
  | threads_reply r xs =>
      (VSCodeMessageProcessor.on_threads_resumed urllib_unquote r xs st).2
  | stackTrace_request r t s l =>
      (VSCodeMessageProcessor.on_stackTrace urllib_unquote int r t s l st).2
  | scopes_request r f => (VSCodeMessageProcessor.on_scopes r f st).2
  | variables_request r v => (VSCodeMessageProcessor.on_variables r v st).2
  | variables_reply r p xs =>
      (VSCodeMessageProcessor.on_variables_resumed urllib_unquote r p xs st).2
  | pause_request r t => (VSCodeMessageProcessor.on_pause r t st).2
  | continue_request r t => (VSCodeMessageProcessor.on_continue r t st).2
  | next_request r t => (VSCodeMessageProcessor.on_next r t st).2
  | stepIn_request r t => (VSCodeMessageProcessor.on_stepIn r t st).2
  | stepOut_request r t => (VSCodeMessageProcessor.on_stepOut r t st).2
  | setBreakpoints_request r p ls =>
      (VSCodeMessageProcessor.on_setBreakpoints r p ls st).2
  | thread_create_event q x => (VSCodeMessageProcessor.on_pydevd_thread_create q x st).2
  | thread_kill_event q a => (VSCodeMessageProcessor.on_pydevd_thread_kill q a st).2
  | thread_suspend_event q x =>
      (VSCodeMessageProcessor.on_pydevd_thread_suspend int q x st).2
  | thread_run_event q a => (VSCodeMessageProcessor.on_pydevd_thread_run q a st).2
  end.

(** The states that the calls lead to from the initial one. *)
Inductive reachable : VSCodeMessageProcessor.t → Prop :=
| reachable_init loop : reachable (VSCodeMessageProcessor.init loop)
| reachable_handle c st : reachable st → reachable (handle c st).

End handle.

(** The dictionaries of a map are inverse and its ids below its counter. *)
Definition consistent {K : Type} `{Countable K} (m : IDMap.t K) : Prop :=
  inverse m ∧ below_next m.

(** The thread, frame and variable maps are consistent. *)
Definition maps_ok (st : VSCodeMessageProcessor.t) : Prop :=
  consistent (VSCodeMessageProcessor.thread_map st)
  ∧ consistent (VSCodeMessageProcessor.frame_map st)
  ∧ consistent (VSCodeMessageProcessor.var_map st)
  ∧ ∀ p v, IDMap._pydevd_to_vscode (VSCodeMessageProcessor.var_map st) !! p = Some v
           → p ≠ [].

(** ** The vocabulary of the statements *)

Section IDMap_vocabulary.
Context {K : Type} `{Countable K}.
Implicit Types (m : IDMap.t K).

(** The pydevd id that [add] stores. *)
Definition id_of (a : IDMap.id_arg K) (vscode_id : Z) : K :=
  match a with
  | IDMap.Plain p => p
  | IDMap.Callable f => f vscode_id
  end.

(** [m'] has what [m] has, and what it has besides was given out at or after
    [m]'s counter. *)
Definition extends m m' : Prop :=
  (∀ p v, IDMap._pydevd_to_vscode m !! p = Some v →
          IDMap._pydevd_to_vscode m' !! p = Some v)
  ∧ IDMap._next_id m ≤ IDMap._next_id m'
  ∧ (∀ p v, IDMap._pydevd_to_vscode m' !! p = Some v →
            IDMap._pydevd_to_vscode m !! p = Some v ∨ IDMap._next_id m ≤ v).

(** [ref] is the id that [m'] has for [p]: the one [m] had, or one given out
    since. *)
Definition references m m' (p : K) (ref : Z) : Prop :=
  IDMap._pydevd_to_vscode m' !! p = Some ref
  ∧ match IDMap._pydevd_to_vscode m !! p with
    | Some old => ref = old
    | None => IDMap._next_id m ≤ ref
    end.

(** What holds of the map [m] while a loop that removes the pairs selected
    by [P] has [rest] to go over: the pairs of [m0] that are selected and
    already passed are gone, the others are there. *)
Definition removing (P : K → Prop) m0 (rest : list (K * Z)) m : Prop :=
  inverse m
  ∧ IDMap._next_id m = IDMap._next_id m0
  ∧ ∀ p v, IDMap._pydevd_to_vscode m !! p = Some v
           ↔ IDMap._pydevd_to_vscode m0 !! p = Some v ∧ (P p → (p, v) ∈ rest).

End IDMap_vocabulary.

(** The socket after [n] notifications that wrote [written]. *)
Definition notified (n : Z) (written : list string) (s : PydevdSocket.t)
    : PydevdSocket.t :=
  PydevdSocket.mk (PydevdSocket.seq s + n) (PydevdSocket.requests s)
    (PydevdSocket.pipe s ++ written) (PydevdSocket.futures s).

(** The pydevd id of a frame, or of a variable, is scoped to thread [tid]: its
    first component is [tid]. *)
Definition frame_of_thread (tid : string) (pyd_fid : string * Z) : Prop :=
  pyd_fid.1 = tid.

Definition var_of_thread (tid : string) (pyd_var : list atom) : Prop :=
  head pyd_var = Some (AStr tid).

#[global] Instance frame_of_thread_dec tid p : Decision (frame_of_thread tid p).
Proof. unfold frame_of_thread. apply _. Defined.

#[global] Instance var_of_thread_dec tid p : Decision (var_of_thread tid p).
Proof. unfold var_of_thread. apply _. Defined.

(** The pydevd ids of the variable map are tuples with a first component. *)
Definition var_ids_nonempty (m : IDMap.t (list atom)) : Prop :=
  ∀ p v, IDMap._pydevd_to_vscode m !! p = Some v → p ≠ [].

(** The page of the cached frames that the specification asks for: the
    frames at indices [startFrame] to [startFrame + levels - 1], or all from
    [startFrame] on when [levels] is 0. *)
Definition page (xframes : list xframe) (startFrame levels : Z) : list xframe :=
  if (levels =? 0)%Z then drop (Z.to_nat startFrame) xframes
  else slice xframes startFrame levels.

(** The page that the stackTrace handler answers with: [levels] frames from
    [startFrame] on, where a [levels] of 0 stands for [len] of the cached
    value. *)
Definition served (xframes : list xframe) (startFrame levels : Z) : list xframe :=
  slice xframes startFrame
    (if (levels =? 0)%Z then VSCodeMessageProcessor.len xframes else levels).

Section response_vocabulary.
Variable urllib_unquote : string → string.
Variable int : string → option Z.

(** A thread of the reply that the name filter lets through. *)
Definition shown (xt : xthread) : Prop :=
  VSCodeMessageProcessor.is_pydevd_name
    (VSCodeMessageProcessor.unquote urllib_unquote (xthread_name xt)) = false.

#[global] Instance shown_dec xt : Decision (shown xt).
Proof. unfold shown. apply _. Defined.

(** The frame's [id] and [line] attributes are numerals. *)
Definition numbered (xf : xframe) : Prop :=
  is_Some (int (xframe_id xf)) ∧ is_Some (int (xframe_line xf)).

(** The stack frame of the response that presents [xf], with the frame id
    that [m] has for the frame of thread [tid]. *)
Definition presents (tid : string) (m : IDMap.t (string * Z))
    (xf : xframe) (sf : StackFrame) : Prop :=
  ∃ pyd_fid line,
    int (xframe_id xf) = Some pyd_fid
    ∧ int (xframe_line xf) = Some line
    ∧ IDMap._pydevd_to_vscode m !! (tid, pyd_fid) = Some (frame_id sf)
    ∧ sf = {| frame_id := frame_id sf;
              frame_name := VSCodeMessageProcessor.unquote urllib_unquote (xframe_name xf);
              frame_source_path :=
                VSCodeMessageProcessor.unquote urllib_unquote (xframe_file xf);
              frame_line := line; frame_column := 0 |}.

(** The variable of the response that presents [xv], a child of [pyd_var]:
    a container has the id of the child path as its [variablesReference], the
    id the variable map [m] already had for it or else one given out since;
    another variable has no [variablesReference]. *)
Definition lists (pyd_var : list atom) (m m' : IDMap.t (list atom))
    (xv : xvar) (var : Variable_) : Prop :=
  var_name var = urllib_unquote (xvar_name xv)
  ∧ var_type var = VSCodeMessageProcessor.unquote urllib_unquote (xvar_type xv)
  ∧ var_value var = VSCodeMessageProcessor.unquote urllib_unquote (xvar_value xv)
  ∧ if py_bool (xvar_isContainer xv)
    then ∃ ref, var_variablesReference var = Some ref
                ∧ references m m' (pyd_var ++ [AStr (var_name var)]) ref
    else var_variablesReference var = None.

End response_vocabulary.

(** A computation keeps an invariant of the state, whether it returns or
    raises. *)
Definition preserves {S A} (I : S → Prop) (c : M S A) : Prop :=
  ∀ s, I s → I (c s).2.

(** The number of occurrences of a character in a string. *)
Fixpoint count_char (c : ascii) (s : string) : nat :=
  match s with
  | EmptyString => 0%nat
  | String c' r => (if Ascii.eqb c' c then 1 else 0)%nat + count_char c r
  end.

(** Every pending request has a sequence number and a future that were
    given out already. *)
Definition pending_below (s : PydevdSocket.t) : Prop :=
  ∀ q l f, PydevdSocket.requests s !! q = Some (l, f) →
           q < PydevdSocket.seq s ∧ (f < PydevdSocket.futures s)%nat.

(** The ids of a map start at 1. *)
Definition ids_from_one {K : Type} `{Countable K} (m : IDMap.t K) : Prop :=
  1 ≤ IDMap._next_id m
  ∧ ∀ v p, IDMap._vscode_to_pydevd m !! v = Some p → 1 ≤ v.

(** The processor after a handler has sent one notification [cmd] for thread
    [pyd_tid] and then its response. *)
Definition stepped (cmd : Z) (request : Z) (pyd_tid : string)
    (st : VSCodeMessageProcessor.t) : VSCodeMessageProcessor.t :=
  VSCodeMessageProcessor.upd_sent
    (VSCodeMessageProcessor.sent st ++ [response request no_body])
    (VSCodeMessageProcessor.upd_pydevd
       (notified 1
          [PydevdSocket.packet cmd
             (PydevdSocket.seq (VSCodeMessageProcessor.pydevd st)) pyd_tid]
          (VSCodeMessageProcessor.pydevd st)) st).

(** The breakpoint map holds the pairs ((path, id), id) for the ids from
    [first] up to its counter, and nothing else. *)
Definition tracks (path : string) (first : Z) (m : IDMap.t (string * Z)) : Prop :=
  first ≤ IDMap._next_id m
  ∧ (∀ p v, IDMap._pydevd_to_vscode m !! p = Some v
            ↔ p = (path, v) ∧ first ≤ v < IDMap._next_id m)
  ∧ (∀ v p, IDMap._vscode_to_pydevd m !! v = Some p
            ↔ p = (path, v) ∧ first ≤ v < IDMap._next_id m).

(** The arguments of the remove-breakpoint and set-breakpoint commands. *)
Definition remove_break_args (path : string) (vsc_bpid : Z) : string :=
  "python-line" +:+ tab +:+ path +:+ tab +:+ pretty vsc_bpid.

Definition set_break_args (path : string) (vsc_bpid line : Z) : string :=
  pretty vsc_bpid +:+ tab +:+ "python-line" +:+ tab +:+ path +:+ tab +:+
  pretty line +:+ tab +:+ "None" +:+ tab +:+ "None" +:+ tab +:+ "None".

(** The breakpoint of the response for a line, and the packets of the two
    loops of [on_setBreakpoints]. *)
Definition verified (vsc_bpid line : Z) : Breakpoint :=
  {| bp_id := vsc_bpid; bp_verified := true; bp_line := line |}.

Definition remove_packets (path : string) (q : Z) (old : list ((string * Z) * Z))
    : list string :=
  zip_with (λ q b, PydevdSocket.packet CMD_REMOVE_BREAK q (remove_break_args path b.2))
    (seqZ q (Z.of_nat (length old))) old.

Definition set_packets (path : string) (q first : Z) (lines : list Z) : list string :=
  zip_with (λ q b, PydevdSocket.packet CMD_SET_BREAK q (set_break_args path b.1 b.2))
    (seqZ q (Z.of_nat (length lines)))
    (zip (seqZ first (Z.of_nat (length lines))) lines).

(** The command ids that have a handler in [pydevd_events]. *)
Definition supported_commands : list Z :=
  [CMD_THREAD_CREATE; CMD_THREAD_KILL; CMD_THREAD_SUSPEND; CMD_THREAD_RUN;
   CMD_SEND_CURR_EXCEPTION_TRACE; CMD_SEND_CURR_EXCEPTION_TRACE_PROCEEDED].

(** ** The state-and-exception monad *)

Lemma bind_Ok {S A B} (c : M S A) (k : A → M S B) s a s' :
  c s = (Ok a, s') → bind c k s = k a s'.
Proof. unfold bind. by intros ->. Qed.

Lemma bind_Raise {S A B} (c : M S A) (k : A → M S B) s e s' :
  c s = (Raise e, s') → bind c k s = (Raise e, s').
Proof. unfold bind. by intros ->. Qed.

(** A loop whose body never raises under an invariant runs to its end, and
    the invariant holds there. [I] is told what is left to iterate over. *)
Lemma for_invariant {S A} (I : list A → S → Prop) (body : A → M S unit) l s :
  I l s →
  (∀ x r s, I (x :: r) s → ∃ s', body x s = (Ok tt, s') ∧ I r s') →
  ∃ s', for_ l body s = (Ok tt, s') ∧ I [] s'.
Proof.
  intros HI Hbody. revert s HI.
  induction l as [|x r IH]; intros s HI.
  - by exists s.
  - destruct (Hbody x r s HI) as (s1 & Hx & H1).
    destruct (IH s1 H1) as (s' & Hr & H').
    exists s'. split; [|done].
    cbn. by rewrite (bind_Ok _ _ _ _ _ Hx).
Qed.

Lemma preserves_ret {S A} (I : S → Prop) (a : A) : preserves I (ret a).
Proof. by intros s. Qed.

Lemma preserves_raise {S A} (I : S → Prop) e : preserves I (raise (A:=A) e).
Proof. by intros s. Qed.

Lemma preserves_get {S} (I : S → Prop) : preserves I get.
Proof. by intros s. Qed.

Lemma preserves_modify {S} (I : S → Prop) (f : S → S) :
  (∀ s, I s → I (f s)) → preserves I (modify f).
Proof. intros Hf s Hs. by apply Hf. Qed.

Lemma preserves_bind {S A B} (I : S → Prop) (c : M S A) (k : A → M S B) :
  preserves I c → (∀ a, preserves I (k a)) → preserves I (bind c k).
Proof.
  intros Hc Hk s Hs. unfold bind. specialize (Hc s Hs).
  destruct (c s) as [[a|e] s']; [by apply Hk|done].
Qed.

Lemma preserves_for_ {S A} (I : S → Prop) (l : list A) (body : A → M S unit) :
  (∀ x, preserves I (body x)) → preserves I (for_ l body).
Proof.
  intros Hbody. induction l as [|x l IH]; [apply preserves_ret|].
  cbn. apply preserves_bind; [apply Hbody|]. by intros _.
Qed.

Lemma preserves_except_KeyError {S A} (I : S → Prop) (c h : M S A) :
  preserves I c → preserves I h → preserves I (except_KeyError c h).
Proof.
  intros Hc Hh s Hs. unfold except_KeyError. specialize (Hc s Hs).
  destruct (c s) as [[a|[]] s']; try done. by apply Hh.
Qed.

(** ** IDMap *)

Section IDMap_facts.
Context {K : Type} `{Countable K}.
Implicit Types (m : IDMap.t K) (p : K) (v : Z).

Lemma init_inverse : inverse (IDMap.init (K:=K)).
Proof. intros v p. cbn. by rewrite !lookup_empty. Qed.

Lemma init_below_next : below_next (IDMap.init (K:=K)).
Proof. intros v p. cbn. by rewrite lookup_empty. Qed.

Lemma inverse_insert m v p n :
  inverse m →
  IDMap._vscode_to_pydevd m !! v = None →
  IDMap._pydevd_to_vscode m !! p = None →
  inverse (IDMap.mk (<[v:=p]> (IDMap._vscode_to_pydevd m))
                    (<[p:=v]> (IDMap._pydevd_to_vscode m)) n).
Proof.
  intros Hinv Hv Hp v' p'. cbn.
  destruct (decide (v = v')) as [<-|Hne]; destruct (decide (p = p')) as [<-|Hne'].
  - by rewrite !lookup_insert_eq.
  - rewrite lookup_insert_eq, lookup_insert_ne by done.
    split; [congruence|]. intros Hp'. apply Hinv in Hp'. congruence.
  - rewrite lookup_insert_eq, lookup_insert_ne by done.
    split; [|congruence]. intros Hv'. apply Hinv in Hv'. congruence.
  - rewrite !lookup_insert_ne by done. apply Hinv.
Qed.

Lemma inverse_delete m v p n :
  inverse m →
  IDMap._pydevd_to_vscode m !! p = Some v →
  inverse (IDMap.mk (delete v (IDMap._vscode_to_pydevd m))
                    (delete p (IDMap._pydevd_to_vscode m)) n).
Proof.
  intros Hinv Hp v' p'. cbn.
  rewrite !lookup_delete_Some. split.
  - intros [Hne Hv']. apply Hinv in Hv'. split; [|done].
    intros <-. congruence.
  - intros [Hne Hp']. apply Hinv in Hp'. split; [|done].
    intros <-. apply Hinv in Hp. congruence.
Qed.

Lemma below_next_fresh m : below_next m → IDMap._vscode_to_pydevd m !! IDMap._next_id m = None.
Proof.
  intros Hb. destruct (_ !! _) as [p|] eqn:E; [|done].
  apply Hb in E. lia.
Qed.

End IDMap_facts.

Section IDMap_call_facts.
Context {K : Type} `{Countable K}.
Implicit Types (m : IDMap.t K) (p : K) (v : Z) (o : idmap_op K).

Lemma add_eq a m :
  IDMap.add a m =
  (Ok (IDMap._next_id m),
   IDMap.mk (<[IDMap._next_id m := id_of a (IDMap._next_id m)]> (IDMap._vscode_to_pydevd m))
            (<[id_of a (IDMap._next_id m) := IDMap._next_id m]> (IDMap._pydevd_to_vscode m))
            (IDMap._next_id m + 1)).
Proof. by destruct a. Qed.

Lemma to_vscode_mapped p g m v :
  IDMap._pydevd_to_vscode m !! p = Some v → IDMap.to_vscode p g m = (Ok v, m).
Proof. unfold IDMap.to_vscode. by intros ->. Qed.

Lemma to_vscode_autogen p m :
  IDMap._pydevd_to_vscode m !! p = None →
  IDMap.to_vscode p true m = IDMap.add (IDMap.Plain p) m.
Proof. unfold IDMap.to_vscode. by intros ->. Qed.

Lemma to_vscode_KeyError p m :
  IDMap._pydevd_to_vscode m !! p = None →
  IDMap.to_vscode p false m = (Raise KeyError, m).
Proof. unfold IDMap.to_vscode. by intros ->. Qed.

(** [remove] of a mapped pair deletes both directions. *)
Lemma remove_pair p v m :
  IDMap._vscode_to_pydevd m !! v = Some p →
  IDMap._pydevd_to_vscode m !! p = Some v →
  IDMap.remove (Some p) (Some v) m =
  (Ok tt, IDMap.mk (delete v (IDMap._vscode_to_pydevd m))
                   (delete p (IDMap._pydevd_to_vscode m)) (IDMap._next_id m)).
Proof. unfold IDMap.remove. by intros -> ->. Qed.

(** What a call of [remove] leaves, whatever it was given: the map as it
    was, the map without one VSCode id, or the map without a pair. *)
Lemma remove_cases op ov m :
  (IDMap.remove op ov m).2 = m
  ∨ (∃ v, (IDMap.remove op ov m).2 =
          IDMap.mk (delete v (IDMap._vscode_to_pydevd m))
                   (IDMap._pydevd_to_vscode m) (IDMap._next_id m))
  ∨ (∃ p v, (IDMap.remove op ov m).2 =
            IDMap.mk (delete v (IDMap._vscode_to_pydevd m))
                     (delete p (IDMap._pydevd_to_vscode m)) (IDMap._next_id m)).
Proof.
  unfold IDMap.remove, IDMap.getitem.
  destruct op as [p|], ov as [v|]; cbn.
  - destruct (IDMap._vscode_to_pydevd m !! v); [|by left].
    destruct (IDMap._pydevd_to_vscode m !! p); cbn; eauto 6.
  - destruct (IDMap._pydevd_to_vscode m !! p) as [v|] eqn:Ep; [|by left].
    destruct (IDMap._vscode_to_pydevd m !! v); [|by left].
    rewrite Ep. cbn. eauto 6.
  - destruct (IDMap._vscode_to_pydevd m !! v) as [p|] eqn:Ev; [|by left].
    rewrite Ev.
    destruct (IDMap._pydevd_to_vscode m !! p); cbn; eauto 6.
  - by left.
Qed.

(** No call lowers the counter. *)
Lemma next_id_call o m : IDMap._next_id m ≤ IDMap._next_id (idmap_call o m).
Proof.
  destruct o as [a|op ov|p g]; cbn.
  - rewrite add_eq. cbn. lia.
  - destruct (remove_cases op ov m) as [->|[(v & ->)|(p & v & ->)]]; cbn; lia.
  - unfold IDMap.to_vscode. destruct (_ !! _); [done|].
    destruct g; [|done]. rewrite add_eq. cbn. lia.
Qed.

(** A call gives an id that is already below the counter no new meaning. *)
Lemma old_id_call o m v p :
  v < IDMap._next_id m →
  IDMap._vscode_to_pydevd (idmap_call o m) !! v = Some p →
  IDMap._vscode_to_pydevd m !! v = Some p.
Proof.
  intros Hlt. destruct o as [a|op ov|q g]; cbn.
  - rewrite add_eq. cbn. rewrite lookup_insert_ne by lia. done.
  - destruct (remove_cases op ov m) as [->|[(v' & ->)|(p' & v' & ->)]]; cbn;
      [done|rewrite lookup_delete_Some; tauto..].
  - unfold IDMap.to_vscode. destruct (IDMap._pydevd_to_vscode m !! q); [done|].
    destruct g; [|done]. rewrite add_eq. cbn. rewrite lookup_insert_ne by lia. done.
Qed.

Lemma below_next_call o m : below_next m → below_next (idmap_call o m).
Proof.
  intros Hb v p Hv.
  destruct (decide (v < IDMap._next_id m)) as [Hlt|Hge].
  { pose proof (next_id_call o m). lia. }
  revert Hv. destruct o as [a|op ov|q g]; cbn.
  - rewrite add_eq. cbn. rewrite lookup_insert_Some.
    intros [[<- _]|[_ Hv]]; [lia|]. apply Hb in Hv. lia.
  - destruct (remove_cases op ov m) as [->|[(v' & ->)|(p' & v' & ->)]]; cbn;
      rewrite ?lookup_delete_Some; intros Hv; eapply Hb; apply Hv.
  - unfold IDMap.to_vscode. destruct (IDMap._pydevd_to_vscode m !! q).
    { intros Hv. apply Hb in Hv. lia. }
    destruct g; [|intros Hv; apply Hb in Hv; lia].
    rewrite add_eq. cbn. rewrite lookup_insert_Some.
    intros [[<- _]|[_ Hv]]; [lia|]. apply Hb in Hv. lia.
Qed.

Lemma below_next_run ops m : below_next m → below_next (idmap_run ops m).
Proof.
  revert m. induction ops as [|o ops IH]; intros m Hb; [done|].
  cbn. by apply IH, below_next_call.
Qed.

Lemma next_id_run ops m : IDMap._next_id m ≤ IDMap._next_id (idmap_run ops m).
Proof.
  revert m. induction ops as [|o ops IH]; intros m; [done|].
  cbn. pose proof (next_id_call o m). pose proof (IH (idmap_call o m)).
  unfold idmap_run in *. lia.
Qed.

Lemma old_id_run ops m v p :
  v < IDMap._next_id m →
  IDMap._vscode_to_pydevd (idmap_run ops m) !! v = Some p →
  IDMap._vscode_to_pydevd m !! v = Some p.
Proof.
  revert m. induction ops as [|o ops IH]; intros m Hlt; [done|].
  cbn. intros Hv. apply (old_id_call o); [done|].
  apply IH; [|done]. pose proof (next_id_call o m). lia.
Qed.

Lemma idmap_added_sorted ops m :
  StronglySorted Z.lt (idmap_added ops m)
  ∧ Forall (λ v, IDMap._next_id m ≤ v) (idmap_added ops m).
Proof.
  revert m. induction ops as [|o ops IH]; intros m; cbn.
  { split; constructor. }
  destruct (IH (idmap_call o m)) as [Hs Hf].
  assert (Forall (λ v, IDMap._next_id m ≤ v) (idmap_added ops (idmap_call o m))) as Hf'.
  { eapply Forall_impl; [exact Hf|]. cbn. intros v Hv.
    pose proof (next_id_call o m). lia. }
  destruct o as [a|op ov|q g]; cbn; [|done..].
  rewrite add_eq. cbn. split.
  - constructor; [done|].
    eapply Forall_impl; [exact Hf|]. cbn. rewrite add_eq. cbn. lia.
  - constructor; [lia|done].
Qed.

(** A guarded call keeps the dictionaries inverse. *)
Lemma inverse_call o m :
  inverse m → below_next m → guarded_call o m → inverse (idmap_call o m).
Proof.
  intros Hinv Hb Hg. destruct o as [a|op ov|q g]; cbn.
  - rewrite add_eq. cbn. apply inverse_insert; [done|by apply below_next_fresh|].
    by destruct a.
  - unfold IDMap.remove, IDMap.getitem. destruct op as [p|], ov as [v|]; cbn in *.
    + assert (IDMap._vscode_to_pydevd m !! v = Some p) as Hv by by apply Hinv.
      rewrite Hv, Hg. cbn. by apply inverse_delete.
    + destruct (IDMap._pydevd_to_vscode m !! p) as [v|] eqn:Ep; [|done].
      assert (IDMap._vscode_to_pydevd m !! v = Some p) as Hv by by apply Hinv.
      rewrite Hv, Ep. cbn. by apply inverse_delete.
    + destruct (IDMap._vscode_to_pydevd m !! v) as [p|] eqn:Ev; [|done].
      assert (IDMap._pydevd_to_vscode m !! p = Some v) as Hp by by apply Hinv.
      rewrite Ev, Hp. cbn. by apply inverse_delete.
    + done.
  - unfold IDMap.to_vscode.
    destruct (IDMap._pydevd_to_vscode m !! q) eqn:Eq; [done|].
    destruct g; [|done]. rewrite add_eq. cbn.
    apply inverse_insert; [done|by apply below_next_fresh|done].
Qed.

Lemma inverse_run ops m :
  inverse m → below_next m → guarded ops m → inverse (idmap_run ops m).
Proof.
  revert m. induction ops as [|o ops IH]; intros m Hinv Hb Hg; [done|].
  destruct Hg as [Ho Hg]. cbn.
  apply IH; [by apply inverse_call|by apply below_next_call|done].
Qed.

End IDMap_call_facts.

(** ** PydevdSocket *)

Section PydevdSocket_facts.
Variable urllib_unquote : string → string.
Variable int : string → option Z.
Implicit Types (s : PydevdSocket.t).

Lemma make_packet_eq c a s :
  PydevdSocket.make_packet c a s =
  (Ok (PydevdSocket.seq s, PydevdSocket.packet c (PydevdSocket.seq s) a),
   PydevdSocket.set_seq (λ n, n + 1) s).
Proof. done. Qed.

Lemma pydevd_notify_eq c a s :
  PydevdSocket.pydevd_notify c a s =
  (Ok tt,
   PydevdSocket.mk (PydevdSocket.seq s + 1) (PydevdSocket.requests s)
     (PydevdSocket.pipe s ++ [PydevdSocket.packet c (PydevdSocket.seq s) a])
     (PydevdSocket.futures s)).
Proof. done. Qed.

Lemma pydevd_request_eq l c a s :
  PydevdSocket.pydevd_request l c a s =
  (Ok (PydevdSocket.futures s),
   PydevdSocket.mk (PydevdSocket.seq s + 1)
     (<[PydevdSocket.seq s := (l, PydevdSocket.futures s)]> (PydevdSocket.requests s))
     (PydevdSocket.pipe s ++ [PydevdSocket.packet c (PydevdSocket.seq s) a])
     (S (PydevdSocket.futures s))).
Proof. done. Qed.

(** [send] of a packet that parses. *)
Lemma send_parsed data c q a cmd_id seq s :
  py_split TAB 2 (urllib_unquote data) = [c; q; a] →
  int c = Some cmd_id → int q = Some seq →
  PydevdSocket.send urllib_unquote int data s =
  match PydevdSocket.requests s !! seq with
  | None =>
      (Ok (Z.of_nat (String.length data), PydevdSocket.event_handler cmd_id seq a), s)
  | Some (loop, fut) =>
      (Ok (Z.of_nat (String.length data),
           PydevdSocket.call_soon_threadsafe loop fut (cmd_id, seq, a)),
       PydevdSocket.set_requests (delete seq) s)
  end.
Proof.
  intros Hsplit Hc Hq. unfold PydevdSocket.send. rewrite Hsplit.
  unfold PydevdSocket.py_int, bind. rewrite Hc, Hq. cbn.
  by destruct (PydevdSocket.requests s !! seq) as [[loop fut]|].
Qed.

(** [send] neither writes to the pipe nor moves the counter. *)
Lemma send_seq_pipe data s :
  PydevdSocket.seq (PydevdSocket.send urllib_unquote int data s).2 = PydevdSocket.seq s
  ∧ PydevdSocket.pipe (PydevdSocket.send urllib_unquote int data s).2 = PydevdSocket.pipe s.
Proof.
  unfold PydevdSocket.send.
  destruct (py_split TAB 2 (urllib_unquote data)) as [|c [|q [|a [|]]]]; try done.
  unfold PydevdSocket.py_int, bind.
  destruct (int c) as [cmd_id|]; [|done]. cbn.
  destruct (int q) as [seq|]; [|done]. cbn.
  by destruct (PydevdSocket.requests s !! seq) as [[loop fut]|].
Qed.

Lemma socket_run_packets ops s :
  let n := Z.of_nat (length (socket_packets ops)) in
  let s' := socket_run urllib_unquote int ops s in
  PydevdSocket.seq s' = PydevdSocket.seq s + n
  ∧ socket_issued urllib_unquote int ops s = seqZ (PydevdSocket.seq s) n
  ∧ PydevdSocket.pipe s' =
    PydevdSocket.pipe s ++
    zip_with (λ q c, PydevdSocket.packet c.1 q c.2)
             (seqZ (PydevdSocket.seq s) n) (socket_packets ops).
Proof.
  revert s. induction ops as [|o ops IH]; intros s.
  { cbn. rewrite app_nil_r. repeat split; lia. }
  specialize (IH (socket_call urllib_unquote int o s)).
  destruct IH as (IHseq & IHiss & IHpipe).
  assert (∀ c a l,
    socket_call urllib_unquote int o s =
      PydevdSocket.mk (PydevdSocket.seq s + 1) l
        (PydevdSocket.pipe s ++ [PydevdSocket.packet c (PydevdSocket.seq s) a])
        (PydevdSocket.futures (socket_call urllib_unquote int o s)) →
    issued_by o s = [PydevdSocket.seq s] →
    socket_packets (o :: ops) = (c, a) :: socket_packets ops →
    let n := Z.of_nat (length (socket_packets (o :: ops))) in
    let s' := socket_run urllib_unquote int (o :: ops) s in
    PydevdSocket.seq s' = PydevdSocket.seq s + n
    ∧ socket_issued urllib_unquote int (o :: ops) s = seqZ (PydevdSocket.seq s) n
    ∧ PydevdSocket.pipe s' =
      PydevdSocket.pipe s ++
      zip_with (λ q c, PydevdSocket.packet c.1 q c.2)
               (seqZ (PydevdSocket.seq s) n) (socket_packets (o :: ops))) as Hstep.
  { intros c a l Hcall Hiss Hps. cbv zeta.
    change (socket_run urllib_unquote int (o :: ops) s)
      with (socket_run urllib_unquote int ops (socket_call urllib_unquote int o s)).
    change (socket_issued urllib_unquote int (o :: ops) s)
      with (issued_by o s ++
            socket_issued urllib_unquote int ops (socket_call urllib_unquote int o s)).
    rewrite Hps, Hiss, IHseq, IHiss, IHpipe.
    set (ps := socket_packets ops). rewrite Hcall.
    cbn [length PydevdSocket.seq PydevdSocket.pipe].
    rewrite Nat2Z.inj_succ, (seqZ_cons (PydevdSocket.seq s)) by lia.
    replace (Z.pred (Z.succ (Z.of_nat (length ps)))) with (Z.of_nat (length ps)) by lia.
    replace (Z.succ (PydevdSocket.seq s)) with (PydevdSocket.seq s + 1) by lia.
    cbn [zip_with]. rewrite <- app_assoc.
    split; [lia|]. split; done. }
  destruct o as [c a|l c a|d].
  - by apply (Hstep c a (PydevdSocket.requests s)).
  - by apply (Hstep c a (<[PydevdSocket.seq s := (l, PydevdSocket.futures s)]>
                           (PydevdSocket.requests s))).
  - destruct (send_seq_pipe d s) as [Hseq Hpipe]. cbv zeta.
    change (socket_run urllib_unquote int (op_send d :: ops) s)
      with (socket_run urllib_unquote int ops
              (socket_call urllib_unquote int (op_send d) s)).
    change (socket_issued urllib_unquote int (op_send d :: ops) s)
      with (socket_issued urllib_unquote int ops
              (socket_call urllib_unquote int (op_send d) s)).
    change (socket_packets (op_send d :: ops)) with (socket_packets ops).
    cbn [socket_call] in *. by rewrite IHseq, IHiss, IHpipe, Hseq, Hpipe.
Qed.

Lemma seqZ_sorted m n : StronglySorted Z.lt (seqZ m n).
Proof.
  destruct (decide (0 ≤ n)) as [Hn|Hn].
  2:{ rewrite seqZ_nil by lia. constructor. }
  revert m. pattern n. apply natlike_ind; [| |done].
  - intros m. rewrite seqZ_nil by lia. constructor.
  - intros k Hk IH m. rewrite seqZ_cons by lia.
    replace (Z.pred (Z.succ k)) with k by lia.
    constructor; [apply IH|].
    apply Forall_forall. intros x Hx. apply elem_of_seqZ in Hx. lia.
Qed.

(** [send] leaves the table of pending requests as it was, or takes one
    entry out. *)
Lemma send_requests data s :
  PydevdSocket.requests (PydevdSocket.send urllib_unquote int data s).2
    = PydevdSocket.requests s
  ∨ ∃ q, PydevdSocket.requests (PydevdSocket.send urllib_unquote int data s).2
         = delete q (PydevdSocket.requests s).
Proof.
  unfold PydevdSocket.send.
  destruct (py_split TAB 2 (urllib_unquote data)) as [|c [|q [|a [|]]]]; try by left.
  unfold PydevdSocket.py_int, bind.
  destruct (int c) as [cmd_id|]; [|by left]. cbn.
  destruct (int q) as [seq|]; [|by left]. cbn.
  destruct (PydevdSocket.requests s !! seq) as [[loop fut]|]; [|by left].
  right. by exists seq.
Qed.

(** A pending request was registered by a call of [pydevd_request] that was
    given its sequence number, for the event loop of that call. *)
Lemma pending_requester ops s q l f :
  PydevdSocket.requests (socket_run urllib_unquote int ops s) !! q = Some (l, f) →
  (q, l) ∈ socket_requesters urllib_unquote int ops s
  ∨ PydevdSocket.requests s !! q = Some (l, f).
Proof.
  revert s. induction ops as [|o ops IH]; intros s Hq; [by right|].
  change (socket_run urllib_unquote int (o :: ops) s)
    with (socket_run urllib_unquote int ops (socket_call urllib_unquote int o s)) in Hq.
  change (socket_requesters urllib_unquote int (o :: ops) s)
    with (requester_of o s ++
          socket_requesters urllib_unquote int ops (socket_call urllib_unquote int o s)).
  rewrite elem_of_app.
  destruct (IH _ Hq) as [Hin|Hs1]; [by left; right|].
  destruct o as [c a|l' c a|d]; cbn [socket_call] in Hs1.
  - by right.
  - rewrite pydevd_request_eq in Hs1. cbn in Hs1.
    apply lookup_insert_Some in Hs1 as [[<- [= <- <-]]|[_ Hs]]; [|by right].
    left. left. cbn. apply list_elem_of_singleton. done.
  - destruct (send_requests d s) as [Heq|[q' Heq]]; rewrite Heq in Hs1.
    + by right.
    + apply lookup_delete_Some in Hs1 as [_ Hs1]. by right.
Qed.

End PydevdSocket_facts.

(** ** The claims about IDMap *)

(** C9: over any sequence of calls on one [IDMap] (calls of [add], with
    calls of [remove] and [to_vscode] between them or not), the ids that [add]
    returns are strictly increasing, and a VSCode id that is mapped to a
    pydevd id is never mapped to another one later: it keeps its pydevd id
    until it is removed, and is not given out again after that. *)
Theorem add_ids_increasing_never_reassigned {K : Type} `{Countable K}
    (ops : list (idmap_op K)) :
  StronglySorted Z.lt (idmap_added ops IDMap.init)
  ∧ ∀ (ops' : list (idmap_op K)) v p p',
      IDMap._vscode_to_pydevd (idmap_run ops IDMap.init) !! v = Some p →
      IDMap._vscode_to_pydevd (idmap_run (ops ++ ops') IDMap.init) !! v = Some p' →
      p = p'.
Proof.
  split; [apply idmap_added_sorted|].
  intros ops' v p p' Hv Hv'.
  unfold idmap_run in Hv'. rewrite foldl_app in Hv'.
  assert (below_next (idmap_run ops (IDMap.init (K:=K)))) as Hb
    by apply below_next_run, init_below_next.
  apply (old_id_run ops') in Hv'; [|by eapply Hb].
  unfold idmap_run in Hv. congruence.
Qed.

(** C2, as the code has it: over any sequence of calls in which [add] is
    given a pydevd id that is not mapped at that moment, and [remove], when
    given both keys, is given a pair that is mapped, the two dictionaries are
    inverse of each other after every call, each id has one partner, and
    [to_vscode] and [to_pydevd] undo each other on mapped ids. *)
Theorem guarded_calls_keep_inverse {K : Type} `{Countable K}
    (ops : list (idmap_op K)) :
  guarded ops IDMap.init →
  let m := idmap_run ops IDMap.init in
  inverse m
  ∧ (∀ e e' b, IDMap._vscode_to_pydevd m !! e = Some b →
               IDMap._vscode_to_pydevd m !! e' = Some b → e = e')
  ∧ (∀ b b' e, IDMap._pydevd_to_vscode m !! b = Some e →
               IDMap._pydevd_to_vscode m !! b' = Some e → b = b')
  ∧ (∀ e b, IDMap.to_pydevd e m = (Ok b, m) →
            IDMap.to_vscode b false m = (Ok e, m))
  ∧ (∀ b e, IDMap.to_vscode b false m = (Ok e, m) →
            IDMap.to_pydevd e m = (Ok b, m)).
Proof.
  intros Hg m.
  assert (inverse m) as Hinv
    by (apply inverse_run; [apply init_inverse|apply init_below_next|done]).
  split; [done|]. repeat split.
  - intros e e' b He He'. apply Hinv in He, He'. congruence.
  - intros b b' e Hb Hb'. apply Hinv in Hb, Hb'. congruence.
  - intros e b. unfold IDMap.to_pydevd, IDMap.getitem.
    destruct (IDMap._vscode_to_pydevd m !! e) as [b0|] eqn:E; [|done].
    intros [= ->]. apply to_vscode_mapped. by apply Hinv.
  - intros b e. unfold IDMap.to_vscode.
    destruct (IDMap._pydevd_to_vscode m !! b) as [e0|] eqn:E; [|done].
    intros [= ->]. unfold IDMap.to_pydevd, IDMap.getitem.
    apply Hinv in E. by rewrite E.
Qed.

Lemma guarded_calls_keep_inverse_witness :
  let ops := [op_add (IDMap.Plain "t1"); op_add (IDMap.Plain "t2");
              op_remove (Some "t1") None; op_to_vscode "t1" true;
              op_remove (Some "t2") (Some 2)] in
  guarded ops IDMap.init
  ∧ inverse (idmap_run ops IDMap.init)
  ∧ IDMap.to_vscode "t1" false (idmap_run ops IDMap.init)
    = (Ok 3, idmap_run ops IDMap.init).
Proof.
  assert (guarded [op_add (IDMap.Plain "t1"); op_add (IDMap.Plain "t2");
                   op_remove (Some "t1") None; op_to_vscode "t1" true;
                   op_remove (Some "t2") (Some 2)] IDMap.init) as Hg.
  { vm_compute. tauto. }
  split; [exact Hg|].
  destruct (guarded_calls_keep_inverse _ Hg) as (Hinv & _ & _ & Hto & _).
  split; [exact Hinv|].
  apply Hto. vm_compute. reflexivity.
Defined.

(** C2, as the specification states it, fails: [add] of a pydevd id that is
    mapped leaves the old VSCode id pointing at it, so that [to_vscode] of
    [to_pydevd 1] is 2; and [remove] of two keys that are not a pair deletes
    one direction of each of two pairs. *)
Lemma add_of_mapped_id_not_inverse :
  (let m := idmap_run [op_add (IDMap.Plain "t"); op_add (IDMap.Plain "t")]
                      IDMap.init in
   IDMap.to_pydevd 1 m = (Ok "t", m) ∧ IDMap.to_vscode "t" false m = (Ok 2, m))
  ∧ (let m := idmap_run [op_add (IDMap.Plain "a"); op_add (IDMap.Plain "b");
                         op_remove (Some "a") (Some 2)] IDMap.init in
     IDMap._vscode_to_pydevd m !! 1 = Some "a"
     ∧ IDMap._pydevd_to_vscode m !! "a" = None).
Proof. vm_compute. repeat split; reflexivity. Qed.

(** ** The claims about PydevdSocket *)

(** C4: over any sequence of calls on one [PydevdSocket] ([pydevd_notify],
    [pydevd_request] and [send], in any order), the sequence numbers that
    [make_packet] gives out are strictly increasing, one after the other from
    the seed 1000000000 of one counter, each is written into the packet of its
    call, and none is below the seed, where pydevd's own numbers are. *)
Theorem sequence_numbers_strictly_increasing
    (urllib_unquote : string → string) (int : string → option Z)
    (ops : list socket_op) :
  let s := socket_run urllib_unquote int ops PydevdSocket.init in
  let issued := socket_issued urllib_unquote int ops PydevdSocket.init in
  StronglySorted Z.lt issued
  ∧ issued = seqZ 1000000000 (Z.of_nat (length (socket_packets ops)))
  ∧ Forall (λ q, 1000000000 ≤ q) issued
  ∧ (∀ b, b < 1000000000 → b ∉ issued)
  ∧ PydevdSocket.pipe s =
    zip_with (λ q c, PydevdSocket.packet c.1 q c.2) issued (socket_packets ops)
  ∧ PydevdSocket.seq s = 1000000000 + Z.of_nat (length issued).
Proof.
  intros s issued.
  destruct (socket_run_packets urllib_unquote int ops PydevdSocket.init)
    as (Hseq & Hiss & Hpipe).
  cbn [PydevdSocket.init PydevdSocket.seq PydevdSocket.pipe] in *.
  fold s in Hseq, Hpipe. fold issued in Hiss.
  rewrite Hiss. split; [apply seqZ_sorted|]. split; [done|].
  split; [|split; [|split]].
  - apply Forall_forall. intros x Hx. apply elem_of_seqZ in Hx. lia.
  - intros b Hb Hin. apply elem_of_seqZ in Hin. lia.
  - by rewrite Hpipe.
  - rewrite length_seqZ. lia.
Qed.

(** C3: at any moment of a [PydevdSocket]'s life, [send] of a packet whose
    sequence number is pending takes the entry out of the table and schedules
    the future's result (cmd_id, seq, args) on the event loop stored with it,
    which is the loop of the call of [pydevd_request] that was given that
    number, and it does not call the event handler; [send] of a packet whose
    number is not pending calls the event handler with (cmd_id, seq, args)
    and leaves the table as it was. *)
Theorem send_resolves_pending_or_dispatches
    (urllib_unquote : string → string) (int : string → option Z)
    (ops : list socket_op) (data c q a : string) (cmd_id seq : Z) :
  py_split TAB 2 (urllib_unquote data) = [c; q; a] →
  int c = Some cmd_id →
  int q = Some seq →
  let s := socket_run urllib_unquote int ops PydevdSocket.init in
  match PydevdSocket.requests s !! seq with
  | Some (loop, fut) =>
      PydevdSocket.send urllib_unquote int data s =
      (Ok (Z.of_nat (String.length data),
           PydevdSocket.call_soon_threadsafe loop fut (cmd_id, seq, a)),
       PydevdSocket.set_requests (delete seq) s)
      ∧ PydevdSocket.requests (PydevdSocket.set_requests (delete seq) s) !! seq = None
      ∧ (seq, loop) ∈ socket_requesters urllib_unquote int ops PydevdSocket.init
  | None =>
      PydevdSocket.send urllib_unquote int data s =
      (Ok (Z.of_nat (String.length data), PydevdSocket.event_handler cmd_id seq a), s)
  end.
Proof.
  intros Hsplit Hc Hq s.
  rewrite (send_parsed urllib_unquote int data c q a cmd_id seq s Hsplit Hc Hq).
  destruct (PydevdSocket.requests s !! seq) as [[loop fut]|] eqn:E; [|done].
  split; [done|]. split; [apply lookup_delete_eq|].
  destruct (pending_requester urllib_unquote int ops _ _ _ _ E) as [Hin|Hinit]; [done|].
  cbn in Hinit. by rewrite lookup_empty in Hinit.
Qed.

Lemma send_resolves_pending_or_dispatches_witness :
  let ops := [op_notify CMD_RUN ""; op_request 7%nat CMD_LIST_THREADS ""] in
  let s := socket_run id decimal ops PydevdSocket.init in
  PydevdSocket.send id decimal ("102" +:+ tab +:+ "1000000001" +:+ tab +:+ "<xml/>") s =
    (Ok (21, PydevdSocket.call_soon_threadsafe 7%nat 0%nat (102, 1000000001, "<xml/>")),
     PydevdSocket.set_requests (delete 1000000001) s)
  ∧ PydevdSocket.send id decimal ("103" +:+ tab +:+ "5" +:+ tab +:+ "<xml/>") s =
    (Ok (12, PydevdSocket.event_handler 103 5 "<xml/>"), s).
Proof.
  split.
  - pose proof (send_resolves_pending_or_dispatches id decimal
      [op_notify CMD_RUN ""; op_request 7%nat CMD_LIST_THREADS ""]
      ("102" +:+ tab +:+ "1000000001" +:+ tab +:+ "<xml/>")
      "102" "1000000001" "<xml/>" 102 1000000001
      eq_refl eq_refl eq_refl) as Hs.
    cbv zeta in Hs.
    change (PydevdSocket.requests
              (socket_run id decimal
                 [op_notify CMD_RUN ""; op_request 7%nat CMD_LIST_THREADS ""]
                 PydevdSocket.init) !! 1000000001)
      with (Some (7%nat, 0%nat)) in Hs.
    exact (proj1 Hs).
  - exact (send_resolves_pending_or_dispatches id decimal
      [op_notify CMD_RUN ""; op_request 7%nat CMD_LIST_THREADS ""]
      ("103" +:+ tab +:+ "5" +:+ tab +:+ "<xml/>")
      "103" "5" "<xml/>" 103 5 eq_refl eq_refl eq_refl).
Defined.

(** ** VSCodeMessageProcessor: notifications and on_pause *)

Section notifications.
Import VSCodeMessageProcessor.
Implicit Types (st : VSCodeMessageProcessor.t).

Lemma notified_0 s : notified 0 [] s = s.
Proof.
  destruct s as [q r w f]. unfold notified. cbn.
  by rewrite Z.add_0_r, app_nil_r.
Qed.

Lemma upd_pydevd_same st : upd_pydevd (pydevd st) st = st.
Proof. by destruct st. Qed.

Lemma pydevd_notify_eq' cmd args st :
  pydevd_notify cmd args st =
  (Ok tt,
   upd_pydevd
     (notified 1 [PydevdSocket.packet cmd (PydevdSocket.seq (pydevd st)) args]
        (pydevd st)) st).
Proof. done. Qed.

(** [for tid in ids: self.pydevd_notify(cmd, tid)]: one packet for each
    element, in order, with consecutive sequence numbers. *)
Lemma notify_each cmd (ids : list string) st :
  for_ ids (λ tid, pydevd_notify cmd tid) st =
  (Ok tt,
   upd_pydevd
     (notified (Z.of_nat (length ids))
        (zip_with (λ q tid, PydevdSocket.packet cmd q tid)
           (seqZ (PydevdSocket.seq (pydevd st)) (Z.of_nat (length ids))) ids)
        (pydevd st)) st).
Proof.
  revert st. induction ids as [|tid ids IH]; intros st.
  - cbn. by rewrite notified_0, upd_pydevd_same.
  - cbn [for_]. erewrite bind_Ok by apply pydevd_notify_eq'.
    rewrite IH. f_equal. cbn [length].
    rewrite Nat2Z.inj_succ, (seqZ_cons (PydevdSocket.seq (pydevd st))) by lia.
    replace (Z.pred (Z.succ (Z.of_nat (length ids)))) with (Z.of_nat (length ids)) by lia.
    unfold upd_pydevd, notified. cbn.
    rewrite <- app_assoc. cbn.
    replace (Z.succ (PydevdSocket.seq (pydevd st)))
      with (PydevdSocket.seq (pydevd st) + 1) by lia.
    replace (PydevdSocket.seq (pydevd st) + 1 + Z.of_nat (length ids))
      with (PydevdSocket.seq (pydevd st) + Z.succ (Z.of_nat (length ids))) by lia.
    done.
Qed.

Lemma pydevd_ids_NoDup {K} `{Countable K} (m : IDMap.t K) : NoDup (IDMap.pydevd_ids m).
Proof. apply NoDup_fst_map_to_list. Qed.

Lemma elem_of_pydevd_ids {K} `{Countable K} (m : IDMap.t K) p :
  p ∈ IDMap.pydevd_ids m ↔ is_Some (IDMap._pydevd_to_vscode m !! p).
Proof.
  unfold IDMap.pydevd_ids. rewrite list_elem_of_fmap. split.
  - intros ([p' v] & -> & Hin). apply elem_of_map_to_list in Hin. by exists v.
  - intros [v Hv]. exists (p, v). split; [done|]. by apply elem_of_map_to_list.
Qed.

Lemma on_pause_broadcast (request : Z) st :
  let ids := IDMap.pydevd_ids (thread_map st) in
  ∃ st',
    on_pause request 0 st = (Ok tt, st')
    ∧ PydevdSocket.pipe (pydevd st') =
      PydevdSocket.pipe (pydevd st) ++
      zip_with (λ q tid, PydevdSocket.packet CMD_THREAD_SUSPEND q tid)
        (seqZ (PydevdSocket.seq (pydevd st)) (Z.of_nat (length ids))) ids
    ∧ PydevdSocket.requests (pydevd st') = PydevdSocket.requests (pydevd st)
    ∧ sent st' = sent st ++ [response request no_body].
Proof.
  intros ids. eexists. split.
  - unfold on_pause. cbn [Z.eqb].
    erewrite bind_Ok; [reflexivity|].
    erewrite bind_Ok; [apply notify_each|reflexivity].
  - done.
Qed.

Lemma on_pause_single (request threadId : Z) pyd_tid st :
  threadId ≠ 0 →
  IDMap._vscode_to_pydevd (thread_map st) !! threadId = Some pyd_tid →
  ∃ st',
    on_pause request threadId st = (Ok tt, st')
    ∧ PydevdSocket.pipe (pydevd st') =
      PydevdSocket.pipe (pydevd st) ++
      [PydevdSocket.packet CMD_THREAD_SUSPEND (PydevdSocket.seq (pydevd st)) pyd_tid]
    ∧ PydevdSocket.requests (pydevd st') = PydevdSocket.requests (pydevd st)
    ∧ sent st' = sent st ++ [response request no_body].
Proof.
  intros Hne Hmap. eexists. split.
  - unfold on_pause. apply Z.eqb_neq in Hne. rewrite Hne.
    erewrite bind_Ok; [reflexivity|].
    erewrite bind_Ok; [apply pydevd_notify_eq'|].
    unfold in_thread_map, zoom, IDMap.to_pydevd, IDMap.getitem.
    rewrite Hmap. reflexivity.
  - done.
Qed.

(** C8: a pause request with thread id 0 sends one suspend notification for
    each pydevd id of the thread map (each id is there once), and nothing
    else; with another thread id that is mapped, it sends one suspend
    notification, for the thread the id is mapped to. Either way the response
    is sent by the handler itself, and no request is left pending. *)
Theorem on_pause_suspends (request : Z) st :
  (let ids := IDMap.pydevd_ids (thread_map st) in
   NoDup ids
   ∧ (∀ tid, tid ∈ ids ↔ is_Some (IDMap._pydevd_to_vscode (thread_map st) !! tid))
   ∧ ∃ st',
       on_pause request 0 st = (Ok tt, st')
       ∧ PydevdSocket.pipe (pydevd st') =
         PydevdSocket.pipe (pydevd st) ++
         zip_with (λ q tid, PydevdSocket.packet CMD_THREAD_SUSPEND q tid)
           (seqZ (PydevdSocket.seq (pydevd st)) (Z.of_nat (length ids))) ids
       ∧ PydevdSocket.requests (pydevd st') = PydevdSocket.requests (pydevd st)
       ∧ sent st' = sent st ++ [response request no_body])
  ∧ (∀ threadId pyd_tid,
       threadId ≠ 0 →
       IDMap._vscode_to_pydevd (thread_map st) !! threadId = Some pyd_tid →
       ∃ st',
         on_pause request threadId st = (Ok tt, st')
         ∧ PydevdSocket.pipe (pydevd st') =
           PydevdSocket.pipe (pydevd st) ++
           [PydevdSocket.packet CMD_THREAD_SUSPEND (PydevdSocket.seq (pydevd st)) pyd_tid]
         ∧ PydevdSocket.requests (pydevd st') = PydevdSocket.requests (pydevd st)
         ∧ sent st' = sent st ++ [response request no_body]).
Proof.
  split.
  - intros ids. split; [apply pydevd_ids_NoDup|].
    split; [apply elem_of_pydevd_ids|]. apply on_pause_broadcast.
  - intros threadId pyd_tid. apply on_pause_single.
Qed.

Lemma on_pause_suspends_witness :
  let st := upd_thread_map
              (idmap_run [op_to_vscode "pid1_tid1" true; op_to_vscode "pid1_tid2" true]
                         IDMap.init)
              (init 0%nat) in
  ∃ st',
    on_pause 3 2 st = (Ok tt, st')
    ∧ PydevdSocket.pipe (pydevd st') =
      [PydevdSocket.packet CMD_THREAD_SUSPEND 1000000000 "pid1_tid2"]
    ∧ PydevdSocket.requests (pydevd st') = ∅
    ∧ sent st' = [response 3 no_body].
Proof.
  exact (proj2 (on_pause_suspends 3
           (upd_thread_map
              (idmap_run [op_to_vscode "pid1_tid1" true; op_to_vscode "pid1_tid2" true]
                         IDMap.init)
              (init 0%nat)))
         2 "pid1_tid2" ltac:(discriminate) eq_refl).
Defined.

End notifications.

(** ** to_vscode with autogen *)

Section to_vscode_facts.
Context {K : Type} `{Countable K}.

(** [to_vscode(p)] returns the id of [p], a new one if [p] had none, and
    keeps what was mapped. *)
Lemma to_vscode_true p (m : IDMap.t K) :
  ∃ v m',
    IDMap.to_vscode p true m = (Ok v, m')
    ∧ IDMap._pydevd_to_vscode m' !! p = Some v
    ∧ (∀ p' v', IDMap._pydevd_to_vscode m !! p' = Some v' →
                IDMap._pydevd_to_vscode m' !! p' = Some v')
    ∧ IDMap._next_id m ≤ IDMap._next_id m'
    ∧ match IDMap._pydevd_to_vscode m !! p with
      | Some v0 => v = v0 ∧ m' = m
      | None => v = IDMap._next_id m
      end.
Proof.
  destruct (IDMap._pydevd_to_vscode m !! p) as [v0|] eqn:E.
  - exists v0, m. rewrite (to_vscode_mapped _ _ _ _ E). repeat split; try done; lia.
  - eexists _, _. rewrite (to_vscode_autogen _ _ E), add_eq. cbn.
    split; [reflexivity|]. cbn. split; [apply lookup_insert_eq|].
    split; [|split; [lia|done]].
    intros p' v' Hp'. rewrite lookup_insert_ne; [done|]. congruence.
Qed.

End to_vscode_facts.

Lemma elem_of_zip_with_seqZ {A B} (f : Z → A → B) (a : Z) (l : list A) (x : A) :
  x ∈ l → ∃ q, f q x ∈ zip_with f (seqZ a (Z.of_nat (length l))) l.
Proof.
  intros Hx. apply list_elem_of_lookup_1 in Hx as [i Hi].
  exists (a + Z.of_nat i). apply list_elem_of_lookup_2 with i.
  rewrite lookup_zip_with.
  assert (seqZ a (Z.of_nat (length l)) !! i = Some (a + Z.of_nat i)) as ->.
  { apply lookup_seqZ. split; [done|]. apply lookup_lt_Some in Hi. lia. }
  cbn. by rewrite Hi.
Qed.

(** ** on_threads *)

Section on_threads_facts.
Import VSCodeMessageProcessor.
Variable urllib_unquote : string → string.
Implicit Types (st : VSCodeMessageProcessor.t).

Lemma upd_thread_map_same st : upd_thread_map (thread_map st) st = st.
Proof. by destruct st. Qed.

Lemma on_threads_for_spec xthreads threads st :
  ∃ m' new,
    on_threads_for urllib_unquote xthreads threads st
      = (Ok (threads ++ new), upd_thread_map m' st)
    ∧ (∀ p v, IDMap._pydevd_to_vscode (thread_map st) !! p = Some v →
              IDMap._pydevd_to_vscode m' !! p = Some v)
    ∧ (∀ xt, xt ∈ xthreads → is_Some (IDMap._pydevd_to_vscode m' !! xthread_id xt))
    ∧ Forall2 (λ xt th,
         thread_name th = unquote urllib_unquote (xthread_name xt)
         ∧ IDMap._pydevd_to_vscode m' !! xthread_id xt = Some (thread_id th))
        (filter (shown urllib_unquote) xthreads) new.
Proof.
  revert threads st. induction xthreads as [|xt xts IH]; intros threads st.
  - exists (thread_map st), []. cbn.
    rewrite app_nil_r, upd_thread_map_same. repeat split; try done.
    intros xt Hxt. by apply elem_of_nil in Hxt.
  - destruct (to_vscode_true (xthread_id xt) (thread_map st))
      as (v & m1 & Hto & Hv & Hmono & _ & _).
    cbn [on_threads_for].
    erewrite bind_Ok;
      [|unfold in_thread_map, zoom; rewrite Hto; reflexivity].
    destruct (is_pydevd_name (unquote urllib_unquote (xthread_name xt))) eqn:Ename.
    + destruct (IH threads (upd_thread_map m1 st)) as (m' & new & Hrun & Hm & Hall & Hnew).
      exists m', new. rewrite Hrun. split; [done|].
      split; [intros p' v' Hp'; apply Hm; cbn; by apply Hmono|].
      split.
      * intros xt' [->|Hin]%elem_of_cons; [|by apply Hall].
        exists v. apply Hm. done.
      * rewrite filter_cons_False; [done|]. unfold shown. by rewrite Ename.
    + destruct (IH (threads ++ [{| thread_id := v;
                                   thread_name := unquote urllib_unquote (xthread_name xt) |}])
                   (upd_thread_map m1 st)) as (m' & new & Hrun & Hm & Hall & Hnew).
      exists m', ({| thread_id := v;
                     thread_name := unquote urllib_unquote (xthread_name xt) |} :: new).
      rewrite Hrun, <- app_assoc. split; [done|].
      split; [intros p' v' Hp'; apply Hm; cbn; by apply Hmono|].
      split.
      * intros xt' [->|Hin]%elem_of_cons; [|by apply Hall].
        exists v. apply Hm. done.
      * rewrite filter_cons_True by done.
        constructor; [|done]. split; [done|]. apply Hm. done.
Qed.

(** C10: the continuation of the threads handler gives every thread of
    pydevd's reply a VSCode id in the thread map, before it looks at the
    name; the response lists the threads whose name does not start with
    [pydevd.], and the others stay in the thread map, so that a pause request
    with thread id 0 after it sends a suspend notification for each thread of
    the reply, filtered or not. *)
Theorem on_threads_registers_filtered_threads (request : Z)
    (xthreads : list xthread) st :
  ∃ st' threads,
    on_threads_resumed urllib_unquote request xthreads st = (Ok tt, st')
    ∧ sent st' = sent st ++ [response request (threads_body threads)]
    ∧ Forall2 (λ xt th,
         thread_name th = unquote urllib_unquote (xthread_name xt)
         ∧ IDMap._pydevd_to_vscode (thread_map st') !! xthread_id xt
           = Some (thread_id th))
        (filter (shown urllib_unquote) xthreads) threads
    ∧ ∀ xt, xt ∈ xthreads →
        is_Some (IDMap._pydevd_to_vscode (thread_map st') !! xthread_id xt)
        ∧ ∀ request', ∃ st'' written q,
            on_pause request' 0 st' = (Ok tt, st'')
            ∧ PydevdSocket.pipe (pydevd st'') = PydevdSocket.pipe (pydevd st') ++ written
            ∧ PydevdSocket.packet CMD_THREAD_SUSPEND q (xthread_id xt) ∈ written.
Proof.
  destruct (on_threads_for_spec xthreads [] st) as (m' & new & Hrun & _ & Hall & Hnew).
  eexists _, new. split.
  { unfold on_threads_resumed. erewrite bind_Ok by exact Hrun. reflexivity. }
  split; [done|]. split; [done|].
  intros xt Hxt. split; [by apply Hall|].
  intros request'.
  set (st' := upd_sent _ _).
  destruct (on_pause_broadcast request' st') as (st'' & Hpause & Hpipe & _).
  assert (xthread_id xt ∈ IDMap.pydevd_ids (thread_map st')) as Hin.
  { apply elem_of_pydevd_ids. by apply Hall. }
  destruct (elem_of_zip_with_seqZ
              (λ q tid, PydevdSocket.packet CMD_THREAD_SUSPEND q tid)
              (PydevdSocket.seq (pydevd st')) _ _ Hin) as [q Hq].
  eauto 10.
Qed.

End on_threads_facts.

(** ** on_stackTrace *)

Section on_stackTrace_facts.
Import VSCodeMessageProcessor.
Variable urllib_unquote : string → string.
Variable int : string → option Z.
Implicit Types (st : VSCodeMessageProcessor.t).

Lemma upd_frame_map_same st : upd_frame_map (frame_map st) st = st.
Proof. by destruct st. Qed.

Lemma presents_mono tid m m' xf sf :
  (∀ p v, IDMap._pydevd_to_vscode m !! p = Some v →
          IDMap._pydevd_to_vscode m' !! p = Some v) →
  presents urllib_unquote int tid m xf sf → presents urllib_unquote int tid m' xf sf.
Proof.
  intros Hm (pyd_fid & line & Hid & Hline & Hmap & Hsf).
  exists pyd_fid, line. repeat split; try done. by apply Hm.
Qed.

Lemma slice_nil {A} (start count : Z) : slice (@nil A) start count = [].
Proof. unfold slice. by rewrite drop_nil, take_nil. Qed.

Lemma slice_skip {A} (x : A) l start count :
  0 < start → slice (x :: l) start count = slice l (start - 1) count.
Proof.
  intros Hs. unfold slice.
  replace (Z.to_nat start) with (S (Z.to_nat (start - 1))) by lia. done.
Qed.

Lemma slice_none {A} (l : list A) start count : count ≤ 0 → slice l start count = [].
Proof. intros Hc. unfold slice. by replace (Z.to_nat count) with 0%nat by lia. Qed.

Lemma slice_take {A} (x : A) l count :
  0 < count → slice (x :: l) 0 count = x :: slice l 0 (count - 1).
Proof.
  intros Hc. unfold slice. cbn.
  replace (Z.to_nat count) with (S (Z.to_nat (count - 1))) by lia. done.
Qed.

Lemma on_stackTrace_for_spec tid xframes startFrame levels stackFrames st :
  0 ≤ startFrame →
  Forall (numbered int) (slice xframes startFrame levels) →
  ∃ m' new,
    on_stackTrace_for urllib_unquote int tid xframes startFrame levels stackFrames st
      = (Ok (stackFrames ++ new), upd_frame_map m' st)
    ∧ (∀ p v, IDMap._pydevd_to_vscode (frame_map st) !! p = Some v →
              IDMap._pydevd_to_vscode m' !! p = Some v)
    ∧ Forall2 (presents urllib_unquote int tid m') (slice xframes startFrame levels) new.
Proof.
  revert startFrame levels stackFrames st.
  induction xframes as [|xf xfs IH]; intros startFrame levels stackFrames st Hs Hnum.
  { exists (frame_map st), []. cbn.
    rewrite app_nil_r, upd_frame_map_same, slice_nil. by repeat split. }
  cbn [on_stackTrace_for].
  destruct (0 <? startFrame)%Z eqn:Estart.
  { apply Z.ltb_lt in Estart. rewrite slice_skip in * by done.
    apply IH; [lia|done]. }
  apply Z.ltb_ge in Estart. assert (startFrame = 0) as -> by lia.
  destruct (levels <=? 0)%Z eqn:Elevels.
  { apply Z.leb_le in Elevels. rewrite slice_none by done.
    exists (frame_map st), []. rewrite app_nil_r, upd_frame_map_same. by repeat split. }
  apply Z.leb_gt in Elevels. rewrite slice_take in * by done.
  apply Forall_cons in Hnum as [[[pyd_fid Hid] [line Hline]] Hnum].
  destruct (to_vscode_true (tid, pyd_fid) (frame_map st))
    as (v & m1 & Hto & Hv & Hmono & _ & _).
  erewrite bind_Ok; [|unfold py_int; rewrite Hid; reflexivity].
  erewrite bind_Ok; [|unfold in_frame_map, zoom; rewrite Hto; reflexivity].
  erewrite bind_Ok; [|unfold py_int; rewrite Hline; reflexivity].
  set (sf := {| frame_id := v; frame_name := _ |}).
  destruct (IH 0 (levels - 1) (stackFrames ++ [sf]) (upd_frame_map m1 st))
    as (m' & new & Hrun & Hm & Hnew); [lia|done|].
  exists m', (sf :: new). rewrite Hrun, <- app_assoc.
  split; [done|]. split.
  - intros p' v' Hp'. apply Hm. cbn. by apply Hmono.
  - constructor; [|done]. exists pyd_fid, line.
    repeat split; try done. apply Hm. done.
Qed.

Lemma slice_all {A} (l : list A) start :
  slice l start (Z.of_nat (length l)) = drop (Z.to_nat start) l.
Proof.
  unfold slice. apply take_ge. rewrite length_drop. lia.
Qed.

Lemma served_page xframes startFrame levels :
  length xframes ≠ 1%nat →
  len xframes = Z.of_nat (length xframes)
  ∧ served xframes startFrame levels = page xframes startFrame levels.
Proof.
  intros Hlen.
  assert (len xframes = Z.of_nat (length xframes)) as Hl.
  { destruct xframes as [|xf [|xf' xfs]]; done. }
  split; [done|]. unfold served, page. rewrite Hl.
  destruct (levels =? 0)%Z; [|done]. by rewrite slice_all.
Qed.

(** The handler on a cached value, as the code has it: the page is
    [served], and [totalFrames] is [len] of the cached value. *)
Lemma on_stackTrace_run (request threadId startFrame levels : Z) tid xframes st :
  IDMap._vscode_to_pydevd (thread_map st) !! threadId = Some tid →
  stack_traces st !! tid = Some xframes →
  0 ≤ startFrame →
  Forall (numbered int) (served xframes startFrame levels) →
  ∃ m' stackFrames,
    on_stackTrace urllib_unquote int request threadId startFrame levels st =
    (Ok tt,
     upd_sent (sent st ++ [response request (stackTrace_body stackFrames (len xframes))])
       (upd_frame_map m' st))
    ∧ (∀ p v, IDMap._pydevd_to_vscode (frame_map st) !! p = Some v →
              IDMap._pydevd_to_vscode m' !! p = Some v)
    ∧ Forall2 (presents urllib_unquote int tid m')
              (served xframes startFrame levels) stackFrames.
Proof.
  intros Htid Hcache Hstart Hnum.
  assert (in_thread_map (IDMap.to_pydevd threadId) st = (Ok tid, st)) as Hto.
  { unfold in_thread_map, zoom, IDMap.to_pydevd, IDMap.getitem.
    by rewrite Htid, upd_thread_map_same. }
  destruct (on_stackTrace_for_spec tid xframes startFrame
              (if (levels =? 0)%Z then len xframes else levels) [] st
              Hstart Hnum) as (m' & new & Hrun & Hmono & Hnew).
  exists m', new. split; [|done].
  unfold on_stackTrace. erewrite bind_Ok by exact Hto.
  erewrite bind_Ok by reflexivity. rewrite Hcache.
  erewrite bind_Ok by exact Hrun. reflexivity.
Qed.

(** The stackTrace handler where the cached value is a list, that is, for a
    thread that was suspended with two frames or more: it responds with the
    cached frames at indices [startFrame] to [startFrame + levels - 1], all
    from [startFrame] on when [levels] is 0, each with the VSCode id that the
    frame map has for (thread, frame id), and with the number of cached frames
    as [totalFrames]. For a thread with no cached frames it raises
    [KeyError]. The page's [id] and [line] attributes are taken to be
    numerals, and [startFrame] not to be negative. *)
Theorem on_stackTrace_pages (request threadId startFrame levels : Z)
    (tid : string) st :
  IDMap._vscode_to_pydevd (thread_map st) !! threadId = Some tid →
  (∀ xframes,
     stack_traces st !! tid = Some xframes →
     length xframes ≠ 1%nat →
     0 ≤ startFrame →
     Forall (numbered int) (page xframes startFrame levels) →
     ∃ st' stackFrames,
       on_stackTrace urllib_unquote int request threadId startFrame levels st
         = (Ok tt, st')
       ∧ sent st' = sent st ++
           [response request (stackTrace_body stackFrames (Z.of_nat (length xframes)))]
       ∧ Forall2 (presents urllib_unquote int tid (frame_map st'))
                 (page xframes startFrame levels) stackFrames)
  ∧ (stack_traces st !! tid = None →
     on_stackTrace urllib_unquote int request threadId startFrame levels st
       = (Raise KeyError, st)).
Proof.
  intros Htid. split.
  - intros xframes Hcache Hlen Hstart Hnum.
    destruct (served_page xframes startFrame levels Hlen) as [Hl Hpage].
    rewrite <- Hpage in *. rewrite <- Hl.
    destruct (on_stackTrace_run request threadId startFrame levels tid xframes st
                Htid Hcache Hstart Hnum) as (m' & new & Hrun & _ & Hnew).
    eexists _, new. split; [exact Hrun|]. split; done.
  - intros Hcache.
    assert (in_thread_map (IDMap.to_pydevd threadId) st = (Ok tid, st)) as Hto.
    { unfold in_thread_map, zoom, IDMap.to_pydevd, IDMap.getitem.
      by rewrite Htid, upd_thread_map_same. }
    unfold on_stackTrace. erewrite bind_Ok by exact Hto.
    erewrite bind_Ok by reflexivity. by rewrite Hcache.
Qed.

End on_stackTrace_facts.

Lemma on_stackTrace_pages_witness :
  let f1 := {| xframe_id := "11"; xframe_name := Some "main";
               xframe_file := Some "a.py"; xframe_line := "3";
               xframe_children := 0 |} in
  let f2 := {| xframe_id := "12"; xframe_name := Some "run";
               xframe_file := Some "a.py"; xframe_line := "40";
               xframe_children := 0 |} in
  let st := VSCodeMessageProcessor.upd_stack_traces {[ "t" := [f1; f2] ]}
              (VSCodeMessageProcessor.upd_thread_map
                 (idmap_run [op_to_vscode "t" true] IDMap.init)
                 (VSCodeMessageProcessor.init 0%nat)) in
  ∃ st' stackFrames,
    VSCodeMessageProcessor.on_stackTrace id decimal 5 1 0 0 st = (Ok tt, st')
    ∧ VSCodeMessageProcessor.sent st' = [response 5 (stackTrace_body stackFrames 2)]
    ∧ Forall2 (presents id decimal "t" (VSCodeMessageProcessor.frame_map st'))
              [f1; f2] stackFrames.
Proof.
  intros f1 f2 st.
  refine (proj1 (on_stackTrace_pages id decimal 5 1 0 0 "t" st eq_refl)
            [f1; f2] eq_refl _ _ _).
  - discriminate.
  - lia.
  - repeat constructor; eexists; reflexivity.
Defined.

(** C6 fails on the code for a thread that was suspended with a single
    frame. For such an event [xml.thread.frame] is the [frame] element itself
    and not a list of one element, and [len] of an element is the number of
    its children: none, for the frames that pydevd sends. After a suspend
    event with one frame, a stackTrace request with [levels] 0 is answered
    with no frame at all and [totalFrames] 0, and gives out no frame id; a
    request with [levels] 1 is answered with the frame, and [totalFrames]
    0 again. *)
Theorem on_stackTrace_one_frame_miscounts :
  let f1 := {| xframe_id := "11"; xframe_name := Some "main";
               xframe_file := Some "a.py"; xframe_line := "3";
               xframe_children := 0 |} in
  let st := (VSCodeMessageProcessor.on_pydevd_thread_suspend decimal 1
               {| xsuspended_id := "t"; xsuspended_stop_reason := "111";
                  xsuspended_frame := [f1] |}
               (VSCodeMessageProcessor.init 0%nat)).2 in
  let all := VSCodeMessageProcessor.on_stackTrace id decimal 2 1 0 0 st in
  let one := VSCodeMessageProcessor.on_stackTrace id decimal 3 1 0 1 st in
  VSCodeMessageProcessor.stack_traces st !! "t" = Some [f1]
  ∧ VSCodeMessageProcessor.sent st =
    [event "stopped" [("reason", AStr "breakpoint"); ("threadId", AInt 1)]]
  ∧ all.1 = Ok tt
  ∧ VSCodeMessageProcessor.sent all.2 =
    VSCodeMessageProcessor.sent st ++ [response 2 (stackTrace_body [] 0)]
  ∧ IDMap.pairs (VSCodeMessageProcessor.frame_map all.2) = []
  ∧ IDMap._next_id (VSCodeMessageProcessor.frame_map all.2) = 1
  ∧ one.1 = Ok tt
  ∧ VSCodeMessageProcessor.sent one.2 =
    VSCodeMessageProcessor.sent st ++
    [response 3
       (stackTrace_body
          [{| frame_id := 1; frame_name := Some "main";
              frame_source_path := Some "a.py"; frame_line := 3;
              frame_column := 0 |}] 0)].
Proof. cbv zeta. split_and!; vm_compute; reflexivity. Qed.

(** ** on_variables *)

Section extends_facts.
Context {K : Type} `{Countable K}.
Implicit Types (m : IDMap.t K).

Lemma extends_refl m : extends m m.
Proof. repeat split; [done|lia|by left]. Qed.

Lemma extends_trans m1 m2 m3 : extends m1 m2 → extends m2 m3 → extends m1 m3.
Proof.
  intros (Ha & Hb & Hc) (Ha' & Hb' & Hc'). repeat split.
  - intros p v Hp. by apply Ha', Ha.
  - lia.
  - intros p v Hp. destruct (Hc' p v Hp) as [Hp2|Hge]; [|right; lia].
    destruct (Hc p v Hp2) as [Hp1|Hge]; [by left|by right].
Qed.

Lemma references_rebase m0 m1 m' p ref :
  extends m0 m1 → extends m1 m' → references m1 m' p ref → references m0 m' p ref.
Proof.
  intros (Ha & Hb & Hc) _ [Hp Hold]. split; [done|].
  destruct (IDMap._pydevd_to_vscode m0 !! p) as [old|] eqn:E0.
  - apply Ha in E0. by rewrite E0 in Hold.
  - destruct (IDMap._pydevd_to_vscode m1 !! p) as [old1|] eqn:E1; [|lia].
    subst ref. destruct (Hc p old1 E1) as [Hp0|Hge]; [congruence|done].
Qed.

Lemma to_vscode_extends p m :
  ∃ v m',
    IDMap.to_vscode p true m = (Ok v, m') ∧ extends m m' ∧ references m m' p v.
Proof.
  destruct (IDMap._pydevd_to_vscode m !! p) as [v0|] eqn:E.
  - exists v0, m. rewrite (to_vscode_mapped _ _ _ _ E).
    split; [done|]. split; [apply extends_refl|]. split; [done|]. by rewrite E.
  - eexists _, _. rewrite (to_vscode_autogen _ _ E), add_eq. cbn.
    split; [reflexivity|]. split; [|split].
    + repeat split; cbn.
      * intros p' v' Hp'. rewrite lookup_insert_ne; [done|]. congruence.
      * lia.
      * intros p' v'. rewrite lookup_insert_Some. intros [[_ <-]|[_ Hp']]; [right; lia|by left].
    + cbn. apply lookup_insert_eq.
    + rewrite E. lia.
Qed.

End extends_facts.

Section on_variables_facts.
Import VSCodeMessageProcessor.
Variable urllib_unquote : string → string.
Implicit Types (st : VSCodeMessageProcessor.t).

Lemma upd_var_map_same st : upd_var_map (var_map st) st = st.
Proof. by destruct st. Qed.

Lemma lists_rebase pyd_var m0 m1 m' xv var :
  extends m0 m1 → extends m1 m' →
  lists urllib_unquote pyd_var m1 m' xv var → lists urllib_unquote pyd_var m0 m' xv var.
Proof.
  intros H01 H1' (Hn & Ht & Hv & Href). repeat split; try done.
  destruct (py_bool (xvar_isContainer xv)); [|done].
  destruct Href as (ref & Hr & Href). exists ref. split; [done|].
  by eapply references_rebase.
Qed.

Lemma on_variables_for_spec pyd_var xvars vars st :
  ∃ m' new,
    on_variables_for urllib_unquote pyd_var xvars vars st
      = (Ok (vars ++ new), upd_var_map m' st)
    ∧ extends (var_map st) m'
    ∧ Forall2 (lists urllib_unquote pyd_var (var_map st) m') xvars new.
Proof.
  revert vars st. induction xvars as [|xv xvs IH]; intros vars st.
  { exists (var_map st), []. cbn. rewrite app_nil_r, upd_var_map_same.
    split; [done|]. split; [apply extends_refl|constructor]. }
  cbn [on_variables_for].
  destruct (py_bool (xvar_isContainer xv)) eqn:Ec.
  - destruct (to_vscode_extends (pyd_var ++ [AStr (urllib_unquote (xvar_name xv))])
                (var_map st)) as (ref & m1 & Hto & Hext & Href).
    erewrite bind_Ok; [|unfold in_var_map, zoom; rewrite Hto; reflexivity].
    set (var := {| var_name := _; var_variablesReference := Some ref |}).
    destruct (IH (vars ++ [var]) (upd_var_map m1 st)) as (m' & new & Hrun & Hext' & Hnew).
    cbn [var_map upd_var_map] in Hext', Hnew.
    exists m', (var :: new). rewrite Hrun, <- app_assoc.
    split; [done|]. split; [by eapply extends_trans|].
    constructor.
    + repeat split; try done. rewrite Ec. exists ref. split; [done|].
      destruct Href as [Hp Hold]. split; [|done]. by apply Hext'.
    + eapply Forall2_impl; [exact Hnew|]. intros xv' var'.
      by apply lists_rebase.
  - set (var := {| var_name := _; var_variablesReference := None |}).
    destruct (IH (vars ++ [var]) st) as (m' & new & Hrun & Hext' & Hnew).
    exists m', (var :: new). rewrite Hrun, <- app_assoc.
    split; [done|]. split; [done|].
    constructor; [|done]. repeat split; try done. by rewrite Ec.
Qed.

Lemma on_variables_cmd_frame (pyd_var : list atom) :
  (on_variables_cmd pyd_var = CMD_GET_FRAME ↔ length pyd_var = 3%nat)
  ∧ (on_variables_cmd pyd_var = CMD_GET_VARIABLE ↔ length pyd_var ≠ 3%nat).
Proof.
  unfold on_variables_cmd.
  destruct (Nat.eqb_spec (length pyd_var) 3) as [->|Hne]; cbn; split; split;
    try done; intros; congruence.
Qed.

(** C7, as the code has it: the variables handler sends the get-frame
    command exactly when the container's pydevd id has three components, and
    the get-variable command otherwise; and in its response a variable marked
    as a container has as [variablesReference] the VSCode id of its parent's
    pydevd id with its name appended: the id that path already has in the
    variable map, or a new one when it has none. *)
Theorem on_variables_command_and_references (request variablesReference : Z)
    (pyd_var : list atom) st :
  IDMap._vscode_to_pydevd (var_map st) !! variablesReference = Some pyd_var →
  (∃ st' fut,
     on_variables request variablesReference st = (Ok (pyd_var, fut), st')
     ∧ PydevdSocket.pipe (pydevd st') =
       PydevdSocket.pipe (pydevd st) ++
       [PydevdSocket.packet (on_variables_cmd pyd_var) (PydevdSocket.seq (pydevd st))
          (join tab (py_str <$> pyd_var))]
     ∧ PydevdSocket.requests (pydevd st') !! PydevdSocket.seq (pydevd st)
       = Some (loop st, fut))
  ∧ (on_variables_cmd pyd_var = CMD_GET_FRAME ↔ length pyd_var = 3%nat)
  ∧ (on_variables_cmd pyd_var = CMD_GET_VARIABLE ↔ length pyd_var ≠ 3%nat)
  ∧ ∀ (xvars : list xvar) st1,
      ∃ st' vars,
        on_variables_resumed urllib_unquote request pyd_var xvars st1 = (Ok tt, st')
        ∧ sent st' = sent st1 ++ [response request (variables_body vars)]
        ∧ Forall2 (lists urllib_unquote pyd_var (var_map st1) (var_map st')) xvars vars.
Proof.
  intros Hmap. split; [|split; [apply on_variables_cmd_frame|
                        split; [apply on_variables_cmd_frame|]]].
  - eexists _, _. split.
    + unfold on_variables.
      erewrite bind_Ok;
        [|unfold in_var_map, zoom, IDMap.to_pydevd, IDMap.getitem;
          rewrite Hmap; reflexivity].
      erewrite bind_Ok; [reflexivity|].
      unfold pydevd_request. erewrite bind_Ok by reflexivity.
      unfold in_pydevd, zoom. rewrite pydevd_request_eq. reflexivity.
    + cbn. split; [done|]. apply lookup_insert_eq.
  - intros xvars st1.
    destruct (on_variables_for_spec pyd_var xvars [] st1) as (m' & new & Hrun & _ & Hnew).
    eexists _, new. split.
    + unfold on_variables_resumed. erewrite bind_Ok by exact Hrun. reflexivity.
    + split; done.
Qed.

End on_variables_facts.

Lemma on_variables_command_and_references_witness :
  let root := [AStr "t"; AInt 5; AStr "FRAME"] in
  let st := VSCodeMessageProcessor.upd_var_map
              (idmap_run [op_to_vscode root true] IDMap.init)
              (VSCodeMessageProcessor.init 0%nat) in
  (∃ st' fut,
     VSCodeMessageProcessor.on_variables 9 1 st = (Ok (root, fut), st')
     ∧ PydevdSocket.pipe (VSCodeMessageProcessor.pydevd st') =
       [PydevdSocket.packet CMD_GET_FRAME 1000000000 (join tab (py_str <$> root))]
     ∧ PydevdSocket.requests (VSCodeMessageProcessor.pydevd st') !! 1000000000
       = Some (0%nat, fut))
  ∧ (VSCodeMessageProcessor.on_variables_cmd (root ++ [AStr "x"]) = CMD_GET_VARIABLE
     ↔ length (root ++ [AStr "x"]) ≠ 3%nat).
Proof.
  intros root st. split.
  - exact (proj1 (on_variables_command_and_references id 9 1 root st eq_refl)).
  - assert (IDMap._vscode_to_pydevd
              (VSCodeMessageProcessor.var_map
                 (VSCodeMessageProcessor.upd_var_map
                    (idmap_run [op_to_vscode (root ++ [AStr "x"]) true] IDMap.init)
                    (VSCodeMessageProcessor.init 0%nat))) !! 1
            = Some (root ++ [AStr "x"])) as Hmap by reflexivity.
    exact (proj1 (proj2 (proj2
             (on_variables_command_and_references id 9 1 (root ++ [AStr "x"]) _ Hmap)))).
Defined.

(** C7, as the specification states it, fails: the reference of a container
    is not always a fresh id. Asked twice for the variables of one frame, the
    handler answers the second time with the reference 2 that the first answer
    gave for [x], and gives out no id. *)
Lemma variables_reference_not_fresh :
  let root := [AStr "t"; AInt 5; AStr "FRAME"] in
  let x := {| xvar_name := "x"; xvar_type := Some "list"; xvar_value := Some "[]";
              xvar_isContainer := Some "True" |} in
  let shown_x := {| var_name := "x"; var_type := Some "list"; var_value := Some "[]";
                    var_variablesReference := Some 2 |} in
  let st0 := VSCodeMessageProcessor.upd_var_map
               (idmap_run [op_to_vscode root true] IDMap.init)
               (VSCodeMessageProcessor.init 0%nat) in
  let st1 := (VSCodeMessageProcessor.on_variables_resumed id 1 root [x] st0).2 in
  let st2 := (VSCodeMessageProcessor.on_variables_resumed id 2 root [x] st1).2 in
  VSCodeMessageProcessor.sent st1 = [response 1 (variables_body [shown_x])]
  ∧ IDMap._vscode_to_pydevd (VSCodeMessageProcessor.var_map st1) !! 2
    = Some (root ++ [AStr "x"])
  ∧ VSCodeMessageProcessor.sent st2 =
    [response 1 (variables_body [shown_x]); response 2 (variables_body [shown_x])]
  ∧ IDMap._next_id (VSCodeMessageProcessor.var_map st2)
    = IDMap._next_id (VSCodeMessageProcessor.var_map st1).
Proof. cbv zeta. split_and!; vm_compute; reflexivity. Qed.

(** ** on_pydevd_thread_run *)

Section remove_loop.
Context {S K : Type} `{Countable K}.
Variable proj : S → IDMap.t K.
Variable upd : IDMap.t K → S → S.
Hypothesis proj_upd : ∀ m s, proj (upd m s) = m.
Hypothesis upd_upd : ∀ m m' s, upd m' (upd m s) = upd m' s.
Variable P : K → Prop.
Context `{∀ p, Decision (P p)}.

(** [for p, v in m.pairs(): if P(p): m.remove(p, v)], over a map whose
    dictionaries are inverse: the selected pairs are removed from both
    dictionaries, the others stay. *)
Lemma remove_loop (body : K * Z → M S unit) (s0 : S) :
  upd (proj s0) s0 = s0 →
  (∀ x s, IDMap._pydevd_to_vscode (proj s0) !! x.1 = Some x.2 →
          body x s = if decide (P x.1)
                     then zoom proj upd (IDMap.remove (Some x.1) (Some x.2)) s
                     else (Ok tt, s)) →
  inverse (proj s0) →
  ∃ m',
    for_ (IDMap.pairs (proj s0)) body s0 = (Ok tt, upd m' s0)
    ∧ inverse m'
    ∧ IDMap._next_id m' = IDMap._next_id (proj s0)
    ∧ (∀ p v, IDMap._pydevd_to_vscode m' !! p = Some v
              ↔ IDMap._pydevd_to_vscode (proj s0) !! p = Some v ∧ ¬ P p)
    ∧ (∀ v p, IDMap._vscode_to_pydevd m' !! v = Some p
              ↔ IDMap._vscode_to_pydevd (proj s0) !! v = Some p ∧ ¬ P p).
Proof.
  intros Hsame Hbody Hinv. set (m0 := proj s0).
  pose (I := λ (rest : list (K * Z)) (s : S),
          ∃ m, s = upd m s0 ∧ removing P m0 rest m
               ∧ NoDup rest
               ∧ ∀ p v, (p, v) ∈ rest → IDMap._pydevd_to_vscode m0 !! p = Some v).
  destruct (for_invariant I body (IDMap.pairs m0) s0) as (s' & Hrun & HI).
  - exists m0. split; [done|]. split; [|split].
    + split; [done|]. split; [done|]. intros p v. split.
      * intros Hp. split; [done|]. intros _. by apply elem_of_map_to_list.
      * by intros [Hp _].
    + apply NoDup_map_to_list.
    + intros p v Hin. by apply elem_of_map_to_list in Hin.
  - intros [p v] rest s (m & -> & (Hminv & Hnext & Hm) & Hnd & Hrest).
    apply NoDup_cons in Hnd as [Hnotin Hnd].
    assert (IDMap._pydevd_to_vscode m0 !! p = Some v) as Hp0
      by (apply Hrest; left).
    rewrite (Hbody (p, v)) by done. cbn [fst snd].
    destruct (decide (P p)) as [HP|HP].
    + assert (IDMap._pydevd_to_vscode m !! p = Some v) as Hp.
      { apply Hm. split; [done|]. intros _. left. }
      assert (IDMap._vscode_to_pydevd m !! v = Some p) as Hv by by apply Hminv.
      eexists. split.
      { unfold zoom. rewrite proj_upd, (remove_pair _ _ _ Hv Hp), upd_upd. reflexivity. }
      eexists. split; [reflexivity|]. split; [|split].
      * split; [by apply inverse_delete|]. split; [done|].
        intros p' v'. cbn. rewrite lookup_delete_Some, Hm. split.
        -- intros [Hne [Hp' Hin]]. split; [done|]. intros HP'.
           apply Hin in HP'. apply elem_of_cons in HP' as [[= -> ->]|Hin']; done.
        -- intros [Hp' Hin]. split; [|split; [done|]].
           ++ intros <-. assert (v' = v) as -> by congruence.
              apply Hnotin, Hin, HP.
           ++ intros HP'. right. by apply Hin.
      * done.
      * intros p' v' Hin. apply Hrest. by right.
    + exists (upd m s0). split; [done|].
      exists m. split; [done|]. split; [|split].
      * split; [done|]. split; [done|]. intros p' v'. rewrite Hm. split.
        -- intros [Hp' Hin]. split; [done|]. intros HP'.
           apply Hin in HP' as HP''. apply elem_of_cons in HP'' as [[= -> ->]|Hin']; done.
        -- intros [Hp' Hin]. split; [done|]. intros HP'. right. by apply Hin.
      * done.
      * intros p' v' Hin. apply Hrest. by right.
  - destruct HI as (m' & -> & (Hminv & Hnext & Hm) & _ & _).
    exists m'. split; [done|]. split; [done|]. split; [done|].
    assert (∀ p v, IDMap._pydevd_to_vscode m' !! p = Some v
                   ↔ IDMap._pydevd_to_vscode m0 !! p = Some v ∧ ¬ P p) as Hp2v.
    { intros p v. rewrite Hm. split.
      - intros [Hp Hin]. split; [done|]. intros HP. apply Hin in HP.
        by apply elem_of_nil in HP.
      - intros [Hp HP]. split; [done|]. intros HP'. done. }
    split; [done|].
    intros v p. split.
    + intros Hv. apply Hminv, Hp2v in Hv as [Hp HP]. split; [by apply Hinv|done].
    + intros [Hv HP]. apply Hminv, Hp2v. split; [by apply Hinv|done].
Qed.

End remove_loop.

Section on_pydevd_thread_run_facts.
Import VSCodeMessageProcessor.
Implicit Types (st : VSCodeMessageProcessor.t).

Lemma on_pydevd_thread_run_cached (seq : Z) (args pyd_tid reason : string)
    (xframes : list xframe) st :
  split_tab args = [pyd_tid; reason] →
  stack_traces st !! pyd_tid = Some xframes →
  inverse (frame_map st) →
  inverse (var_map st) →
  var_ids_nonempty (var_map st) →
  ∃ st' vsc_tid,
    on_pydevd_thread_run seq args st = (Ok tt, st')
    ∧ stack_traces st' = delete pyd_tid (stack_traces st)
    ∧ IDMap._pydevd_to_vscode (thread_map st') !! pyd_tid = Some vsc_tid
    ∧ sent st' = sent st ++ [event "continued" [("threadId", AInt vsc_tid)]]
    ∧ (∀ p v, IDMap._pydevd_to_vscode (frame_map st') !! p = Some v
              ↔ IDMap._pydevd_to_vscode (frame_map st) !! p = Some v
                ∧ ¬ frame_of_thread pyd_tid p)
    ∧ (∀ v p, IDMap._vscode_to_pydevd (frame_map st') !! v = Some p
              ↔ IDMap._vscode_to_pydevd (frame_map st) !! v = Some p
                ∧ ¬ frame_of_thread pyd_tid p)
    ∧ (∀ p v, IDMap._pydevd_to_vscode (var_map st') !! p = Some v
              ↔ IDMap._pydevd_to_vscode (var_map st) !! p = Some v
                ∧ ¬ var_of_thread pyd_tid p)
    ∧ (∀ v p, IDMap._vscode_to_pydevd (var_map st') !! v = Some p
              ↔ IDMap._vscode_to_pydevd (var_map st) !! v = Some p
                ∧ ¬ var_of_thread pyd_tid p)
    ∧ inverse (frame_map st') ∧ inverse (var_map st')
    ∧ pydevd st' = pydevd st ∧ bp_map st' = bp_map st
    ∧ thread_map st' = (IDMap.to_vscode pyd_tid true (thread_map st)).2
    ∧ IDMap._next_id (frame_map st') = IDMap._next_id (frame_map st)
    ∧ IDMap._next_id (var_map st') = IDMap._next_id (var_map st).
Proof.
  intros Hsplit Hcache Hfinv Hvinv Hne.
  destruct (to_vscode_true pyd_tid (thread_map st))
    as (vsc_tid & mt & Hto & Hmapped & _).
  set (s2 := upd_stack_traces (delete pyd_tid (stack_traces st)) (upd_thread_map mt st)).
  destruct (remove_loop frame_map upd_frame_map (λ _ _, eq_refl) (λ _ _ _, eq_refl)
              (frame_of_thread pyd_tid)
              (λ f, if decide (f.1.1 = pyd_tid)
                    then in_frame_map (IDMap.remove (Some f.1) (Some f.2))
                    else ret tt) s2)
    as (mf & Hfrun & Hmfinv & Hfnext & Hf1 & Hf2); [done| |done|].
  { intros x s _. unfold frame_of_thread, in_frame_map.
    by destruct (decide (x.1.1 = pyd_tid)). }
  set (s3 := upd_frame_map mf s2) in *.
  destruct (remove_loop var_map upd_var_map (λ _ _, eq_refl) (λ _ _ _, eq_refl)
              (var_of_thread pyd_tid)
              (λ v, match v.1 with
                    | [] => raise IndexError
                    | a :: _ =>
                        if decide (a = AStr pyd_tid)
                        then in_var_map (IDMap.remove (Some v.1) (Some v.2))
                        else ret tt
                    end) s3)
    as (mv & Hvrun & Hmvinv & Hvnext & Hv1 & Hv2); [done| |done|].
  { intros [p v] s Hp. cbn [fst snd] in *. apply Hne in Hp.
    destruct p as [|a p]; [done|]. unfold var_of_thread, in_var_map. cbn [head].
    destruct (decide (a = AStr pyd_tid)) as [->|Ha].
    - by rewrite decide_True.
    - rewrite decide_False; [done|]. congruence. }
  exists (upd_sent (sent st ++ [event "continued" [("threadId", AInt vsc_tid)]])
            (upd_var_map mv s3)), vsc_tid.
  split.
  { unfold on_pydevd_thread_run. rewrite Hsplit.
    erewrite bind_Ok; [|unfold in_thread_map, zoom; rewrite Hto; reflexivity].
    erewrite bind_Ok by reflexivity.
    erewrite bind_Ok;
      [|cbn [stack_traces upd_thread_map]; rewrite Hcache; reflexivity].
    erewrite bind_Ok by reflexivity.
    erewrite bind_Ok by exact Hfrun.
    erewrite bind_Ok by reflexivity.
    erewrite bind_Ok by exact Hvrun.
    reflexivity. }
  cbn. split_and!;
    first [exact Hf1|exact Hf2|exact Hv1|exact Hv2|exact Hmfinv|exact Hmvinv
          |exact Hfnext|exact Hvnext|by rewrite Hto|done].
Qed.

Lemma on_pydevd_thread_run_not_cached (seq : Z) (args pyd_tid reason : string) st :
  split_tab args = [pyd_tid; reason] →
  stack_traces st !! pyd_tid = None →
  ∃ st',
    on_pydevd_thread_run seq args st = (Raise KeyError, st')
    ∧ stack_traces st' = stack_traces st
    ∧ frame_map st' = frame_map st
    ∧ var_map st' = var_map st
    ∧ sent st' = sent st
    ∧ thread_map st' = (IDMap.to_vscode pyd_tid true (thread_map st)).2.
Proof.
  intros Hsplit Hcache.
  destruct (to_vscode_true pyd_tid (thread_map st))
    as (vsc_tid & mt & Hto & Hmapped & _).
  exists (upd_thread_map mt st). split; [|by rewrite Hto].
  unfold on_pydevd_thread_run. rewrite Hsplit.
  erewrite bind_Ok; [|unfold in_thread_map, zoom; rewrite Hto; reflexivity].
  erewrite bind_Ok by reflexivity.
  erewrite bind_Raise; [reflexivity|].
  cbn [stack_traces upd_thread_map]. by rewrite Hcache.
Qed.

End on_pydevd_thread_run_facts.

(** C5, as the specification states it, fails: a thread-run event for a
    thread that has no cached frame list makes the handler raise [KeyError]
    at the deletion of the cache entry. It sends no continued event, and a
    frame id of that thread that the frame map holds stays there. *)
Lemma thread_run_without_cached_frames_raises :
  (let st := VSCodeMessageProcessor.init 0%nat in
   let r := VSCodeMessageProcessor.on_pydevd_thread_run 0 ("t" +:+ tab +:+ "106") st in
   r.1 = Raise KeyError ∧ VSCodeMessageProcessor.sent r.2 = [])
  ∧ (let st := VSCodeMessageProcessor.upd_frame_map
                 (idmap_run [op_to_vscode ("t", 11) true] IDMap.init)
                 (VSCodeMessageProcessor.init 0%nat) in
     let r := VSCodeMessageProcessor.on_pydevd_thread_run 0 ("t" +:+ tab +:+ "106") st in
     r.1 = Raise KeyError
     ∧ VSCodeMessageProcessor.sent r.2 = []
     ∧ IDMap._pydevd_to_vscode (VSCodeMessageProcessor.frame_map r.2) !! ("t", 11)
       = Some 1).
Proof. cbv zeta. split_and!; vm_compute; reflexivity. Qed.

(** ** on_setBreakpoints *)

(** C1 fails on the code: the loop that deletes the existing breakpoints goes
    over every pair of the breakpoint map, whatever its path. After
    breakpoints at lines 10 and 20 of [a.py], a request for line 5 of [b.py]
    sends remove-breakpoint commands for ids 1 and 2 with the path [b.py], and
    takes both breakpoints of [a.py] out of the map. *)
Theorem on_setBreakpoints_removes_other_paths :
  let st1 := (VSCodeMessageProcessor.on_setBreakpoints 1 "a.py" [10; 20]
                (VSCodeMessageProcessor.init 0%nat)).2 in
  let r := VSCodeMessageProcessor.on_setBreakpoints 2 "b.py" [5] st1 in
  IDMap._pydevd_to_vscode (VSCodeMessageProcessor.bp_map st1) !! ("a.py", 1) = Some 1
  ∧ IDMap._pydevd_to_vscode (VSCodeMessageProcessor.bp_map st1) !! ("a.py", 2) = Some 2
  ∧ r.1 = Ok tt
  ∧ IDMap._pydevd_to_vscode (VSCodeMessageProcessor.bp_map r.2) !! ("a.py", 1) = None
  ∧ IDMap._pydevd_to_vscode (VSCodeMessageProcessor.bp_map r.2) !! ("a.py", 2) = None
  ∧ IDMap.pairs (VSCodeMessageProcessor.bp_map r.2) = [(("b.py", 3), 3)]
  ∧ drop 2 (PydevdSocket.pipe (VSCodeMessageProcessor.pydevd r.2)) =
    [PydevdSocket.packet CMD_REMOVE_BREAK 1000000002
       ("python-line" +:+ tab +:+ "b.py" +:+ tab +:+ "1");
     PydevdSocket.packet CMD_REMOVE_BREAK 1000000003
       ("python-line" +:+ tab +:+ "b.py" +:+ tab +:+ "2");
     PydevdSocket.packet CMD_SET_BREAK 1000000004
       ("3" +:+ tab +:+ "python-line" +:+ tab +:+ "b.py" +:+ tab +:+ "5" +:+ tab +:+
        "None" +:+ tab +:+ "None" +:+ tab +:+ "None")]
  ∧ VSCodeMessageProcessor.sent r.2 =
    [response 1 (breakpoints_body [{| bp_id := 1; bp_verified := true; bp_line := 10 |};
                                   {| bp_id := 2; bp_verified := true; bp_line := 20 |}]);
     response 2 (breakpoints_body [{| bp_id := 3; bp_verified := true; bp_line := 5 |}])].
Proof. cbv zeta. split_and!; vm_compute; reflexivity. Qed.

(** ** The maps stay consistent *)

Section maps_ok_facts.
Import VSCodeMessageProcessor.
Variable urllib_unquote : string → string.
Variable int : string → option Z.
Implicit Types (st : VSCodeMessageProcessor.t).

Lemma consistent_init {K : Type} `{Countable K} : consistent (IDMap.init (K:=K)).
Proof. split; [apply init_inverse|apply init_below_next]. Qed.

Lemma consistent_to_vscode {K : Type} `{Countable K} (p : K) g (m : IDMap.t K) :
  consistent m → consistent (IDMap.to_vscode p g m).2.
Proof.
  intros [Hi Hb]. split.
  - by apply (inverse_call (op_to_vscode p g)).
  - by apply (below_next_call (op_to_vscode p g)).
Qed.

Lemma to_vscode_keys {K : Type} `{Countable K} (p : K) g (m : IDMap.t K) q v :
  IDMap._pydevd_to_vscode (IDMap.to_vscode p g m).2 !! q = Some v →
  q = p ∨ IDMap._pydevd_to_vscode m !! q = Some v.
Proof.
  unfold IDMap.to_vscode.
  destruct (IDMap._pydevd_to_vscode m !! p); [by right|].
  destruct g; [|by right]. rewrite add_eq. cbn.
  rewrite lookup_insert_Some. intros [[<- _]|[_ Hq]]; [by left|by right].
Qed.

Lemma maps_ok_init l : maps_ok (init l).
Proof.
  split_and!; try apply consistent_init.
  intros p v. cbn. by rewrite lookup_empty.
Qed.

Lemma preserves_in_thread_map {A} (c : M (IDMap.t string) A) :
  (∀ m, consistent m → consistent (c m).2) → preserves maps_ok (in_thread_map c).
Proof.
  intros Hc st (Ht & Hf & Hv & Hne). unfold in_thread_map, zoom.
  specialize (Hc _ Ht). destruct (c (thread_map st)) as [r m']. by split_and!.
Qed.

Lemma preserves_in_frame_map {A} (c : M (IDMap.t (string * Z)) A) :
  (∀ m, consistent m → consistent (c m).2) → preserves maps_ok (in_frame_map c).
Proof.
  intros Hc st (Ht & Hf & Hv & Hne). unfold in_frame_map, zoom.
  specialize (Hc _ Hf). destruct (c (frame_map st)) as [r m']. by split_and!.
Qed.

Lemma preserves_in_var_map_to_vscode (p : list atom) g :
  p ≠ [] → preserves maps_ok (in_var_map (IDMap.to_vscode p g)).
Proof.
  intros Hp st (Ht & Hf & Hv & Hne). unfold in_var_map, zoom.
  pose proof (consistent_to_vscode p g _ Hv) as Hv'.
  pose proof (to_vscode_keys p g (var_map st)) as Hkeys.
  destruct (IDMap.to_vscode p g (var_map st)) as [r m']. split_and!; try done.
  intros q v Hq. destruct (Hkeys q v Hq) as [->|Hq']; [done|by eapply Hne].
Qed.

Lemma preserves_in_var_map_to_pydevd v :
  preserves maps_ok (in_var_map (IDMap.to_pydevd v)).
Proof. by intros st (Ht & Hf & Hv & Hne). Qed.

Lemma preserves_in_bp_map {A} (c : M (IDMap.t (string * Z)) A) :
  preserves maps_ok (in_bp_map c).
Proof.
  intros st Hok. unfold in_bp_map, zoom. by destruct (c (bp_map st)) as [r m'].
Qed.

Lemma preserves_in_pydevd {A} (c : M PydevdSocket.t A) :
  preserves maps_ok (in_pydevd c).
Proof.
  intros st Hok. unfold in_pydevd, zoom. by destruct (c (pydevd st)) as [r m'].
Qed.

Lemma preserves_send_response request b : preserves maps_ok (send_response request b).
Proof. by intros st Hok. Qed.

Lemma preserves_send_event name fields : preserves maps_ok (send_event name fields).
Proof. by intros st Hok. Qed.

Lemma preserves_pydevd_notify cmd args : preserves maps_ok (pydevd_notify cmd args).
Proof. apply preserves_in_pydevd. Qed.

Lemma preserves_pydevd_request cmd args : preserves maps_ok (pydevd_request cmd args).
Proof.
  apply preserves_bind; [apply preserves_get|]. intros self. apply preserves_in_pydevd.
Qed.

Lemma preserves_py_int s : preserves maps_ok (py_int int s).
Proof. unfold py_int. destruct (int s); [apply preserves_ret|apply preserves_raise]. Qed.

Lemma preserves_to_pydevd_thread v :
  preserves maps_ok (in_thread_map (IDMap.to_pydevd v)).
Proof. by apply preserves_in_thread_map. Qed.

Lemma preserves_to_vscode_thread p g :
  preserves maps_ok (in_thread_map (IDMap.to_vscode p g)).
Proof. apply preserves_in_thread_map. intros m. apply consistent_to_vscode. Qed.

Lemma preserves_on_threads_for xthreads threads :
  preserves maps_ok (on_threads_for urllib_unquote xthreads threads).
Proof.
  revert threads. induction xthreads as [|xt xts IH]; intros threads.
  - apply preserves_ret.
  - cbn [on_threads_for]. apply preserves_bind; [apply preserves_to_vscode_thread|].
    intros tid. apply IH.
Qed.

Lemma preserves_on_stackTrace_for tid xframes startFrame levels stackFrames :
  preserves maps_ok
    (on_stackTrace_for urllib_unquote int tid xframes startFrame levels stackFrames).
Proof.
  revert startFrame levels stackFrames.
  induction xframes as [|xf xfs IH]; intros startFrame levels stackFrames.
  - apply preserves_ret.
  - cbn [on_stackTrace_for]. destruct (0 <? startFrame)%Z; [apply IH|].
    destruct (levels <=? 0)%Z; [apply preserves_ret|].
    apply preserves_bind; [apply preserves_py_int|]. intros pyd_fid.
    apply preserves_bind.
    { apply preserves_in_frame_map. intros m. apply consistent_to_vscode. }
    intros fid. apply preserves_bind; [apply preserves_py_int|]. intros line. apply IH.
Qed.

Lemma preserves_on_variables_for pyd_var xvars vars :
  preserves maps_ok (on_variables_for urllib_unquote pyd_var xvars vars).
Proof.
  revert vars. induction xvars as [|xv xvs IH]; intros vars.
  - apply preserves_ret.
  - cbn [on_variables_for]. destruct (py_bool (xvar_isContainer xv)); [|apply IH].
    apply preserves_bind; [|intros ref; apply IH].
    apply preserves_in_var_map_to_vscode. by destruct pyd_var.
Qed.

Lemma preserves_on_setBreakpoints_for path src_bps bps :
  preserves maps_ok (on_setBreakpoints_for path src_bps bps).
Proof.
  revert bps. induction src_bps as [|line ls IH]; intros bps.
  - apply preserves_ret.
  - cbn [on_setBreakpoints_for].
    apply preserves_bind; [apply preserves_in_bp_map|]. intros vsc_bpid.
    apply preserves_bind; [apply preserves_pydevd_notify|]. intros _. apply IH.
Qed.

Lemma preserves_step_command cmd request threadId :
  preserves maps_ok
    (tid <- in_thread_map (IDMap.to_pydevd threadId) ;;
     pydevd_notify cmd tid ;;; send_response request no_body).
Proof.
  apply preserves_bind; [apply preserves_to_pydevd_thread|]. intros tid.
  apply preserves_bind; [apply preserves_pydevd_notify|]. intros _.
  apply preserves_send_response.
Qed.

Lemma below_next_of_removed {K : Type} `{Countable K} (P : K → Prop) (m m' : IDMap.t K) :
  below_next m →
  IDMap._next_id m' = IDMap._next_id m →
  (∀ v p, IDMap._vscode_to_pydevd m' !! v = Some p
          ↔ IDMap._vscode_to_pydevd m !! v = Some p ∧ ¬ P p) →
  below_next m'.
Proof.
  intros Hb Hnext Hv v p Hvp. rewrite Hnext. apply Hv in Hvp as [Hvp _]. by eapply Hb.
Qed.

Lemma preserves_on_pydevd_thread_run seq args :
  preserves maps_ok (on_pydevd_thread_run seq args).
Proof.
  intros st (Ht & [Hfi Hfb] & [Hvi Hvb] & Hne).
  destruct (split_tab args) as [|pyd_tid [|reason [|]]] eqn:Hsplit;
    try (unfold on_pydevd_thread_run; rewrite Hsplit; by split_and!).
  destruct (stack_traces st !! pyd_tid) as [xframes|] eqn:Hcache.
  - destruct (on_pydevd_thread_run_cached seq args pyd_tid reason xframes st
                Hsplit Hcache Hfi Hvi Hne)
      as (st' & vsc_tid & -> & _ & _ & _ & _ & Hf2 & Hv1 & Hv2 & Hfi' & Hvi'
          & _ & _ & Hthread & Hfnext & Hvnext).
    cbn [snd]. split_and!.
    + rewrite Hthread. by apply consistent_to_vscode.
    + split; [done|]. by eapply below_next_of_removed.
    + split; [done|]. by eapply below_next_of_removed.
    + intros p v Hp. apply Hv1 in Hp as [Hp _]. by eapply Hne.
  - destruct (on_pydevd_thread_run_not_cached seq args pyd_tid reason st Hsplit Hcache)
      as (st' & -> & _ & Hf & Hv & _ & Hthread).
    cbn [snd]. unfold maps_ok. rewrite Hf, Hv, Hthread. split_and!; try done.
    by apply consistent_to_vscode.
Qed.

(** Every handler keeps the thread, frame and variable maps consistent,
    whether it returns or raises. *)
Lemma maps_ok_handle c st : maps_ok st → maps_ok (handle urllib_unquote int c st).
Proof.
  intros Hok. destruct c; cbn [handle].
  - exact (preserves_pydevd_request CMD_LIST_THREADS "" st Hok).
  - revert st Hok. apply preserves_bind; [apply preserves_on_threads_for|].
    intros threads. apply preserves_send_response.
  - revert st Hok. apply preserves_bind; [apply preserves_to_pydevd_thread|].
    intros tid. apply preserves_bind; [apply preserves_get|]. intros self.
    destruct (stack_traces self !! tid); [|apply preserves_raise].
    apply preserves_bind; [apply preserves_on_stackTrace_for|].
    intros frames. apply preserves_send_response.
  - revert st Hok. apply preserves_bind.
    { by apply preserves_in_frame_map. }
    intros pyd. apply preserves_bind; [by apply preserves_in_var_map_to_vscode|].
    intros vsc_var. apply preserves_send_response.
  - revert st Hok. apply preserves_bind; [apply preserves_in_var_map_to_pydevd|].
    intros pyd_var. apply preserves_bind; [apply preserves_pydevd_request|].
    intros fut. apply preserves_ret.
  - revert st Hok. apply preserves_bind; [apply preserves_on_variables_for|].
    intros vars. apply preserves_send_response.
  - revert st Hok. apply preserves_bind; [|intros _; apply preserves_send_response].
    destruct (threadId =? 0)%Z.
    + apply preserves_bind; [apply preserves_get|]. intros self.
      apply preserves_for_. intros tid. apply preserves_pydevd_notify.
    + apply preserves_bind; [apply preserves_to_pydevd_thread|]. intros tid.
      apply preserves_pydevd_notify.
  - by apply preserves_step_command.
  - by apply preserves_step_command.
  - by apply preserves_step_command.
  - by apply preserves_step_command.
  - revert st Hok. apply preserves_bind; [apply preserves_get|]. intros self.
    apply preserves_bind.
    { apply preserves_for_. intros b.
      apply preserves_bind; [apply preserves_pydevd_notify|]. intros _.
      apply preserves_in_bp_map. }
    intros _. apply preserves_bind; [apply preserves_on_setBreakpoints_for|].
    intros bps. apply preserves_send_response.
  - revert st Hok. apply preserves_bind; [apply preserves_to_vscode_thread|].
    intros tid. apply preserves_send_event.
  - revert st Hok. apply preserves_bind.
    { apply preserves_except_KeyError; [|apply preserves_ret].
      apply preserves_bind; [apply preserves_to_vscode_thread|].
      intros tid. apply preserves_ret. }
    intros [tid|]; [apply preserves_send_event|apply preserves_ret].
  - revert st Hok. apply preserves_bind; [apply preserves_py_int|]. intros reason.
    apply preserves_bind.
    { destruct (xsuspended_frame _); [apply preserves_raise|].
      apply preserves_modify. by intros s Hs. }
    intros _. apply preserves_bind; [apply preserves_to_vscode_thread|].
    intros tid. apply preserves_send_event.
  - by apply preserves_on_pydevd_thread_run.
Qed.

(** In every state that the calls lead to, the thread, frame and variable
    maps are consistent. *)
Lemma reachable_maps_ok st : reachable urllib_unquote int st → maps_ok st.
Proof.
  induction 1 as [l|c st Hst IH]; [apply maps_ok_init|by apply maps_ok_handle].
Qed.

End maps_ok_facts.

(** ** The claim about on_pydevd_thread_run *)

(** C5, as the code has it: in a state whose maps are consistent, as every
    state that the calls lead to is, a thread-run event for a thread
    [pyd_tid] whose frame list is cached makes the handler delete the cached
    frame list, remove from both dictionaries of the frame map and of the
    variable map every pair whose pydevd id has [pyd_tid] as its first
    component, leave every other pair as it was, and send a continued event
    with the thread's VSCode id. For a thread with no cached frame list the
    handler raises [KeyError] after it has registered the thread in the
    thread map, where the thread then has an id and the other threads keep
    theirs: it removes nothing and sends nothing. *)
Theorem on_pydevd_thread_run_clears (seq : Z) (args pyd_tid reason : string)
    (st : VSCodeMessageProcessor.t) :
  split_tab args = [pyd_tid; reason] →
  maps_ok st →
  (∀ xframes,
     VSCodeMessageProcessor.stack_traces st !! pyd_tid = Some xframes →
     ∃ st' vsc_tid,
       VSCodeMessageProcessor.on_pydevd_thread_run seq args st = (Ok tt, st')
       ∧ VSCodeMessageProcessor.stack_traces st'
         = delete pyd_tid (VSCodeMessageProcessor.stack_traces st)
       ∧ IDMap._pydevd_to_vscode (VSCodeMessageProcessor.thread_map st') !! pyd_tid
         = Some vsc_tid
       ∧ VSCodeMessageProcessor.sent st' =
         VSCodeMessageProcessor.sent st ++
         [event "continued" [("threadId", AInt vsc_tid)]]
       ∧ (∀ p v,
            IDMap._pydevd_to_vscode (VSCodeMessageProcessor.frame_map st') !! p = Some v
            ↔ IDMap._pydevd_to_vscode (VSCodeMessageProcessor.frame_map st) !! p = Some v
              ∧ ¬ frame_of_thread pyd_tid p)
       ∧ (∀ v p,
            IDMap._vscode_to_pydevd (VSCodeMessageProcessor.frame_map st') !! v = Some p
            ↔ IDMap._vscode_to_pydevd (VSCodeMessageProcessor.frame_map st) !! v = Some p
              ∧ ¬ frame_of_thread pyd_tid p)
       ∧ (∀ p v,
            IDMap._pydevd_to_vscode (VSCodeMessageProcessor.var_map st') !! p = Some v
            ↔ IDMap._pydevd_to_vscode (VSCodeMessageProcessor.var_map st) !! p = Some v
              ∧ ¬ var_of_thread pyd_tid p)
       ∧ (∀ v p,
            IDMap._vscode_to_pydevd (VSCodeMessageProcessor.var_map st') !! v = Some p
            ↔ IDMap._vscode_to_pydevd (VSCodeMessageProcessor.var_map st) !! v = Some p
              ∧ ¬ var_of_thread pyd_tid p))
  ∧ (VSCodeMessageProcessor.stack_traces st !! pyd_tid = None →
     ∃ st' vsc_tid,
       VSCodeMessageProcessor.on_pydevd_thread_run seq args st = (Raise KeyError, st')
       ∧ VSCodeMessageProcessor.stack_traces st' = VSCodeMessageProcessor.stack_traces st
       ∧ VSCodeMessageProcessor.frame_map st' = VSCodeMessageProcessor.frame_map st
       ∧ VSCodeMessageProcessor.var_map st' = VSCodeMessageProcessor.var_map st
       ∧ VSCodeMessageProcessor.sent st' = VSCodeMessageProcessor.sent st
       ∧ VSCodeMessageProcessor.thread_map st'
         = (IDMap.to_vscode pyd_tid true (VSCodeMessageProcessor.thread_map st)).2
       ∧ IDMap._pydevd_to_vscode (VSCodeMessageProcessor.thread_map st') !! pyd_tid
         = Some vsc_tid
       ∧ (∀ p v,
            IDMap._pydevd_to_vscode (VSCodeMessageProcessor.thread_map st) !! p = Some v →
            IDMap._pydevd_to_vscode (VSCodeMessageProcessor.thread_map st') !! p
            = Some v)).
Proof.
  intros Hsplit (_ & [Hfinv _] & [Hvinv _] & Hne). split.
  - intros xframes Hcache.
    destruct (on_pydevd_thread_run_cached seq args pyd_tid reason xframes st
                Hsplit Hcache Hfinv Hvinv Hne)
      as (st' & vsc_tid & Hrun & H1 & H2 & H3 & H4 & H5 & H6 & H7 & _).
    exists st', vsc_tid. by split_and!.
  - intros Hcache.
    destruct (on_pydevd_thread_run_not_cached seq args pyd_tid reason st Hsplit Hcache)
      as (st' & Hrun & H1 & H2 & H3 & H4 & H5).
    destruct (to_vscode_true pyd_tid (VSCodeMessageProcessor.thread_map st))
      as (vsc_tid & mt & Hto & Hmapped & Hkept & _).
    rewrite Hto in H5. cbn [snd] in H5.
    exists st', vsc_tid. split; [exact Hrun|]. split; [exact H1|]. split; [exact H2|].
    split; [exact H3|]. split; [exact H4|].
    split; [by rewrite Hto|]. rewrite H5. by split.
Qed.

Lemma on_pydevd_thread_run_clears_witness :
  let f1 := {| xframe_id := "11"; xframe_name := Some "main";
               xframe_file := Some "a.py"; xframe_line := "3";
               xframe_children := 0 |} in
  let f2 := {| xframe_id := "12"; xframe_name := Some "work";
               xframe_file := Some "b.py"; xframe_line := "8";
               xframe_children := 0 |} in
  let f3 := {| xframe_id := "13"; xframe_name := Some "<module>";
               xframe_file := Some "c.py"; xframe_line := "1";
               xframe_children := 0 |} in
  let st :=
    foldl (λ st c, handle id decimal c st) (VSCodeMessageProcessor.init 0%nat)
      [thread_suspend_event 1 {| xsuspended_id := "t"; xsuspended_stop_reason := "111";
                                 xsuspended_frame := [f1; f3] |};
       thread_suspend_event 3 {| xsuspended_id := "u"; xsuspended_stop_reason := "105";
                                 xsuspended_frame := [f2; f3] |};
       stackTrace_request 1 1 0 0; stackTrace_request 2 2 0 0;
       scopes_request 3 1; scopes_request 4 3] in
  (IDMap._pydevd_to_vscode (VSCodeMessageProcessor.frame_map st) !! ("t", 11) = Some 1
   ∧ IDMap._vscode_to_pydevd (VSCodeMessageProcessor.var_map st) !! 1
     = Some [AStr "t"; AInt 11; AStr "FRAME"])
  ∧ (∃ st' vsc_tid,
       VSCodeMessageProcessor.on_pydevd_thread_run 5 ("t" +:+ tab +:+ "106") st
       = (Ok tt, st')
       ∧ VSCodeMessageProcessor.stack_traces st' !! "t" = None
       ∧ VSCodeMessageProcessor.stack_traces st' !! "u" = Some [f2; f3]
       ∧ VSCodeMessageProcessor.sent st' =
         VSCodeMessageProcessor.sent st ++ [event "continued" [("threadId", AInt vsc_tid)]]
       ∧ IDMap._pydevd_to_vscode (VSCodeMessageProcessor.frame_map st') !! ("t", 11) = None
       ∧ IDMap._pydevd_to_vscode (VSCodeMessageProcessor.frame_map st') !! ("u", 12)
         = Some 3
       ∧ IDMap._vscode_to_pydevd (VSCodeMessageProcessor.var_map st') !! 1 = None
       ∧ IDMap._vscode_to_pydevd (VSCodeMessageProcessor.var_map st') !! 2
         = Some [AStr "u"; AInt 12; AStr "FRAME"])
  ∧ (∃ st' vsc_tid,
       VSCodeMessageProcessor.on_pydevd_thread_run 6 ("w" +:+ tab +:+ "106") st
       = (Raise KeyError, st')
       ∧ VSCodeMessageProcessor.sent st' = VSCodeMessageProcessor.sent st
       ∧ IDMap._pydevd_to_vscode (VSCodeMessageProcessor.thread_map st') !! "w"
         = Some vsc_tid).
Proof.
  intros f1 f2 f3 st.
  assert (maps_ok st) as Hok.
  { apply (reachable_maps_ok id decimal). unfold st. cbn [foldl].
    repeat apply reachable_handle. apply reachable_init. }
  assert (split_tab ("t" +:+ tab +:+ "106") = ["t"; "106"]) as Hsplit
    by (vm_compute; reflexivity).
  assert (split_tab ("w" +:+ tab +:+ "106") = ["w"; "106"]) as Hsplit'
    by (vm_compute; reflexivity).
  assert (VSCodeMessageProcessor.stack_traces st !! "t" = Some [f1; f3]) as Hcache
    by (vm_compute; reflexivity).
  assert (VSCodeMessageProcessor.stack_traces st !! "w" = None) as Hcache'
    by (vm_compute; reflexivity).
  split; [split; vm_compute; reflexivity|]. split.
  - destruct (proj1 (on_pydevd_thread_run_clears 5 ("t" +:+ tab +:+ "106") "t" "106" st
                       Hsplit Hok) [f1; f3] Hcache)
      as (st' & vsc_tid & Hrun & Hst & _ & Hsent & Hf & _ & _ & Hv).
    exists st', vsc_tid.
    split; [exact Hrun|]. split; [by rewrite Hst, lookup_delete_eq|].
    split; [rewrite Hst, lookup_delete_ne by done; vm_compute; reflexivity|].
    split; [exact Hsent|].
    split; [|split; [|split]].
    + destruct (IDMap._pydevd_to_vscode (VSCodeMessageProcessor.frame_map st')
                  !! ("t", 11)) as [v|] eqn:E; [|reflexivity].
      apply Hf in E as [_ Hn]. destruct Hn. reflexivity.
    + apply Hf. split; [vm_compute; reflexivity|]. intros Hu. discriminate Hu.
    + destruct (IDMap._vscode_to_pydevd (VSCodeMessageProcessor.var_map st') !! 1)
        as [p|] eqn:E; [|reflexivity].
      apply Hv in E as [Hp Hn]. vm_compute in Hp. injection Hp as <-.
      destruct Hn. reflexivity.
    + apply Hv. split; [vm_compute; reflexivity|]. intros Hu. discriminate Hu.
  - destruct (proj2 (on_pydevd_thread_run_clears 6 ("w" +:+ tab +:+ "106") "w" "106" st
                       Hsplit' Hok) Hcache')
      as (st' & vsc_tid & Hrun & _ & _ & _ & Hsent & _ & Hmapped & _).
    exists st', vsc_tid. split; [exact Hrun|]. split; [exact Hsent|exact Hmapped].
Defined.

(** ** The maps of the processor *)

(** In every state that the calls lead to from the initial one, whatever
    the handlers raised on the way, the thread, frame and variable maps are
    consistent: their dictionaries are inverse of each other, so that
    [to_vscode] and [to_pydevd] undo each other on them. *)
Theorem reachable_maps_inverse (urllib_unquote : string → string)
    (int : string → option Z) (st : VSCodeMessageProcessor.t) :
  reachable urllib_unquote int st →
  maps_ok st
  ∧ (∀ v p, IDMap.to_pydevd v (VSCodeMessageProcessor.frame_map st)
            = (Ok p, VSCodeMessageProcessor.frame_map st)
            ↔ IDMap.to_vscode p false (VSCodeMessageProcessor.frame_map st)
              = (Ok v, VSCodeMessageProcessor.frame_map st))
  ∧ (∀ v p, IDMap.to_pydevd v (VSCodeMessageProcessor.var_map st)
            = (Ok p, VSCodeMessageProcessor.var_map st)
            ↔ IDMap.to_vscode p false (VSCodeMessageProcessor.var_map st)
              = (Ok v, VSCodeMessageProcessor.var_map st))
  ∧ (∀ v p, IDMap.to_pydevd v (VSCodeMessageProcessor.thread_map st)
            = (Ok p, VSCodeMessageProcessor.thread_map st)
            ↔ IDMap.to_vscode p false (VSCodeMessageProcessor.thread_map st)
              = (Ok v, VSCodeMessageProcessor.thread_map st)).
Proof.
  intros Hreach.
  pose proof (reachable_maps_ok urllib_unquote int st Hreach) as Hok.
  split; [done|].
  assert (∀ (K : Type) `(Countable K) (m : IDMap.t K), inverse m →
            ∀ v p, IDMap.to_pydevd v m = (Ok p, m)
                   ↔ IDMap.to_vscode p false m = (Ok v, m)) as Hround.
  { intros K ? ? m Hinv v p. unfold IDMap.to_pydevd, IDMap.to_vscode, IDMap.getitem.
    specialize (Hinv v p).
    destruct (IDMap._vscode_to_pydevd m !! v) as [p0|] eqn:Ev;
      destruct (IDMap._pydevd_to_vscode m !! p) as [v0|] eqn:Ep; split;
      intros [= ?]; subst; f_equal; f_equal.
    - assert (Some v0 = Some v) as [= ->] by by apply Hinv. done.
    - assert (Some p0 = Some p) as [= ->] by by apply Hinv. done.
    - assert (None = Some v) by by apply Hinv. done.
    - assert (None = Some p) by by apply Hinv. done. }
  destruct Hok as ([Ht _] & [Hf _] & [Hv _] & _).
  split_and!; by apply Hround.
Qed.

Lemma reachable_maps_inverse_witness :
  let f1 := {| xframe_id := "11"; xframe_name := Some "main";
               xframe_file := Some "a.py"; xframe_line := "3";
               xframe_children := 0 |} in
  let f2 := {| xframe_id := "12"; xframe_name := Some "<module>";
               xframe_file := Some "b.py"; xframe_line := "8";
               xframe_children := 0 |} in
  let st :=
    foldl (λ st c, handle id decimal c st) (VSCodeMessageProcessor.init 0%nat)
      [thread_suspend_event 1 {| xsuspended_id := "t"; xsuspended_stop_reason := "111";
                                 xsuspended_frame := [f1; f2] |};
       stackTrace_request 1 1 0 0; scopes_request 2 1] in
  reachable id decimal st
  ∧ IDMap.to_vscode ("t", 11) false (VSCodeMessageProcessor.frame_map st)
    = (Ok 1, VSCodeMessageProcessor.frame_map st).
Proof.
  intros f1 f2 st.
  assert (reachable id decimal st) as Hreach.
  { unfold st. cbn [foldl]. repeat apply reachable_handle. apply reachable_init. }
  split; [exact Hreach|].
  apply (proj1 (proj2 (reachable_maps_inverse id decimal st Hreach))).
  vm_compute. reflexivity.
Defined.

(** ** More of IDMap: remove, to_vscode and the snapshots *)

Section IDMap_more.
Context {K : Type} `{Countable K}.
Implicit Types (m : IDMap.t K) (p : K) (v : Z).

(** In a map whose dictionaries are inverse, a mapped pair is removed the
    same way by its pydevd id alone, by its VSCode id alone and by both: both
    directions go, the two lookups raise [KeyError] afterwards, the other
    pairs stay, and the counter is not moved back, so the id is not given out
    again. *)
Theorem remove_by_either_key m p v :
  inverse m →
  IDMap._pydevd_to_vscode m !! p = Some v →
  let m' := IDMap.mk (delete v (IDMap._vscode_to_pydevd m))
                     (delete p (IDMap._pydevd_to_vscode m)) (IDMap._next_id m) in
  IDMap.remove (Some p) None m = (Ok tt, m')
  ∧ IDMap.remove None (Some v) m = (Ok tt, m')
  ∧ IDMap.remove (Some p) (Some v) m = (Ok tt, m')
  ∧ inverse m'
  ∧ IDMap.to_pydevd v m' = (Raise KeyError, m')
  ∧ IDMap.to_vscode p false m' = (Raise KeyError, m')
  ∧ (∀ p' v', p' ≠ p → IDMap._pydevd_to_vscode m' !! p' = Some v'
                        ↔ IDMap._pydevd_to_vscode m !! p' = Some v').
Proof.
  intros Hinv Hp m'.
  assert (IDMap._vscode_to_pydevd m !! v = Some p) as Hv by by apply Hinv.
  split_and!.
  - unfold IDMap.remove, IDMap.getitem. by rewrite Hp, Hv, Hp.
  - unfold IDMap.remove, IDMap.getitem. by rewrite Hv, Hv, Hp.
  - by apply remove_pair.
  - by apply inverse_delete.
  - unfold IDMap.to_pydevd, IDMap.getitem. cbn. by rewrite lookup_delete_eq.
  - apply to_vscode_KeyError. cbn. by rewrite lookup_delete_eq.
  - intros p' v' Hne. cbn. by rewrite lookup_delete_ne.
Qed.

(** [remove] raises [KeyError] and leaves the map as it was when it is given
    no key, a pydevd id alone that is not mapped, or a VSCode id that is not
    mapped. Given a VSCode id that is mapped with a pydevd id that is not, it
    raises [KeyError] after it has deleted the VSCode id from the forward
    dictionary: the reverse dictionary keeps the entry of its partner. *)
Theorem remove_missing_key m :
  IDMap.remove None None m = (Raise KeyError, m)
  ∧ (∀ p, IDMap._pydevd_to_vscode m !! p = None →
          IDMap.remove (Some p) None m = (Raise KeyError, m))
  ∧ (∀ v op, IDMap._vscode_to_pydevd m !! v = None →
             IDMap.remove op (Some v) m = (Raise KeyError, m))
  ∧ (∀ p v p0, IDMap._vscode_to_pydevd m !! v = Some p0 →
               IDMap._pydevd_to_vscode m !! p = None →
               IDMap.remove (Some p) (Some v) m =
               (Raise KeyError,
                IDMap.mk (delete v (IDMap._vscode_to_pydevd m))
                         (IDMap._pydevd_to_vscode m) (IDMap._next_id m))).
Proof.
  split_and!.
  - done.
  - intros p Hp. unfold IDMap.remove, IDMap.getitem. by rewrite Hp.
  - intros v [p|] Hv; unfold IDMap.remove, IDMap.getitem; by rewrite ?Hv.
  - intros p v p0 Hv Hp. unfold IDMap.remove. by rewrite Hv, Hp.
Qed.

(** [to_vscode] always returns an id when it may generate one; the id is
    stable: asking again, with or without [autogen], returns the same id and
    changes nothing. For a pydevd id that is mapped the map is not changed;
    for one that is not, the id is the counter's value, and without [autogen]
    the call raises [KeyError] and changes nothing. In a consistent map
    [to_pydevd] of the returned id is the pydevd id. *)
Theorem to_vscode_stable m p :
  ∃ v m1,
    IDMap.to_vscode p true m = (Ok v, m1)
    ∧ IDMap.to_vscode p true m1 = (Ok v, m1)
    ∧ IDMap.to_vscode p false m1 = (Ok v, m1)
    ∧ (∀ v0, IDMap._pydevd_to_vscode m !! p = Some v0 → v = v0 ∧ m1 = m)
    ∧ (IDMap._pydevd_to_vscode m !! p = None →
       v = IDMap._next_id m ∧ IDMap.to_vscode p false m = (Raise KeyError, m))
    ∧ (inverse m → below_next m →
       inverse m1 ∧ IDMap.to_pydevd v m1 = (Ok p, m1)).
Proof.
  destruct (to_vscode_true p m) as (v & m1 & Hto & Hv & _ & _ & Hcase).
  exists v, m1. split; [done|].
  split; [by apply to_vscode_mapped|]. split; [by apply to_vscode_mapped|].
  split_and!.
  - intros v0 Hp. by rewrite Hp in Hcase.
  - intros Hp. rewrite Hp in Hcase. split; [done|]. by apply to_vscode_KeyError.
  - intros Hinv Hb.
    assert (inverse m1) as Hinv1.
    { replace m1 with (idmap_call (op_to_vscode p true) m) by (cbn; by rewrite Hto).
      by apply inverse_call. }
    split; [done|]. unfold IDMap.to_pydevd, IDMap.getitem.
    apply Hinv1 in Hv. by rewrite Hv.
Qed.

(** The snapshots of a map whose dictionaries are inverse agree: [pairs]
    lists each mapped pair once, its pydevd ids are [pydevd_ids], and its
    VSCode ids are [vscode_ids] up to order; no id is listed twice. *)
Theorem snapshots_agree m :
  inverse m →
  (∀ p v, (p, v) ∈ IDMap.pairs m ↔ IDMap._pydevd_to_vscode m !! p = Some v)
  ∧ NoDup (IDMap.pairs m)
  ∧ (IDMap.pairs m).*1 = IDMap.pydevd_ids m
  ∧ (IDMap.pairs m).*2 ≡ₚ IDMap.vscode_ids m
  ∧ NoDup (IDMap.pydevd_ids m)
  ∧ NoDup (IDMap.vscode_ids m)
  ∧ length (IDMap.vscode_ids m) = length (IDMap.pydevd_ids m).
Proof.
  intros Hinv.
  assert (NoDup (IDMap.pairs m).*2) as Hnd2.
  { apply NoDup_fmap_2_strong; [|apply NoDup_map_to_list].
    intros [p1 v1] [p2 v2] H1%elem_of_map_to_list H2%elem_of_map_to_list Heq.
    cbn in Heq. subst v2. apply Hinv in H1, H2. congruence. }
  assert ((IDMap.pairs m).*2 ≡ₚ IDMap.vscode_ids m) as Hperm.
  { apply NoDup_Permutation; [done|apply NoDup_fst_map_to_list|].
    intros v. unfold IDMap.vscode_ids, IDMap.pairs. rewrite !list_elem_of_fmap. split.
    - intros ([p v'] & -> & Hin%elem_of_map_to_list). cbn.
      exists (v', p). split; [done|]. apply elem_of_map_to_list. by apply Hinv.
    - intros ([v' p] & -> & Hin%elem_of_map_to_list). cbn.
      exists (p, v'). split; [done|]. apply elem_of_map_to_list. by apply Hinv. }
  split_and!.
  - intros p v. apply elem_of_map_to_list.
  - apply NoDup_map_to_list.
  - done.
  - done.
  - apply NoDup_fst_map_to_list.
  - apply NoDup_fst_map_to_list.
  - rewrite <- Hperm. unfold IDMap.pydevd_ids, IDMap.pairs. by rewrite !length_fmap.
Qed.

End IDMap_more.

Lemma remove_by_either_key_witness :
  let m := idmap_run [op_to_vscode "t1" true; op_to_vscode "t2" true] IDMap.init in
  IDMap.remove (Some "t1") None m = IDMap.remove None (Some 1) m
  ∧ IDMap._pydevd_to_vscode (IDMap.remove None (Some 1) m).2 !! "t2" = Some 2.
Proof.
  intros m.
  assert (inverse m) as Hinv.
  { apply inverse_run; [apply init_inverse|apply init_below_next|].
    vm_compute. tauto. }
  assert (IDMap._pydevd_to_vscode m !! "t1" = Some 1) as Hp by (vm_compute; reflexivity).
  destruct (remove_by_either_key m "t1" 1 Hinv Hp) as (H1 & H2 & _ & _ & _ & _ & Hother).
  split; [by rewrite H1, H2|].
  rewrite H2. cbn [snd]. apply Hother; [done|]. vm_compute. reflexivity.
Defined.

Lemma snapshots_agree_witness :
  let m := idmap_run [op_to_vscode "t1" true; op_to_vscode "t2" true;
                      op_remove (Some "t1") None; op_to_vscode "t3" true]
                     IDMap.init in
  length (IDMap.vscode_ids m) = length (IDMap.pydevd_ids m)
  ∧ (IDMap.pairs m).*2 ≡ₚ IDMap.vscode_ids m.
Proof.
  intros m.
  assert (inverse m) as Hinv.
  { apply inverse_run; [apply init_inverse|apply init_below_next|].
    vm_compute. tauto. }
  destruct (snapshots_agree m Hinv) as (_ & _ & _ & Hperm & _ & _ & Hlen).
  by split.
Defined.


(** ** More of PydevdSocket: malformed packets, requests and their replies *)

Lemma py_split_length sep n s :
  length (py_split sep n s) = S (n `min` count_char sep s).
Proof.
  revert n. induction s as [|c r IH]; intros n; cbn.
  { by rewrite Nat.min_0_r. }
  destruct n as [|n]; [done|].
  destruct (Ascii.eqb c sep).
  - cbn. by rewrite IH.
  - specialize (IH (S n)). cbn [Nat.add].
    destruct (py_split sep (S n) r) as [|f fs]; [done|]. done.
Qed.

Section PydevdSocket_more.
Variable urllib_unquote : string → string.
Variable int : string → option Z.
Implicit Types (s : PydevdSocket.t).

(** [send] of data with fewer than two tab characters after unquoting, or
    whose command id or sequence number is not a numeral, raises
    [ValueError]; nothing is taken from the table of pending requests and
    nothing is delivered. *)
Theorem send_malformed_raises data s :
  (count_char TAB (urllib_unquote data) < 2)%nat
  ∨ (∃ c q a, py_split TAB 2 (urllib_unquote data) = [c; q; a]
              ∧ (int c = None ∨ int q = None)) →
  PydevdSocket.send urllib_unquote int data s = (Raise ValueError, s).
Proof.
  intros [Hfew|(c & q & a & Hsplit & Hint)]; unfold PydevdSocket.send.
  - pose proof (py_split_length TAB 2 (urllib_unquote data)) as Hlen.
    destruct (py_split TAB 2 (urllib_unquote data)) as [|c [|q [|a [|]]]]; try done.
    cbn [length] in Hlen. lia.
  - rewrite Hsplit. unfold PydevdSocket.py_int, bind.
    destruct Hint as [Hc|Hq]; [by rewrite Hc|].
    destruct (int c); [|done]. cbn. by rewrite Hq.
Qed.

Lemma pending_below_call o s :
  pending_below s → pending_below (socket_call urllib_unquote int o s).
Proof.
  intros Hs q l f. destruct o as [c a|l' c a|d]; cbn [socket_call].
  - rewrite pydevd_notify_eq. cbn. intros Hq%Hs. lia.
  - rewrite pydevd_request_eq. cbn. rewrite lookup_insert_Some.
    intros [[<- [= <- <-]]|[_ Hq%Hs]]; lia.
  - destruct (send_seq_pipe urllib_unquote int d s) as [Hseq _].
    assert (PydevdSocket.futures (PydevdSocket.send urllib_unquote int d s).2
            = PydevdSocket.futures s) as Hfut.
    { unfold PydevdSocket.send.
      destruct (py_split TAB 2 (urllib_unquote d)) as [|c [|q' [|a [|]]]]; try done.
      unfold PydevdSocket.py_int, bind.
      destruct (int c) as [cmd_id|]; [|done]. cbn.
      destruct (int q') as [seq|]; [|done]. cbn.
      by destruct (PydevdSocket.requests s !! seq) as [[loop fut]|]. }
    rewrite Hseq, Hfut.
    destruct (send_requests urllib_unquote int d s) as [->|[q' ->]].
    + apply Hs.
    + rewrite lookup_delete_Some. intros [_ Hq]. by eapply Hs.
Qed.

Lemma pending_below_run ops s :
  pending_below s → pending_below (socket_run urllib_unquote int ops s).
Proof.
  revert s. induction ops as [|o ops IH]; intros s Hs; [done|].
  cbn. by apply IH, pending_below_call.
Qed.

(** At any moment of a socket's life, [pydevd_request] registers its future
    under a sequence number that no pending request has: every request that
    was pending stays pending, with a future other than the new one. The reply
    with that number then resolves the new future on the loop of the call, and
    leaves the table of pending requests as it was before the call. *)
Theorem request_then_reply (ops : list socket_op) (l : EventLoop) (c : Z)
    (a data cq qq aq : string) (cmd_id : Z) :
  let s := socket_run urllib_unquote int ops PydevdSocket.init in
  py_split TAB 2 (urllib_unquote data) = [cq; qq; aq] →
  int cq = Some cmd_id →
  int qq = Some (PydevdSocket.seq s) →
  ∃ fut s1,
    PydevdSocket.pydevd_request l c a s = (Ok fut, s1)
    ∧ PydevdSocket.requests s1 !! PydevdSocket.seq s = Some (l, fut)
    ∧ (∀ q x, PydevdSocket.requests s !! q = Some x →
              PydevdSocket.requests s1 !! q = Some x ∧ x.2 ≠ fut)
    ∧ PydevdSocket.send urllib_unquote int data s1 =
      (Ok (Z.of_nat (String.length data),
           PydevdSocket.call_soon_threadsafe l fut (cmd_id, PydevdSocket.seq s, aq)),
       PydevdSocket.set_requests (delete (PydevdSocket.seq s)) s1)
    ∧ PydevdSocket.requests
        (PydevdSocket.set_requests (delete (PydevdSocket.seq s)) s1)
      = PydevdSocket.requests s.
Proof.
  intros s Hsplit Hc Hq.
  assert (pending_below s) as Hbelow.
  { apply pending_below_run. intros q l' f. cbn. by rewrite lookup_empty. }
  assert (PydevdSocket.requests s !! PydevdSocket.seq s = None) as Hfree.
  { destruct (PydevdSocket.requests s !! PydevdSocket.seq s) as [[l' f]|] eqn:E; [|done].
    apply Hbelow in E. lia. }
  eexists _, _. split; [apply pydevd_request_eq|]. cbn.
  split; [apply lookup_insert_eq|]. split_and!.
  - intros q [l' f] Hx. split.
    + rewrite lookup_insert_ne; [done|]. intros <-. by rewrite Hfree in Hx.
    + cbn. apply Hbelow in Hx. lia.
  - rewrite (send_parsed urllib_unquote int data cq qq aq cmd_id _ _ Hsplit Hc Hq).
    cbn. by rewrite lookup_insert_eq.
  - by rewrite delete_insert_eq, delete_id.
Qed.

End PydevdSocket_more.

Lemma send_malformed_raises_witness :
  PydevdSocket.send id decimal "hello" PydevdSocket.init
    = (Raise ValueError, PydevdSocket.init)
  ∧ PydevdSocket.send id decimal ("x" +:+ tab +:+ "1" +:+ tab +:+ "a") PydevdSocket.init
    = (Raise ValueError, PydevdSocket.init).
Proof.
  split.
  - apply send_malformed_raises. left. vm_compute. lia.
  - apply send_malformed_raises. right. exists "x", "1", "a".
    split; [vm_compute; reflexivity|]. left. vm_compute. reflexivity.
Defined.

Lemma request_then_reply_witness :
  let ops := [op_notify CMD_RUN ""; op_request 3%nat CMD_LIST_THREADS ""] in
  let s := socket_run id decimal ops PydevdSocket.init in
  ∃ fut s1,
    PydevdSocket.pydevd_request 7%nat CMD_GET_FRAME "t" s = (Ok fut, s1)
    ∧ PydevdSocket.requests s1 !! 1000000001 = Some (3%nat, 0%nat)
    ∧ PydevdSocket.requests
        (PydevdSocket.send id decimal
           ("114" +:+ tab +:+ "1000000002" +:+ tab +:+ "<xml/>") s1).2
      = PydevdSocket.requests s.
Proof.
  intros ops s.
  assert (py_split TAB 2 (id ("114" +:+ tab +:+ "1000000002" +:+ tab +:+ "<xml/>"))
          = ["114"; "1000000002"; "<xml/>"]) as Hsplit by (vm_compute; reflexivity).
  assert (decimal "114" = Some 114) as Hc by (vm_compute; reflexivity).
  assert (decimal "1000000002" = Some (PydevdSocket.seq s)) as Hq
    by (vm_compute; reflexivity).
  destruct (request_then_reply id decimal ops 7%nat CMD_GET_FRAME "t" _ _ _ _ 114
              Hsplit Hc Hq) as (fut & s1 & Hreq & _ & Hkeep & Hsend & Hback).
  exists fut, s1. split; [exact Hreq|]. split.
  - apply (Hkeep 1000000001 (3%nat, 0%nat)). vm_compute. reflexivity.
  - rewrite Hsend. exact Hback.
Defined.

(** ** Invariants of the states the calls lead to *)

Section handle_preserves.
Import VSCodeMessageProcessor.
Variable urllib_unquote : string → string.
Variable int : string → option Z.
Variable I : VSCodeMessageProcessor.t → Prop.
Hypothesis I_pydevd : ∀ x st, I st → I (upd_pydevd x st).
Hypothesis I_sent : ∀ x st, I st → I (upd_sent x st).
Hypothesis I_stack_traces : ∀ x st, I st → I (upd_stack_traces x st).
Hypothesis I_frame_map : ∀ x st, I st → I (upd_frame_map x st).
Hypothesis I_var_map : ∀ x st, I st → I (upd_var_map x st).
Hypothesis I_to_vscode : ∀ p g, preserves I (in_thread_map (IDMap.to_vscode p g)).
Hypothesis I_to_pydevd : ∀ v, preserves I (in_thread_map (IDMap.to_pydevd v)).
Hypothesis I_setBreakpoints :
  ∀ request path lines, preserves I (on_setBreakpoints request path lines).

Lemma I_zoom {T A} (proj : VSCodeMessageProcessor.t → T) upd (c : M T A) :
  (∀ x st, I st → I (upd x st)) → preserves I (zoom proj upd c).
Proof. intros Hupd st Hst. unfold zoom. destruct (c (proj st)). by apply Hupd. Qed.

Lemma I_response request b : preserves I (send_response request b).
Proof. intros st Hst. by apply I_sent. Qed.

Lemma I_event name fields : preserves I (send_event name fields).
Proof. intros st Hst. by apply I_sent. Qed.

Lemma I_notify cmd args : preserves I (pydevd_notify cmd args).
Proof. by apply I_zoom. Qed.

Lemma I_request cmd args : preserves I (pydevd_request cmd args).
Proof. apply preserves_bind; [apply preserves_get|]. intros self. by apply I_zoom. Qed.

Lemma I_py_int s : preserves I (py_int int s).
Proof. unfold py_int. destruct (int s); [apply preserves_ret|apply preserves_raise]. Qed.

Lemma I_step cmd request threadId :
  preserves I
    (tid <- in_thread_map (IDMap.to_pydevd threadId) ;;
     pydevd_notify cmd tid ;;; send_response request no_body).
Proof.
  apply preserves_bind; [apply I_to_pydevd|]. intros tid.
  apply preserves_bind; [apply I_notify|]. intros _. apply I_response.
Qed.

Lemma I_on_threads_for xthreads threads :
  preserves I (on_threads_for urllib_unquote xthreads threads).
Proof.
  revert threads. induction xthreads as [|xt xts IH]; intros threads.
  - apply preserves_ret.
  - cbn [on_threads_for]. apply preserves_bind; [apply I_to_vscode|].
    intros tid. apply IH.
Qed.

Lemma I_on_stackTrace_for tid xframes startFrame levels stackFrames :
  preserves I
    (on_stackTrace_for urllib_unquote int tid xframes startFrame levels stackFrames).
Proof.
  revert startFrame levels stackFrames.
  induction xframes as [|xf xfs IH]; intros startFrame levels stackFrames.
  - apply preserves_ret.
  - cbn [on_stackTrace_for]. destruct (0 <? startFrame)%Z; [apply IH|].
    destruct (levels <=? 0)%Z; [apply preserves_ret|].
    apply preserves_bind; [apply I_py_int|]. intros pyd_fid.
    apply preserves_bind; [by apply I_zoom|].
    intros fid. apply preserves_bind; [apply I_py_int|]. intros line. apply IH.
Qed.

Lemma I_on_variables_for pyd_var xvars vars :
  preserves I (on_variables_for urllib_unquote pyd_var xvars vars).
Proof.
  revert vars. induction xvars as [|xv xvs IH]; intros vars.
  - apply preserves_ret.
  - cbn [on_variables_for]. destruct (py_bool (xvar_isContainer xv)); [|apply IH].
    apply preserves_bind; [by apply I_zoom|intros ref; apply IH].
Qed.

Lemma I_on_pydevd_thread_run seq args : preserves I (on_pydevd_thread_run seq args).
Proof.
  unfold on_pydevd_thread_run.
  destruct (split_tab args) as [|pyd_tid [|reason [|]]]; try apply preserves_raise.
  apply preserves_bind; [apply I_to_vscode|]. intros vsc_tid.
  apply preserves_bind; [apply preserves_get|]. intros self.
  apply preserves_bind.
  { destruct (stack_traces self !! pyd_tid); [|apply preserves_raise].
    apply preserves_modify. intros st Hst. by apply I_stack_traces. }
  intros _. apply preserves_bind; [apply preserves_get|]. intros self1.
  apply preserves_bind.
  { apply preserves_for_. intros f.
    destruct (decide (f.1.1 = pyd_tid)); [by apply I_zoom|apply preserves_ret]. }
  intros _. apply preserves_bind; [apply preserves_get|]. intros self2.
  apply preserves_bind; [|intros _; apply I_event].
  apply preserves_for_. intros v. destruct (v.1) as [|a ?]; [apply preserves_raise|].
  destruct (decide (a = AStr pyd_tid)); [by apply I_zoom|apply preserves_ret].
Qed.

(** An invariant that the updates of the socket, of the messages sent, of
    the cache of frames and of the frame and variable maps keep, and that
    [to_vscode] and [to_pydevd] on the thread map and the breakpoints handler
    keep, is kept by every call. *)
Lemma handle_preserves c st : I st → I (handle urllib_unquote int c st).
Proof.
  intros Hok. destruct c; cbn [handle].
  - exact (I_request CMD_LIST_THREADS "" st Hok).
  - revert st Hok. apply preserves_bind; [apply I_on_threads_for|].
    intros threads. apply I_response.
  - revert st Hok. apply preserves_bind; [apply I_to_pydevd|].
    intros tid. apply preserves_bind; [apply preserves_get|]. intros self.
    destruct (stack_traces self !! tid); [|apply preserves_raise].
    apply preserves_bind; [apply I_on_stackTrace_for|].
    intros frames. apply I_response.
  - revert st Hok. apply preserves_bind; [by apply I_zoom|].
    intros pyd. apply preserves_bind; [by apply I_zoom|].
    intros vsc_var. apply I_response.
  - revert st Hok. apply preserves_bind; [by apply I_zoom|].
    intros pyd_var. apply preserves_bind; [apply I_request|].
    intros fut. apply preserves_ret.
  - revert st Hok. apply preserves_bind; [apply I_on_variables_for|].
    intros vars. apply I_response.
  - revert st Hok. apply preserves_bind; [|intros _; apply I_response].
    destruct (threadId =? 0)%Z.
    + apply preserves_bind; [apply preserves_get|]. intros self.
      apply preserves_for_. intros tid. apply I_notify.
    + apply preserves_bind; [apply I_to_pydevd|]. intros tid. apply I_notify.
  - by apply I_step.
  - by apply I_step.
  - by apply I_step.
  - by apply I_step.
  - by apply I_setBreakpoints.
  - revert st Hok. apply preserves_bind; [apply I_to_vscode|].
    intros tid. apply I_event.
  - revert st Hok. apply preserves_bind.
    { apply preserves_except_KeyError; [|apply preserves_ret].
      apply preserves_bind; [apply I_to_vscode|]. intros tid. apply preserves_ret. }
    intros [tid|]; [apply I_event|apply preserves_ret].
  - revert st Hok. apply preserves_bind; [apply I_py_int|]. intros reason.
    apply preserves_bind.
    { destruct (xsuspended_frame _); [apply preserves_raise|].
      apply preserves_modify. intros s Hs. by apply I_stack_traces. }
    intros _. apply preserves_bind; [apply I_to_vscode|].
    intros tid. apply I_event.
  - by apply I_on_pydevd_thread_run.
Qed.

Lemma reachable_preserves st :
  (∀ l, I (init l)) → reachable urllib_unquote int st → I st.
Proof.
  intros Hinit. induction 1 as [l|c st Hst IH]; [apply Hinit|by apply handle_preserves].
Qed.

End handle_preserves.

Section thread_ids.
Import VSCodeMessageProcessor.
Variable urllib_unquote : string → string.
Variable int : string → option Z.
Implicit Types (st : VSCodeMessageProcessor.t).

(** The breakpoints handler keeps what does not depend on the socket, the
    breakpoint map and the messages sent. *)
Lemma on_setBreakpoints_preserves_other (I : VSCodeMessageProcessor.t → Prop)
    request path lines :
  (∀ x st, I st → I (upd_pydevd x st)) →
  (∀ x st, I st → I (upd_sent x st)) →
  (∀ x st, I st → I (upd_bp_map x st)) →
  preserves I (on_setBreakpoints request path lines).
Proof.
  intros Hp Hs Hb.
  assert (∀ cmd args, preserves I (pydevd_notify cmd args)) as Hnotify.
  { intros cmd args st Hst. unfold pydevd_notify, in_pydevd, zoom.
    destruct (PydevdSocket.pydevd_notify cmd args (pydevd st)). by apply Hp. }
  assert (∀ A (c : M _ A), preserves I (in_bp_map c)) as Hbp.
  { intros A c st Hst. unfold in_bp_map, zoom. destruct (c (bp_map st)). by apply Hb. }
  apply preserves_bind; [apply preserves_get|]. intros self.
  apply preserves_bind.
  { apply preserves_for_. intros b.
    apply preserves_bind; [apply Hnotify|]. intros _. apply Hbp. }
  intros _. apply preserves_bind.
  - generalize (@nil Breakpoint). induction lines as [|line ls IH]; intros bps.
    + apply preserves_ret.
    + cbn [on_setBreakpoints_for].
      apply preserves_bind; [apply Hbp|]. intros vsc_bpid.
      apply preserves_bind; [apply Hnotify|]. intros _. apply IH.
  - intros bps st Hst. by apply Hs.
Qed.

Lemma ids_from_one_to_vscode {K : Type} `{Countable K} (p : K) g (m : IDMap.t K) :
  ids_from_one m → ids_from_one (IDMap.to_vscode p g m).2.
Proof.
  intros [Hnext Hids]. unfold IDMap.to_vscode.
  destruct (IDMap._pydevd_to_vscode m !! p); [done|].
  destruct g; [|done]. rewrite add_eq. unfold ids_from_one. cbn. split; [lia|].
  intros v q. rewrite lookup_insert_Some. intros [[<- _]|[_ Hv]]; [done|by eapply Hids].
Qed.

(** In every state that the calls lead to, the VSCode ids of the threads
    start at 1. *)
Lemma reachable_thread_ids st :
  reachable urllib_unquote int st → ids_from_one (thread_map st).
Proof.
  refine (reachable_preserves urllib_unquote int
            (λ st, ids_from_one (thread_map st)) _ _ _ _ _ _ _ _ st _).
  - done.
  - done.
  - done.
  - done.
  - done.
  - intros p g st0 Hst. unfold in_thread_map, zoom.
    pose proof (ids_from_one_to_vscode p g _ Hst) as Hst'.
    by destruct (IDMap.to_vscode p g (thread_map st0)).
  - by intros v st0 Hst.
  - intros request path lines. by apply on_setBreakpoints_preserves_other.
  - intros l. split; [done|]. intros v p. cbn. by rewrite lookup_empty.
Qed.

Lemma step_command_eq cmd (request threadId : Z) st :
  (tid <- in_thread_map (IDMap.to_pydevd threadId) ;;
   pydevd_notify cmd tid ;;; send_response request no_body) st =
  match IDMap._vscode_to_pydevd (thread_map st) !! threadId with
  | Some pyd_tid => (Ok tt, stepped cmd request pyd_tid st)
  | None => (Raise KeyError, st)
  end.
Proof.
  unfold bind at 1. unfold in_thread_map, zoom, IDMap.to_pydevd, IDMap.getitem.
  rewrite upd_thread_map_same.
  by destruct (IDMap._vscode_to_pydevd (thread_map st) !! threadId).
Qed.

(** The continue, next, stepIn and stepOut handlers: for a thread id that is
    mapped, each sends the one notification of its own command for the mapped
    thread and then its response, and changes nothing else; for a thread id
    that is not mapped, each raises [KeyError] before it has sent anything.
    Thread id 0, which the pause handler takes for all threads, is such an id
    in every state that the calls lead to: the four handlers do not
    broadcast. *)
Theorem step_requests_notify_or_raise (request threadId : Z) st :
  match IDMap._vscode_to_pydevd (thread_map st) !! threadId with
  | Some pyd_tid =>
      on_continue request threadId st = (Ok tt, stepped CMD_THREAD_RUN request pyd_tid st)
      ∧ on_next request threadId st = (Ok tt, stepped CMD_STEP_OVER request pyd_tid st)
      ∧ on_stepIn request threadId st = (Ok tt, stepped CMD_STEP_INTO request pyd_tid st)
      ∧ on_stepOut request threadId st
        = (Ok tt, stepped CMD_STEP_RETURN request pyd_tid st)
  | None =>
      on_continue request threadId st = (Raise KeyError, st)
      ∧ on_next request threadId st = (Raise KeyError, st)
      ∧ on_stepIn request threadId st = (Raise KeyError, st)
      ∧ on_stepOut request threadId st = (Raise KeyError, st)
  end
  ∧ (reachable urllib_unquote int st →
     on_continue request 0 st = (Raise KeyError, st)
     ∧ on_next request 0 st = (Raise KeyError, st)
     ∧ on_stepIn request 0 st = (Raise KeyError, st)
     ∧ on_stepOut request 0 st = (Raise KeyError, st)).
Proof.
  split.
  - pose proof (step_command_eq CMD_THREAD_RUN request threadId st) as H1.
    pose proof (step_command_eq CMD_STEP_OVER request threadId st) as H2.
    pose proof (step_command_eq CMD_STEP_INTO request threadId st) as H3.
    pose proof (step_command_eq CMD_STEP_RETURN request threadId st) as H4.
    by destruct (IDMap._vscode_to_pydevd (thread_map st) !! threadId).
  - intros Hreach. apply reachable_thread_ids in Hreach as [_ Hids].
    assert (IDMap._vscode_to_pydevd (thread_map st) !! 0 = None) as Hnone.
    { destruct (IDMap._vscode_to_pydevd (thread_map st) !! 0) as [p|] eqn:E; [|done].
      apply Hids in E. lia. }
    pose proof (step_command_eq CMD_THREAD_RUN request 0 st) as H1.
    pose proof (step_command_eq CMD_STEP_OVER request 0 st) as H2.
    pose proof (step_command_eq CMD_STEP_INTO request 0 st) as H3.
    pose proof (step_command_eq CMD_STEP_RETURN request 0 st) as H4.
    rewrite Hnone in H1, H2, H3, H4. done.
Qed.

End thread_ids.

(** ** More of the handlers: scopes, thread events, repeated stack traces *)

Section handlers_more.
Import VSCodeMessageProcessor.
Variable urllib_unquote : string → string.
Variable int : string → option Z.
Implicit Types (st : VSCodeMessageProcessor.t).

Lemma presents_functional tid m xf sf sf' :
  presents urllib_unquote int tid m xf sf →
  presents urllib_unquote int tid m xf sf' → sf = sf'.
Proof.
  intros (fid & line & Hid & Hline & Hmap & ->) (fid' & line' & Hid' & Hline' & Hmap' & ->).
  cbn in *. congruence.
Qed.

(** While a thread's frames are cached, a repeated stackTrace request is
    answered with the same frames under the same frame ids, and the same
    [totalFrames], which is [len] of the cached value: the ids of frames are
    stable between requests. The frames are those of the page that the
    handler serves. *)
Theorem stackTrace_ids_stable (request request' threadId startFrame levels : Z)
    tid xframes st :
  IDMap._vscode_to_pydevd (thread_map st) !! threadId = Some tid →
  stack_traces st !! tid = Some xframes →
  0 ≤ startFrame →
  Forall (numbered int) (served xframes startFrame levels) →
  ∃ st1 st2 stackFrames,
    on_stackTrace urllib_unquote int request threadId startFrame levels st = (Ok tt, st1)
    ∧ sent st1 = sent st ++
        [response request (stackTrace_body stackFrames (len xframes))]
    ∧ on_stackTrace urllib_unquote int request' threadId startFrame levels st1
      = (Ok tt, st2)
    ∧ sent st2 = sent st1 ++
        [response request' (stackTrace_body stackFrames (len xframes))]
    ∧ Forall2 (presents urllib_unquote int tid (frame_map st2))
              (served xframes startFrame levels) stackFrames.
Proof.
  intros Htid Hcache Hstart Hnum.
  destruct (on_stackTrace_run urllib_unquote int request threadId startFrame levels tid
              xframes st Htid Hcache Hstart Hnum)
    as (m1 & frames1 & Hrun1 & Hmono1 & Hnew1).
  set (st1 := upd_sent _ (upd_frame_map m1 st)) in Hrun1.
  destruct (on_stackTrace_run urllib_unquote int request' threadId startFrame levels tid
              xframes st1 Htid Hcache Hstart Hnum)
    as (m2 & frames2 & Hrun2 & Hmono2 & Hnew2).
  assert (frames2 = frames1) as ->.
  { assert (Forall2 (presents urllib_unquote int tid m2)
              (served xframes startFrame levels) frames1) as Hnew1'.
    { eapply Forall2_impl; [exact Hnew1|]. intros xf sf. by apply presents_mono. }
    clear -Hnew1' Hnew2. revert frames2 Hnew2.
    induction Hnew1' as [|xf sf l k Hsf _ IH]; intros frames2 Hnew2.
    - by apply Forall2_nil_inv_l in Hnew2.
    - apply Forall2_cons_inv_l in Hnew2 as (sf' & k' & Hsf' & Hk' & ->).
      f_equal; [by eapply presents_functional|by apply IH]. }
  eexists _, _, frames1. split; [exact Hrun1|]. split; [done|].
  split; [exact Hrun2|]. split; [done|]. exact Hnew2.
Qed.

(** The scopes handler answers with one scope, [Locals], whose reference is
    the id of the tuple (thread, frame, 'FRAME') in the variable map; a
    variables request for that reference asks pydevd for the frame, with the
    get-frame command and the tuple's components separated by tabs. For a
    frame id that is not mapped the handler raises [KeyError] and sends
    nothing. *)
Theorem on_scopes_then_variables (request frameId : Z) st :
  (∀ tid fid,
     IDMap._vscode_to_pydevd (frame_map st) !! frameId = Some (tid, fid) →
     consistent (var_map st) →
     ∃ ref st1,
       on_scopes request frameId st = (Ok tt, st1)
       ∧ sent st1 = sent st ++
           [response request
              (scopes_body [{| scope_name := "Locals"; scope_expensive := false;
                               scope_variablesReference := ref |}])]
       ∧ IDMap._vscode_to_pydevd (var_map st1) !! ref
         = Some [AStr tid; AInt fid; AStr "FRAME"]
       ∧ ∀ request', ∃ fut st2,
           on_variables request' ref st1
           = (Ok ([AStr tid; AInt fid; AStr "FRAME"], fut), st2)
           ∧ PydevdSocket.pipe (pydevd st2) =
             PydevdSocket.pipe (pydevd st1) ++
             [PydevdSocket.packet CMD_GET_FRAME (PydevdSocket.seq (pydevd st1))
                (tid +:+ tab +:+ pretty fid +:+ tab +:+ "FRAME")])
  ∧ (IDMap._vscode_to_pydevd (frame_map st) !! frameId = None →
     on_scopes request frameId st = (Raise KeyError, st)).
Proof.
  split.
  - intros tid fid Hframe Hcons.
    destruct (to_vscode_true [AStr tid; AInt fid; AStr "FRAME"] (var_map st))
      as (ref & m1 & Hto & Hp & _).
    assert (IDMap._vscode_to_pydevd m1 !! ref = Some [AStr tid; AInt fid; AStr "FRAME"])
      as Hv.
    { pose proof (consistent_to_vscode [AStr tid; AInt fid; AStr "FRAME"] true _ Hcons)
        as [Hinv _].
      rewrite Hto in Hinv. by apply Hinv. }
    eexists ref, _. split.
    { unfold on_scopes.
      erewrite bind_Ok;
        [|unfold in_frame_map, zoom, IDMap.to_pydevd, IDMap.getitem;
          rewrite Hframe, upd_frame_map_same; reflexivity].
      erewrite bind_Ok; [|unfold in_var_map, zoom; cbn [fst snd]; rewrite Hto; reflexivity].
      reflexivity. }
    split; [done|]. split; [done|].
    intros request'. eexists _, _. split.
    { unfold on_variables.
      erewrite bind_Ok;
        [|unfold in_var_map, zoom, IDMap.to_pydevd, IDMap.getitem;
          cbn [var_map upd_var_map upd_sent]; rewrite Hv; reflexivity].
      erewrite bind_Ok; [reflexivity|].
      unfold pydevd_request. erewrite bind_Ok by reflexivity.
      unfold in_pydevd, zoom. rewrite pydevd_request_eq. reflexivity. }
    done.
  - intros Hframe. unfold on_scopes.
    erewrite bind_Raise; [reflexivity|].
    unfold in_frame_map, zoom, IDMap.to_pydevd, IDMap.getitem.
    by rewrite Hframe, upd_frame_map_same.
Qed.

Lemma on_pydevd_thread_kill_mapped seq args tid st :
  IDMap._pydevd_to_vscode (thread_map st) !! args = Some tid →
  on_pydevd_thread_kill seq args st =
  (Ok tt,
   upd_sent (sent st ++ [event "thread" [("reason", AStr "exited");
                                         ("threadId", AInt tid)]]) st).
Proof.
  intros Hmap. unfold on_pydevd_thread_kill.
  assert (in_thread_map (IDMap.to_vscode args false) st = (Ok tid, st)) as Hto.
  { unfold in_thread_map, zoom.
    by rewrite (to_vscode_mapped _ _ _ _ Hmap), upd_thread_map_same. }
  rewrite (bind_Ok _ _ st (Some tid) st); [reflexivity|].
  unfold except_KeyError. by rewrite (bind_Ok _ _ _ _ _ Hto).
Qed.

Lemma on_pydevd_thread_kill_unmapped seq args st :
  IDMap._pydevd_to_vscode (thread_map st) !! args = None →
  on_pydevd_thread_kill seq args st = (Ok tt, st).
Proof.
  intros Hmap. unfold on_pydevd_thread_kill.
  assert (in_thread_map (IDMap.to_vscode args false) st = (Raise KeyError, st))
    as Hto.
  { unfold in_thread_map, zoom.
    by rewrite (to_vscode_KeyError _ _ Hmap), upd_thread_map_same. }
  rewrite (bind_Ok _ _ st None st); [reflexivity|].
  unfold except_KeyError. by rewrite (bind_Raise _ _ _ _ _ Hto).
Qed.

(** A thread-create event gives the thread a VSCode id and sends a started
    event with it; a thread-kill event for that thread then sends an exited
    event with the same id. The kill handler does not take the thread out of
    the thread map: a pause request with thread id 0 after it still sends a
    suspend notification for the dead thread. A thread-kill event for a thread
    that is not mapped is ignored: nothing is sent, no id is given out. *)
Theorem thread_create_then_kill (seq seq' : Z) (xt : xthread) st :
  (∃ tid st1,
     on_pydevd_thread_create seq xt st = (Ok tt, st1)
     ∧ sent st1 = sent st ++
         [event "thread" [("reason", AStr "started"); ("threadId", AInt tid)]]
     ∧ on_pydevd_thread_kill seq' (xthread_id xt) st1 =
       (Ok tt,
        upd_sent (sent st1 ++ [event "thread" [("reason", AStr "exited");
                                               ("threadId", AInt tid)]]) st1)
     ∧ ∀ request, ∃ st3 written q,
         on_pause request 0
           (on_pydevd_thread_kill seq' (xthread_id xt) st1).2 = (Ok tt, st3)
         ∧ PydevdSocket.pipe (pydevd st3) = PydevdSocket.pipe (pydevd st1) ++ written
         ∧ PydevdSocket.packet CMD_THREAD_SUSPEND q (xthread_id xt) ∈ written)
  ∧ (∀ args, IDMap._pydevd_to_vscode (thread_map st) !! args = None →
             on_pydevd_thread_kill seq' args st = (Ok tt, st)).
Proof.
  split.
  - destruct (to_vscode_true (xthread_id xt) (thread_map st))
      as (tid & m1 & Hto & Hp & _).
    eexists tid, _. split.
    { unfold on_pydevd_thread_create.
      erewrite bind_Ok; [|unfold in_thread_map, zoom; rewrite Hto; reflexivity].
      reflexivity. }
    split; [done|].
    set (st1 := upd_sent _ (upd_thread_map m1 st)).
    assert (IDMap._pydevd_to_vscode (thread_map st1) !! xthread_id xt = Some tid)
      as Hp1 by done.
    rewrite (on_pydevd_thread_kill_mapped seq' _ tid st1 Hp1).
    split; [done|]. intros request. cbn [snd].
    set (st2 := upd_sent _ st1).
    destruct (on_pause_broadcast request st2) as (st3 & Hpause & Hpipe & _).
    assert (xthread_id xt ∈ IDMap.pydevd_ids (thread_map st2)) as Hin.
    { apply elem_of_pydevd_ids. by exists tid. }
    destruct (elem_of_zip_with_seqZ
                (λ q tid, PydevdSocket.packet CMD_THREAD_SUSPEND q tid)
                (PydevdSocket.seq (pydevd st2)) _ _ Hin) as [q Hq].
    eauto 10.
  - intros args Hmap. exact (on_pydevd_thread_kill_unmapped seq' args st Hmap).
Qed.

End handlers_more.

Lemma stackTrace_ids_stable_witness :
  let f1 := {| xframe_id := "11"; xframe_name := Some "main";
               xframe_file := Some "a.py"; xframe_line := "3";
               xframe_children := 0 |} in
  let f2 := {| xframe_id := "12"; xframe_name := Some "run";
               xframe_file := Some "a.py"; xframe_line := "40";
               xframe_children := 0 |} in
  let st := VSCodeMessageProcessor.upd_stack_traces {[ "t" := [f1; f2] ]}
              (VSCodeMessageProcessor.upd_thread_map
                 (idmap_run [op_to_vscode "t" true] IDMap.init)
                 (VSCodeMessageProcessor.init 0%nat)) in
  ∃ st1 st2 stackFrames,
    VSCodeMessageProcessor.on_stackTrace id decimal 5 1 0 0 st = (Ok tt, st1)
    ∧ VSCodeMessageProcessor.sent st1 = [response 5 (stackTrace_body stackFrames 2)]
    ∧ VSCodeMessageProcessor.on_stackTrace id decimal 6 1 0 0 st1 = (Ok tt, st2)
    ∧ VSCodeMessageProcessor.sent st2 =
      VSCodeMessageProcessor.sent st1 ++ [response 6 (stackTrace_body stackFrames 2)]
    ∧ Forall2 (presents id decimal "t" (VSCodeMessageProcessor.frame_map st2))
              [f1; f2] stackFrames.
Proof.
  intros f1 f2 st.
  refine (stackTrace_ids_stable id decimal 5 6 1 0 0 "t" [f1; f2] st
            eq_refl eq_refl _ _).
  - lia.
  - repeat constructor; eexists; reflexivity.
Defined.

(** ** on_pydevd_thread_suspend *)

Section thread_suspend.
Import VSCodeMessageProcessor.
Variable urllib_unquote : string → string.
Variable int : string → option Z.
Implicit Types (st : VSCodeMessageProcessor.t).

Lemma on_pydevd_thread_suspend_run (seq r : Z) (xs : xsuspended) st :
  int (xsuspended_stop_reason xs) = Some r →
  xsuspended_frame xs ≠ [] →
  ∃ tid m1,
    on_pydevd_thread_suspend int seq xs st =
    (Ok tt,
     upd_sent (sent st ++ [event "stopped" [("reason", AStr (stop_reason r));
                                            ("threadId", AInt tid)]])
       (upd_thread_map m1
          (upd_stack_traces (<[xsuspended_id xs := xsuspended_frame xs]>
                               (stack_traces st)) st)))
    ∧ IDMap.to_vscode (xsuspended_id xs) true (thread_map st) = (Ok tid, m1)
    ∧ IDMap._pydevd_to_vscode m1 !! xsuspended_id xs = Some tid.
Proof.
  intros Hint Hframe.
  destruct (to_vscode_true (xsuspended_id xs) (thread_map st))
    as (tid & m1 & Hto & Hp & _).
  exists tid, m1. split; [|done].
  unfold on_pydevd_thread_suspend.
  erewrite bind_Ok; [|unfold py_int; rewrite Hint; reflexivity].
  destruct (xsuspended_frame xs) as [|xf xfs] eqn:E; [done|].
  erewrite bind_Ok by reflexivity.
  erewrite bind_Ok;
    [|unfold in_thread_map, zoom; cbn [thread_map upd_stack_traces];
      rewrite Hto; reflexivity].
  reflexivity.
Qed.

(** A thread-suspend event whose stop reason is not a number raises
    [ValueError], and one that carries no frame raises [AttributeError]; both
    happen before anything is stored, so the cached stack traces, the maps and
    the messages sent are as before. Otherwise the event's frames replace the
    cached stack trace of the thread, the thread has an id in the thread map,
    and a stopped event with that id and the classified reason is sent; the
    frame and variable maps are not touched. *)
Theorem on_pydevd_thread_suspend_outcomes (seq : Z) (xs : xsuspended) st :
  match int (xsuspended_stop_reason xs), xsuspended_frame xs with
  | None, _ => on_pydevd_thread_suspend int seq xs st = (Raise ValueError, st)
  | Some _, [] => on_pydevd_thread_suspend int seq xs st = (Raise AttributeError, st)
  | Some r, frames =>
      ∃ tid st',
        on_pydevd_thread_suspend int seq xs st = (Ok tt, st')
        ∧ stack_traces st' = <[xsuspended_id xs := frames]> (stack_traces st)
        ∧ IDMap._pydevd_to_vscode (thread_map st') !! xsuspended_id xs = Some tid
        ∧ sent st' = sent st ++
            [event "stopped" [("reason", AStr (stop_reason r));
                              ("threadId", AInt tid)]]
        ∧ frame_map st' = frame_map st ∧ var_map st' = var_map st
        ∧ pydevd st' = pydevd st
  end.
Proof.
  destruct (int (xsuspended_stop_reason xs)) as [r|] eqn:Hint.
  - destruct (xsuspended_frame xs) as [|xf xfs] eqn:E.
    + unfold on_pydevd_thread_suspend.
      erewrite bind_Ok; [|unfold py_int; rewrite Hint; reflexivity].
      by rewrite E.
    + destruct (on_pydevd_thread_suspend_run seq r xs st Hint) as (tid & m1 & Hrun & _ & Hp).
      { by rewrite E. }
      rewrite E in Hrun. by eexists tid, _.
  - unfold on_pydevd_thread_suspend.
    erewrite bind_Raise; [reflexivity|]. unfold py_int. by rewrite Hint.
Qed.

(** After a thread-suspend event with two frames or more, in a state that
    calls have led to, a stackTrace request for the thread id of the stopped
    event, from frame 0 with no limit, is answered with all the frames of the
    event, in their order, and their number as [totalFrames]. (With a single
    frame the cached value is the element itself, and [totalFrames] is the
    number of its children.) *)
Theorem suspend_then_stackTrace (seq request r : Z) (xs : xsuspended) st :
  reachable urllib_unquote int st →
  int (xsuspended_stop_reason xs) = Some r →
  (2 ≤ length (xsuspended_frame xs))%nat →
  Forall (numbered int) (xsuspended_frame xs) →
  ∃ tid st1 st2 stackFrames,
    on_pydevd_thread_suspend int seq xs st = (Ok tt, st1)
    ∧ sent st1 = sent st ++
        [event "stopped" [("reason", AStr (stop_reason r)); ("threadId", AInt tid)]]
    ∧ on_stackTrace urllib_unquote int request tid 0 0 st1 = (Ok tt, st2)
    ∧ sent st2 = sent st1 ++
        [response request
           (stackTrace_body stackFrames (Z.of_nat (length (xsuspended_frame xs))))]
    ∧ Forall2 (presents urllib_unquote int (xsuspended_id xs) (frame_map st2))
              (xsuspended_frame xs) stackFrames.
Proof.
  intros Hreach Hint Hlen Hnum.
  assert (xsuspended_frame xs ≠ []) as Hframe.
  { intros E. rewrite E in Hlen. cbn in Hlen. lia. }
  destruct (on_pydevd_thread_suspend_run seq r xs st Hint Hframe)
    as (tid & m1 & Hrun & Hto & Hp).
  set (st1 := upd_sent _ (upd_thread_map m1 _)) in Hrun.
  assert (IDMap._vscode_to_pydevd (thread_map st1) !! tid = Some (xsuspended_id xs))
    as Hv.
  { destruct (reachable_maps_ok urllib_unquote int st Hreach) as (Hcons & _).
    pose proof (consistent_to_vscode (xsuspended_id xs) true _ Hcons) as [Hinv _].
    rewrite Hto in Hinv. by apply Hinv. }
  assert (stack_traces st1 !! xsuspended_id xs = Some (xsuspended_frame xs)) as Hcache.
  { cbn. by rewrite lookup_insert_eq. }
  destruct (served_page (xsuspended_frame xs) 0 0) as [Hl Hpage]; [lia|].
  assert (served (xsuspended_frame xs) 0 0 = xsuspended_frame xs) as Hall
    by (by rewrite Hpage).
  destruct (on_stackTrace_run urllib_unquote int request tid 0 0 (xsuspended_id xs)
              (xsuspended_frame xs) st1 Hv Hcache) as (m' & frames & Hst & _ & Hnew).
  { lia. }
  { by rewrite Hall. }
  rewrite Hall in Hnew. rewrite Hl in Hst.
  eexists tid, st1, _, frames. split; [exact Hrun|]. split; [done|].
  split; [exact Hst|]. split; [done|]. exact Hnew.
Qed.

End thread_suspend.

Lemma suspend_then_stackTrace_witness :
  let f1 := {| xframe_id := "11"; xframe_name := Some "main";
               xframe_file := Some "a.py"; xframe_line := "3";
               xframe_children := 0 |} in
  let f2 := {| xframe_id := "12"; xframe_name := Some "run";
               xframe_file := Some "a.py"; xframe_line := "40";
               xframe_children := 0 |} in
  let xs := {| xsuspended_id := "t"; xsuspended_stop_reason := "111";
               xsuspended_frame := [f1; f2] |} in
  let st := VSCodeMessageProcessor.init 0%nat in
  ∃ tid st1 st2 stackFrames,
    VSCodeMessageProcessor.on_pydevd_thread_suspend decimal 3 xs st = (Ok tt, st1)
    ∧ VSCodeMessageProcessor.sent st1 =
        [event "stopped" [("reason", AStr "breakpoint"); ("threadId", AInt tid)]]
    ∧ VSCodeMessageProcessor.on_stackTrace id decimal 7 tid 0 0 st1 = (Ok tt, st2)
    ∧ VSCodeMessageProcessor.sent st2 =
        VSCodeMessageProcessor.sent st1 ++
        [response 7 (stackTrace_body stackFrames 2)]
    ∧ Forall2 (presents id decimal "t" (VSCodeMessageProcessor.frame_map st2))
              [f1; f2] stackFrames.
Proof.
  intros f1 f2 xs st.
  refine (suspend_then_stackTrace id decimal 3 7 111 xs st
            (reachable_init id decimal 0%nat) _ _ _).
  - vm_compute; reflexivity.
  - cbn. lia.
  - repeat constructor; eexists; reflexivity.
Defined.

(** ** on_setBreakpoints replaces the breakpoints *)

Section breakpoints.
Import VSCodeMessageProcessor.
Implicit Types (st : VSCodeMessageProcessor.t) (m : IDMap.t (string * Z)).

Lemma upd_bp_map_same st : upd_bp_map (bp_map st) st = st.
Proof. by destruct st. Qed.

Lemma tracks_inverse path first m : tracks path first m → inverse m.
Proof. intros (_ & Hp & Hv) v p. by rewrite Hp, Hv. Qed.

Lemma tracks_init path : tracks path 1 IDMap.init.
Proof.
  split; [done|].
  split; intros ??; cbn; rewrite lookup_empty; (split; [done|lia]).
Qed.

Lemma tracks_add path first m :
  tracks path first m →
  tracks path first
    (IDMap.mk (<[IDMap._next_id m := (path, IDMap._next_id m)]> (IDMap._vscode_to_pydevd m))
              (<[(path, IDMap._next_id m) := IDMap._next_id m]> (IDMap._pydevd_to_vscode m))
              (IDMap._next_id m + 1)).
Proof.
  intros (Hle & Hp & Hv). split; [cbn; lia|].
  split; cbn.
  - intros p v. rewrite lookup_insert_Some, Hp. split.
    + intros [[<- <-]|[Hne [-> Hr]]]; (split; [done|lia]).
    + intros [-> Hr]. destruct (decide (v = IDMap._next_id m)) as [->|Hne].
      * by left.
      * right. split; [congruence|]. split; [done|lia].
  - intros v p. rewrite lookup_insert_Some, Hv. split.
    + intros [[<- <-]|[Hne [-> Hr]]]; (split; [done|lia]).
    + intros [-> Hr]. destruct (decide (v = IDMap._next_id m)) as [->|Hne].
      * by left.
      * right. split; [congruence|]. split; [done|lia].
Qed.

Lemma notified_notified a b w1 w2 s :
  notified b w2 (notified a w1 s) = notified (a + b) (w1 ++ w2) s.
Proof. unfold notified. cbn. by rewrite Z.add_assoc, app_assoc. Qed.

(** The first loop: one remove-breakpoint command for every pair, with the
    path of the request, and the pair taken out of the map. *)
Lemma clear_loop (path : string) (l : list ((string * Z) * Z)) st :
  NoDup l.*1 → NoDup l.*2 →
  (∀ b, b ∈ l → IDMap._pydevd_to_vscode (bp_map st) !! b.1 = Some b.2
               ∧ IDMap._vscode_to_pydevd (bp_map st) !! b.2 = Some b.1) →
  ∃ m',
    for_ l (λ b, pydevd_notify CMD_REMOVE_BREAK
                   ("python-line" +:+ tab +:+ path +:+ tab +:+ pretty b.2) ;;;
                 in_bp_map (IDMap.remove (Some b.1) (Some b.2))) st
    = (Ok tt,
       upd_bp_map m'
         (upd_pydevd
            (notified (Z.of_nat (length l))
               (remove_packets path (PydevdSocket.seq (pydevd st)) l) (pydevd st)) st))
    ∧ IDMap._next_id m' = IDMap._next_id (bp_map st)
    ∧ (∀ p, IDMap._pydevd_to_vscode m' !! p =
            if decide (p ∈ l.*1) then None else IDMap._pydevd_to_vscode (bp_map st) !! p)
    ∧ (∀ v, IDMap._vscode_to_pydevd m' !! v =
            if decide (v ∈ l.*2) then None else IDMap._vscode_to_pydevd (bp_map st) !! v).
Proof.
  revert st. induction l as [|[p v] l IH]; intros st Hnd1 Hnd2 Hl.
  - exists (bp_map st). split.
    { cbn. by rewrite notified_0, upd_pydevd_same, upd_bp_map_same. }
    split; [done|].
    split; intros x; (destruct (decide _) as [Hin|]; [by apply elem_of_nil in Hin|done]).
  - destruct (Hl (p, v)) as [Hp Hv]; [by left|]. cbn [fst snd] in Hp, Hv.
    rewrite fmap_cons in Hnd1. rewrite fmap_cons in Hnd2.
    cbn [fst snd] in Hnd1, Hnd2.
    apply NoDup_cons in Hnd1 as [Hp_notin Hnd1].
    apply NoDup_cons in Hnd2 as [Hv_notin Hnd2].
    set (m1 := IDMap.mk (delete v (IDMap._vscode_to_pydevd (bp_map st)))
                        (delete p (IDMap._pydevd_to_vscode (bp_map st)))
                        (IDMap._next_id (bp_map st))).
    set (pkt := PydevdSocket.packet CMD_REMOVE_BREAK (PydevdSocket.seq (pydevd st))
                  (remove_break_args path v)).
    set (st1 := upd_bp_map m1 (upd_pydevd (notified 1 [pkt] (pydevd st)) st)).
    destruct (IH st1) as (m' & Hrun & Hnext & Hp' & Hv'); [done|done| |].
    { intros [p' v'] Hin. cbn [fst snd].
      assert (p ≠ p') as Hne.
      { intros <-. apply Hp_notin. apply list_elem_of_fmap. by exists (p, v'). }
      assert (v ≠ v') as Hne'.
      { intros <-. apply Hv_notin. apply list_elem_of_fmap. by exists (p', v). }
      assert (bp_map st1 = m1) as -> by done.
      unfold m1. cbn. rewrite !lookup_delete_ne by done.
      apply (Hl (p', v')). by right. }
    exists m'. split; [|split; [done|split]].
    + cbn [for_]. rewrite (bind_Ok _ _ st tt st1).
      2:{ cbn [fst snd]. erewrite bind_Ok by apply pydevd_notify_eq'.
          unfold in_bp_map, zoom. cbn [bp_map upd_pydevd].
          rewrite (remove_pair p v _ Hv Hp). reflexivity. }
      rewrite Hrun. f_equal.
      assert (pydevd st1 = notified 1 [pkt] (pydevd st)) as -> by done.
      rewrite notified_notified.
      assert (PydevdSocket.seq (notified 1 [pkt] (pydevd st))
              = PydevdSocket.seq (pydevd st) + 1) as -> by done.
      replace ([pkt] ++ remove_packets path (PydevdSocket.seq (pydevd st) + 1) l)
        with (remove_packets path (PydevdSocket.seq (pydevd st)) ((p, v) :: l)).
      2:{ unfold remove_packets. cbn [length].
          rewrite Nat2Z.inj_succ, (seqZ_cons (PydevdSocket.seq (pydevd st))) by lia.
          replace (Z.pred (Z.succ (Z.of_nat (length l)))) with (Z.of_nat (length l))
            by lia.
          replace (Z.succ (PydevdSocket.seq (pydevd st)))
            with (PydevdSocket.seq (pydevd st) + 1) by lia.
          done. }
      replace (1 + Z.of_nat (length l)) with (Z.of_nat (length ((p, v) :: l)))
        by (cbn [length]; lia).
      by destruct st.
    + intros p0. rewrite Hp'. rewrite fmap_cons. cbn [fst].
      assert (bp_map st1 = m1) as -> by done. unfold m1. cbn.
      destruct (decide (p0 ∈ l.*1)) as [Hin|Hnin].
      * rewrite decide_True; [done|by right].
      * destruct (decide (p0 = p)) as [->|Hne].
        -- rewrite decide_True by left. apply lookup_delete_eq.
        -- rewrite decide_False by (intros [?|?]%elem_of_cons; done).
           by rewrite lookup_delete_ne.
    + intros v0. rewrite Hv'. rewrite fmap_cons. cbn [snd].
      assert (bp_map st1 = m1) as -> by done. unfold m1. cbn.
      destruct (decide (v0 ∈ l.*2)) as [Hin|Hnin].
      * rewrite decide_True; [done|by right].
      * destruct (decide (v0 = v)) as [->|Hne].
        -- rewrite decide_True by left. apply lookup_delete_eq.
        -- rewrite decide_False by (intros [?|?]%elem_of_cons; done).
           by rewrite lookup_delete_ne.
Qed.

(** The second loop: a fresh id and a set-breakpoint command for every
    line. *)
Lemma set_loop (path : string) (lines : list Z) (bps : list Breakpoint) (first : Z) st :
  tracks path first (bp_map st) →
  ∃ m',
    on_setBreakpoints_for path lines bps st =
    (Ok (bps ++ zip_with verified
                  (seqZ (IDMap._next_id (bp_map st)) (Z.of_nat (length lines))) lines),
     upd_bp_map m'
       (upd_pydevd
          (notified (Z.of_nat (length lines))
             (set_packets path (PydevdSocket.seq (pydevd st))
                (IDMap._next_id (bp_map st)) lines) (pydevd st)) st))
    ∧ IDMap._next_id m' = IDMap._next_id (bp_map st) + Z.of_nat (length lines)
    ∧ tracks path first m'.
Proof.
  revert bps st. induction lines as [|line lines IH]; intros bps st Htr.
  - exists (bp_map st). split.
    { cbn. by rewrite app_nil_r, notified_0, upd_pydevd_same, upd_bp_map_same. }
    split; [cbn; lia|done].
  - set (n0 := IDMap._next_id (bp_map st)).
    set (m1 := IDMap.mk (<[n0 := (path, n0)]> (IDMap._vscode_to_pydevd (bp_map st)))
                        (<[(path, n0) := n0]> (IDMap._pydevd_to_vscode (bp_map st)))
                        (n0 + 1)).
    set (pkt := PydevdSocket.packet CMD_SET_BREAK (PydevdSocket.seq (pydevd st))
                  (set_break_args path n0 line)).
    set (st1 := upd_pydevd (notified 1 [pkt] (pydevd st)) (upd_bp_map m1 st)).
    destruct (IH (bps ++ [verified n0 line]) st1) as (m' & Hrun & Hnext & Htr').
    { by apply tracks_add. }
    exists m'. split; [|split].
    + assert (on_setBreakpoints_for path (line :: lines) bps st =
              on_setBreakpoints_for path lines (bps ++ [verified n0 line]) st1) as ->.
      { cbn [on_setBreakpoints_for].
        erewrite bind_Ok; [|unfold in_bp_map, zoom; rewrite add_eq; reflexivity].
        erewrite bind_Ok by apply pydevd_notify_eq'. reflexivity. }
      rewrite Hrun.
      assert (pydevd st1 = notified 1 [pkt] (pydevd st)) as -> by done.
      assert (IDMap._next_id (bp_map st1) = n0 + 1) as -> by done.
      assert (PydevdSocket.seq (notified 1 [pkt] (pydevd st))
              = PydevdSocket.seq (pydevd st) + 1) as -> by done.
      rewrite notified_notified.
      replace ([pkt] ++ set_packets path (PydevdSocket.seq (pydevd st) + 1) (n0 + 1) lines)
        with (set_packets path (PydevdSocket.seq (pydevd st)) n0 (line :: lines)).
      2:{ unfold set_packets. cbn [length].
          rewrite Nat2Z.inj_succ, (seqZ_cons (PydevdSocket.seq (pydevd st))),
            (seqZ_cons n0) by lia.
          replace (Z.pred (Z.succ (Z.of_nat (length lines))))
            with (Z.of_nat (length lines)) by lia.
          replace (Z.succ (PydevdSocket.seq (pydevd st)))
            with (PydevdSocket.seq (pydevd st) + 1) by lia.
          replace (Z.succ n0) with (n0 + 1) by lia.
          done. }
      replace (1 + Z.of_nat (length lines)) with (Z.of_nat (length (line :: lines)))
        by (cbn [length]; lia).
      f_equal. f_equal. rewrite <- app_assoc. f_equal. cbn [length].
      rewrite Nat2Z.inj_succ, (seqZ_cons n0) by lia.
      replace (Z.pred (Z.succ (Z.of_nat (length lines))))
        with (Z.of_nat (length lines)) by lia.
      replace (Z.succ n0) with (n0 + 1) by lia.
      done.
    + rewrite Hnext. assert (IDMap._next_id (bp_map st1) = n0 + 1) as -> by done.
      cbn [length]. lia.
    + done.
Qed.

Lemma pairs_NoDup_snd m : inverse m → NoDup (IDMap.pairs m).*2.
Proof.
  intros Hinv. apply NoDup_fmap_2_strong; [|apply NoDup_map_to_list].
  intros [p v] [p' v'] Hin Hin' Heq. cbn in Heq. subst v'.
  apply elem_of_map_to_list in Hin, Hin'.
  apply Hinv in Hin, Hin'. congruence.
Qed.

Lemma on_setBreakpoints_run (request : Z) (path : string) (lines : list Z) st :
  inverse (bp_map st) →
  let old := IDMap.pairs (bp_map st) in
  let n0 := IDMap._next_id (bp_map st) in
  let q0 := PydevdSocket.seq (pydevd st) in
  ∃ m',
    on_setBreakpoints request path lines st =
    (Ok tt,
     upd_sent (sent st ++
                 [response request
                    (breakpoints_body
                       (zip_with verified (seqZ n0 (Z.of_nat (length lines))) lines))])
       (upd_bp_map m'
          (upd_pydevd
             (notified (Z.of_nat (length old) + Z.of_nat (length lines))
                (remove_packets path q0 old ++
                 set_packets path (q0 + Z.of_nat (length old)) n0 lines)
                (pydevd st)) st)))
    ∧ IDMap._next_id m' = n0 + Z.of_nat (length lines)
    ∧ tracks path n0 m'.
Proof.
  intros Hinv old n0 q0.
  destruct (clear_loop path old st) as (m1 & Hclear & Hnext1 & Hp1 & Hv1).
  { apply NoDup_fst_map_to_list. }
  { by apply pairs_NoDup_snd. }
  { intros [p v] Hin. apply elem_of_map_to_list in Hin. cbn [fst snd].
    split; [done|]. by apply Hinv. }
  set (st1 := upd_bp_map m1 _) in Hclear.
  assert (tracks path n0 (bp_map st1)) as Htr.
  { assert (bp_map st1 = m1) as -> by done.
    split; [unfold n0; lia|].
    split.
    - intros p v. rewrite Hp1. split; [|lia].
      destruct (decide _) as [Hin|Hnin]; [done|].
      intros Hp. exfalso. apply Hnin. apply list_elem_of_fmap.
      exists (p, v). split; [done|]. by apply elem_of_map_to_list.
    - intros v p. rewrite Hv1. split; [|lia].
      destruct (decide _) as [Hin|Hnin]; [done|].
      intros Hv. exfalso. apply Hnin. apply list_elem_of_fmap.
      exists (p, v). split; [done|]. apply elem_of_map_to_list. by apply Hinv. }
  destruct (set_loop path lines [] n0 st1 Htr) as (m2 & Hset & Hnext2 & Htr2).
  assert (IDMap._next_id (bp_map st1) = n0) as Hn1 by done.
  rewrite Hn1 in Hset, Hnext2.
  exists m2. split; [|done].
  unfold on_setBreakpoints.
  erewrite bind_Ok by reflexivity.
  erewrite bind_Ok by exact Hclear.
  erewrite bind_Ok by exact Hset.
  cbn [app]. unfold send_response, modify. f_equal.
  assert (pydevd st1 = notified (Z.of_nat (length old)) (remove_packets path q0 old)
                         (pydevd st)) as Hpy by done.
  rewrite Hpy, notified_notified.
  assert (PydevdSocket.seq (notified (Z.of_nat (length old)) (remove_packets path q0 old)
                              (pydevd st)) = q0 + Z.of_nat (length old)) as -> by done.
  by destruct st.
Qed.

(** A setBreakpoints request in a state whose breakpoint map has inverse
    dictionaries does not raise. It sends pydevd a remove-breakpoint command
    for every breakpoint that the map holds, of whatever source, always with
    the path of the request, followed by a set-breakpoint command for every
    line of the request; the ids of the new breakpoints are consecutive from
    the map's counter; the response lists them in the order of the lines, all
    verified; and the map is left holding the new breakpoints only, each as
    the pair of (path, id) and id. *)
Theorem on_setBreakpoints_replaces (request : Z) (path : string) (lines : list Z) st :
  inverse (bp_map st) →
  let old := IDMap.pairs (bp_map st) in
  let n0 := IDMap._next_id (bp_map st) in
  let q0 := PydevdSocket.seq (pydevd st) in
  ∃ st',
    on_setBreakpoints request path lines st = (Ok tt, st')
    ∧ PydevdSocket.pipe (pydevd st') =
      PydevdSocket.pipe (pydevd st) ++ remove_packets path q0 old
        ++ set_packets path (q0 + Z.of_nat (length old)) n0 lines
    ∧ sent st' = sent st ++
        [response request
           (breakpoints_body
              (zip_with verified (seqZ n0 (Z.of_nat (length lines))) lines))]
    ∧ IDMap._next_id (bp_map st') = n0 + Z.of_nat (length lines)
    ∧ tracks path n0 (bp_map st').
Proof.
  intros Hinv old n0 q0.
  destruct (on_setBreakpoints_run request path lines st Hinv) as (m' & Hrun & Hnext & Htr).
  eexists. split; [exact Hrun|]. done.
Qed.

End breakpoints.

Lemma on_setBreakpoints_replaces_witness :
  let ops := [op_add (IDMap.Callable (λ v, ("a.py", v)));
              op_add (IDMap.Callable (λ v, ("a.py", v)))] in
  let st := VSCodeMessageProcessor.upd_bp_map (idmap_run ops IDMap.init)
              (VSCodeMessageProcessor.init 0%nat) in
  let old := IDMap.pairs (VSCodeMessageProcessor.bp_map st) in
  ∃ st',
    VSCodeMessageProcessor.on_setBreakpoints 2 "b.py" [5] st = (Ok tt, st')
    ∧ PydevdSocket.pipe (VSCodeMessageProcessor.pydevd st') =
      remove_packets "b.py" 1000000000 old
        ++ set_packets "b.py" (1000000000 + Z.of_nat (length old)) 3 [5]
    ∧ VSCodeMessageProcessor.sent st' = [response 2 (breakpoints_body [verified 3 5])]
    ∧ IDMap._next_id (VSCodeMessageProcessor.bp_map st') = 4
    ∧ tracks "b.py" 3 (VSCodeMessageProcessor.bp_map st').
Proof.
  intros ops st old.
  assert (inverse (VSCodeMessageProcessor.bp_map st)) as Hinv.
  { apply (inverse_run ops); [apply init_inverse|apply init_below_next|].
    vm_compute. tauto. }
  exact (on_setBreakpoints_replaces 2 "b.py" [5] st Hinv).
Defined.

Section breakpoints_reachable.
Import VSCodeMessageProcessor.
Variable urllib_unquote : string → string.
Variable int : string → option Z.
Implicit Types (st : VSCodeMessageProcessor.t).

(** In every state that calls lead to, the breakpoint map holds breakpoints
    of one source only; their ids are consecutive and end below the counter;
    and the dictionaries of the map are inverse, so that a setBreakpoints
    request does not raise. *)
Theorem reachable_breakpoints_one_path st :
  reachable urllib_unquote int st →
  (∃ path first, tracks path first (bp_map st))
  ∧ inverse (bp_map st)
  ∧ ∀ request path lines, (on_setBreakpoints request path lines st).1 = Ok tt.
Proof.
  intros Hreach.
  assert (∃ path first, tracks path first (bp_map st)) as (path0 & first & Htr).
  { revert Hreach.
    refine (reachable_preserves urllib_unquote int
              (λ st, ∃ path first, tracks path first (bp_map st)) _ _ _ _ _ _ _ _ st _).
    - done.
    - done.
    - done.
    - done.
    - done.
    - intros p g st0 Hst. unfold in_thread_map, zoom.
      by destruct (IDMap.to_vscode p g (thread_map st0)).
    - intros v st0 Hst. unfold in_thread_map, zoom.
      by destruct (IDMap.to_pydevd v (thread_map st0)).
    - intros request path lines st0 (path0 & first & Htr).
      destruct (on_setBreakpoints_run request path lines st0 (tracks_inverse _ _ _ Htr))
        as (m' & Hrun & _ & Htr').
      rewrite Hrun. by exists path, (IDMap._next_id (bp_map st0)).
    - intros l. exists "", 1. apply tracks_init. }
  pose proof (tracks_inverse _ _ _ Htr) as Hinv.
  split; [by exists path0, first|]. split; [done|].
  intros request path lines.
  destruct (on_setBreakpoints_run request path lines st Hinv) as (m' & Hrun & _).
  by rewrite Hrun.
Qed.

End breakpoints_reachable.

Lemma reachable_breakpoints_one_path_witness :
  let st := handle id decimal (setBreakpoints_request 1 "a.py" [10; 20])
              (VSCodeMessageProcessor.init 0%nat) in
  (∃ path first, tracks path first (VSCodeMessageProcessor.bp_map st))
  ∧ inverse (VSCodeMessageProcessor.bp_map st)
  ∧ ∀ request path lines,
      (VSCodeMessageProcessor.on_setBreakpoints request path lines st).1 = Ok tt.
Proof.
  intros st.
  exact (reachable_breakpoints_one_path id decimal st
           (reachable_handle id decimal _ _ (reachable_init id decimal 0%nat))).
Defined.

(** ** on_setExceptionBreakpoints *)

Section exception_breakpoints.
Import VSCodeMessageProcessor.
Implicit Types (st : VSCodeMessageProcessor.t).

(** The exception-breakpoints handler always removes the breakpoint on
    [BaseException] first, and adds it again only when the filters name
    [raised] or [uncaught], with 2 for [raised] and 1 for [uncaught]; the
    response has no body. What it does depends only on whether these two
    names are among the filters: other names, the order and repetitions make
    no difference. *)
Theorem on_setExceptionBreakpoints_commands (request : Z) (filters : list string) st :
  let q := PydevdSocket.seq (pydevd st) in
  let raised := bool_decide ("raised" ∈ filters) in
  let uncaught := bool_decide ("uncaught" ∈ filters) in
  (∃ st',
     on_setExceptionBreakpoints request filters st = (Ok tt, st')
     ∧ sent st' = sent st ++ [response request no_body]
     ∧ PydevdSocket.pipe (pydevd st') =
       PydevdSocket.pipe (pydevd st) ++
       PydevdSocket.packet CMD_REMOVE_EXCEPTION_BREAK q "python-BaseException" ::
       (if raised || uncaught
        then [PydevdSocket.packet CMD_ADD_EXCEPTION_BREAK (q + 1)
                ("python-BaseException" +:+ tab +:+ (if raised then "2" else "0") +:+
                 tab +:+ (if uncaught then "1" else "0") +:+ tab +:+ "0")]
        else []))
  ∧ ∀ filters',
      ("raised" ∈ filters' ↔ "raised" ∈ filters) →
      ("uncaught" ∈ filters' ↔ "uncaught" ∈ filters) →
      on_setExceptionBreakpoints request filters' st
      = on_setExceptionBreakpoints request filters st.
Proof.
  intros q raised uncaught. split.
  - unfold on_setExceptionBreakpoints. fold raised uncaught.
    erewrite bind_Ok by apply pydevd_notify_eq'.
    destruct raised, uncaught; cbn [orb].
    + erewrite bind_Ok by apply pydevd_notify_eq'.
      eexists. split; [reflexivity|]. split; [done|]. cbn. by rewrite <- app_assoc.
    + erewrite bind_Ok by apply pydevd_notify_eq'.
      eexists. split; [reflexivity|]. split; [done|]. cbn. by rewrite <- app_assoc.
    + erewrite bind_Ok by apply pydevd_notify_eq'.
      eexists. split; [reflexivity|]. split; [done|]. cbn. by rewrite <- app_assoc.
    + erewrite bind_Ok by reflexivity.
      eexists. split; [reflexivity|]. split; [done|]. done.
  - intros filters' Hr Hu. unfold on_setExceptionBreakpoints.
    by rewrite (bool_decide_ext _ _ Hr), (bool_decide_ext _ _ Hu).
Qed.

End exception_breakpoints.

(** ** Packets from pydevd, through the socket to the handlers *)

Section events_facts.
Import VSCodeMessageProcessor.
Variable urllib_unquote : string → string.
Variable int : string → option Z.
Variable untangle_thread : string → option xthread.
Variable untangle_suspended : string → option xsuspended.
Variable on_pydevd_send_curr_exception_trace : Z → string → M t unit.
Implicit Types (st : VSCodeMessageProcessor.t).

Lemma pydevd_events_unsupported cmd_id :
  cmd_id ∉ supported_commands → pydevd_events !! cmd_id = None.
Proof. intros Hnot. by apply not_elem_of_list_to_map_1. Qed.

(** A packet from pydevd whose sequence number is that of a pending request
    resolves the request and runs no handler, whatever its command. A packet
    that matches no pending request, such as a late or a second reply, is
    handled as an event: when its command has no event handler, [send] raises
    the exception for an unsupported command, and the processor is as
    before. *)
Theorem pydevd_send_reply_or_event (data c q a : string) (cmd_id seq : Z) st :
  py_split TAB 2 (urllib_unquote data) = [c; q; a] →
  int c = Some cmd_id →
  int q = Some seq →
  match PydevdSocket.requests (pydevd st) !! seq with
  | Some (l, fut) =>
      pydevd_send urllib_unquote int untangle_thread untangle_suspended
        on_pydevd_send_curr_exception_trace data st
      = (Ok (Z.of_nat (String.length data), Some (l, fut, (cmd_id, seq, a))),
         upd_pydevd (PydevdSocket.set_requests (delete seq) (pydevd st)) st)
  | None =>
      cmd_id ∉ supported_commands →
      pydevd_send urllib_unquote int untangle_thread untangle_suspended
        on_pydevd_send_curr_exception_trace data st
      = (Raise (Exception ("Unsupported pydevd command " +:+ pretty cmd_id)), st)
  end.
Proof.
  intros Hsplit Hc Hq.
  pose proof (send_parsed urllib_unquote int data c q a cmd_id seq (pydevd st)
                Hsplit Hc Hq) as Hsend.
  destruct (PydevdSocket.requests (pydevd st) !! seq) as [[l fut]|] eqn:E.
  - unfold pydevd_send.
    erewrite bind_Ok; [|unfold in_pydevd, zoom; rewrite Hsend; reflexivity].
    reflexivity.
  - intros Hnot. unfold pydevd_send.
    erewrite bind_Ok;
      [|unfold in_pydevd, zoom; rewrite Hsend, upd_pydevd_same; reflexivity].
    cbn [fst snd]. unfold on_pydevd_event.
    by rewrite (pydevd_events_unsupported _ Hnot).
Qed.

(** A thread-kill packet from pydevd, sent through the socket: for a thread
    that has an id, the exited event with that id is sent to VSCode, and
    nothing else changes; for a thread that has none, nothing happens at
    all. In both cases [send] returns the length of the data. *)
Theorem pydevd_send_thread_kill (data c q a : string) (seq : Z) st :
  py_split TAB 2 (urllib_unquote data) = [c; q; a] →
  int c = Some CMD_THREAD_KILL →
  int q = Some seq →
  PydevdSocket.requests (pydevd st) !! seq = None →
  pydevd_send urllib_unquote int untangle_thread untangle_suspended
    on_pydevd_send_curr_exception_trace data st
  = (Ok (Z.of_nat (String.length data), None),
     match IDMap._pydevd_to_vscode (thread_map st) !! a with
     | Some tid =>
         upd_sent (sent st ++ [event "thread" [("reason", AStr "exited");
                                               ("threadId", AInt tid)]]) st
     | None => st
     end).
Proof.
  intros Hsplit Hc Hq Hfree.
  pose proof (send_parsed urllib_unquote int data c q a CMD_THREAD_KILL seq (pydevd st)
                Hsplit Hc Hq) as Hsend.
  rewrite Hfree in Hsend.
  unfold pydevd_send.
  erewrite bind_Ok;
    [|unfold in_pydevd, zoom; rewrite Hsend, upd_pydevd_same; reflexivity].
  cbn [fst snd]. unfold on_pydevd_event.
  assert (pydevd_events !! CMD_THREAD_KILL = Some handler_thread_kill) as ->
    by (vm_compute; reflexivity).
  cbn [call_handler].
  destruct (IDMap._pydevd_to_vscode (thread_map st) !! a) as [tid|] eqn:E.
  - erewrite bind_Ok by exact (on_pydevd_thread_kill_mapped seq a tid st E).
    reflexivity.
  - erewrite bind_Ok by exact (on_pydevd_thread_kill_unmapped seq a st E).
    reflexivity.
Qed.

End events_facts.

Lemma pydevd_send_reply_or_event_witness :
  VSCodeMessageProcessor.pydevd_send id decimal (λ _, None) (λ _, None) (λ _ _, ret tt)
    ("102" +:+ tab +:+ "1000000000" +:+ tab +:+ "xml")
    (VSCodeMessageProcessor.init 0%nat)
  = (Raise (Exception "Unsupported pydevd command 102"),
     VSCodeMessageProcessor.init 0%nat).
Proof.
  refine (pydevd_send_reply_or_event id decimal (λ _, None) (λ _, None) (λ _ _, ret tt)
            ("102" +:+ tab +:+ "1000000000" +:+ tab +:+ "xml")
            "102" "1000000000" "xml" 102 1000000000
            (VSCodeMessageProcessor.init 0%nat) _ _ _ _).
  - vm_compute; reflexivity.
  - vm_compute; reflexivity.
  - vm_compute; reflexivity.
  - apply (bool_decide_unpack _). vm_compute. exact I.
Defined.

Lemma pydevd_send_thread_kill_witness :
  let st := VSCodeMessageProcessor.upd_thread_map
              (idmap_run [op_to_vscode "t" true] IDMap.init)
              (VSCodeMessageProcessor.init 0%nat) in
  VSCodeMessageProcessor.pydevd_send id decimal (λ _, None) (λ _, None) (λ _ _, ret tt)
    ("104" +:+ tab +:+ "7" +:+ tab +:+ "t") st
  = (Ok (7, None),
     VSCodeMessageProcessor.upd_sent
       [event "thread" [("reason", AStr "exited"); ("threadId", AInt 1)]] st).
Proof.
  intros st.
  refine (pydevd_send_thread_kill id decimal (λ _, None) (λ _, None) (λ _ _, ret tt)
            ("104" +:+ tab +:+ "7" +:+ tab +:+ "t") "104" "7" "t" 7 st _ _ _ _).
  - vm_compute; reflexivity.
  - vm_compute; reflexivity.
  - vm_compute; reflexivity.
  - vm_compute; reflexivity.
Defined.

(** ** After a thread runs again, its ids are gone *)

Section stale_ids.
Import VSCodeMessageProcessor.
Variable urllib_unquote : string → string.
Variable int : string → option Z.
Implicit Types (st : VSCodeMessageProcessor.t).

(** After the thread-run event of a suspended thread, in a state that calls
    have led to, what VSCode still holds of that thread is refused: a
    stackTrace request for the thread, a scopes request for one of its old
    frame ids and a variables request for one of its old variable references
    all raise [KeyError] and change nothing, and so does a second thread-run
    event for the thread, which sends no second continued event. *)
Theorem thread_run_invalidates_ids (seq : Z) (args pyd_tid reason : string)
    (xframes : list xframe) st :
  split_tab args = [pyd_tid; reason] →
  reachable urllib_unquote int st →
  stack_traces st !! pyd_tid = Some xframes →
  ∃ st' vsc_tid,
    on_pydevd_thread_run seq args st = (Ok tt, st')
    ∧ sent st' = sent st ++ [event "continued" [("threadId", AInt vsc_tid)]]
    ∧ (∀ request startFrame levels,
         on_stackTrace urllib_unquote int request vsc_tid startFrame levels st'
         = (Raise KeyError, st'))
    ∧ (∀ request frameId fid,
         IDMap._vscode_to_pydevd (frame_map st) !! frameId = Some (pyd_tid, fid) →
         on_scopes request frameId st' = (Raise KeyError, st'))
    ∧ (∀ request ref p,
         IDMap._vscode_to_pydevd (var_map st) !! ref = Some p →
         var_of_thread pyd_tid p →
         on_variables request ref st' = (Raise KeyError, st'))
    ∧ (∀ seq', ∃ st'',
         on_pydevd_thread_run seq' args st' = (Raise KeyError, st'')
         ∧ sent st'' = sent st').
Proof.
  intros Hsplit Hreach Hcache.
  destruct (reachable_maps_ok urllib_unquote int st Hreach)
    as (Htcons & [Hfinv _] & [Hvinv _] & Hne).
  destruct (on_pydevd_thread_run_cached seq args pyd_tid reason xframes st
              Hsplit Hcache Hfinv Hvinv Hne)
    as (st' & vsc_tid & Hrun & Htraces & Hmapped & Hsent & _ & Hf & _ & Hv & _ & _ & _
        & _ & Hthreads & _).
  exists st', vsc_tid. split; [exact Hrun|]. split; [exact Hsent|].
  assert (stack_traces st' !! pyd_tid = None) as Hgone
    by (by rewrite Htraces, lookup_delete_eq).
  split_and!.
  - intros request startFrame levels.
    assert (IDMap._vscode_to_pydevd (thread_map st') !! vsc_tid = Some pyd_tid) as Hback.
    { pose proof (consistent_to_vscode pyd_tid true _ Htcons) as [Hinv _].
      rewrite <- Hthreads in Hinv. by apply Hinv. }
    unfold on_stackTrace.
    erewrite bind_Ok;
      [|unfold in_thread_map, zoom, IDMap.to_pydevd, IDMap.getitem;
        rewrite Hback, upd_thread_map_same; reflexivity].
    erewrite bind_Ok by reflexivity.
    by rewrite Hgone.
  - intros request frameId fid Hold.
    assert (IDMap._vscode_to_pydevd (frame_map st') !! frameId = None) as Hnone.
    { destruct (IDMap._vscode_to_pydevd (frame_map st') !! frameId) as [p|] eqn:E;
        [|done].
      apply Hf in E as [E Hnot]. rewrite Hold in E. injection E as <-.
      by destruct Hnot. }
    unfold on_scopes. erewrite bind_Raise; [reflexivity|].
    unfold in_frame_map, zoom, IDMap.to_pydevd, IDMap.getitem.
    by rewrite Hnone, upd_frame_map_same.
  - intros request ref p Hold Hp.
    assert (IDMap._vscode_to_pydevd (var_map st') !! ref = None) as Hnone.
    { destruct (IDMap._vscode_to_pydevd (var_map st') !! ref) as [p'|] eqn:E; [|done].
      apply Hv in E as [E Hnot]. rewrite Hold in E. injection E as <-. done. }
    unfold on_variables. erewrite bind_Raise; [reflexivity|].
    unfold in_var_map, zoom, IDMap.to_pydevd, IDMap.getitem.
    by rewrite Hnone, upd_var_map_same.
  - intros seq'.
    destruct (on_pydevd_thread_run_not_cached seq' args pyd_tid reason st' Hsplit Hgone)
      as (st'' & Hrun' & _ & _ & _ & Hsent' & _).
    by exists st''.
Qed.

End stale_ids.

Lemma thread_run_invalidates_ids_witness :
  let f1 := {| xframe_id := "11"; xframe_name := Some "main";
               xframe_file := Some "a.py"; xframe_line := "3";
               xframe_children := 0 |} in
  let f2 := {| xframe_id := "12"; xframe_name := Some "<module>";
               xframe_file := Some "b.py"; xframe_line := "8";
               xframe_children := 0 |} in
  let st :=
    foldl (λ st c, handle id decimal c st) (VSCodeMessageProcessor.init 0%nat)
      [thread_suspend_event 1 {| xsuspended_id := "t"; xsuspended_stop_reason := "111";
                                 xsuspended_frame := [f1; f2] |};
       stackTrace_request 1 1 0 0; scopes_request 2 1] in
  ∃ st' vsc_tid,
    VSCodeMessageProcessor.on_pydevd_thread_run 5 ("t" +:+ tab +:+ "106") st = (Ok tt, st')
    ∧ VSCodeMessageProcessor.on_stackTrace id decimal 6 vsc_tid 0 0 st'
      = (Raise KeyError, st')
    ∧ VSCodeMessageProcessor.on_scopes 7 1 st' = (Raise KeyError, st')
    ∧ VSCodeMessageProcessor.on_variables 8 1 st' = (Raise KeyError, st').
Proof.
  intros f1 f2 st.
  assert (reachable id decimal st) as Hreach.
  { unfold st. cbn [foldl]. repeat apply reachable_handle. apply reachable_init. }
  assert (split_tab ("t" +:+ tab +:+ "106") = ["t"; "106"]) as Hsplit
    by (vm_compute; reflexivity).
  assert (VSCodeMessageProcessor.stack_traces st !! "t" = Some [f1; f2]) as Hcache
    by (vm_compute; reflexivity).
  assert (IDMap._vscode_to_pydevd (VSCodeMessageProcessor.frame_map st) !! 1
          = Some ("t", 11)) as Hframe by (vm_compute; reflexivity).
  assert (IDMap._vscode_to_pydevd (VSCodeMessageProcessor.var_map st) !! 1
          = Some [AStr "t"; AInt 11; AStr "FRAME"]) as Hvar by (vm_compute; reflexivity).
  destruct (thread_run_invalidates_ids id decimal 5 ("t" +:+ tab +:+ "106") "t" "106"
              [f1; f2] st Hsplit Hreach Hcache)
    as (st' & vsc_tid & Hrun & _ & Hst & Hsc & Hva & _).
  exists st', vsc_tid. split; [exact Hrun|]. split; [exact (Hst 6 0 0)|].
  split; [exact (Hsc 7 1 11 Hframe)|].
  exact (Hva 8 1 _ Hvar eq_refl).
Defined.

Lemma on_scopes_then_variables_witness :
  let f1 := {| xframe_id := "11"; xframe_name := Some "main";
               xframe_file := Some "a.py"; xframe_line := "3";
               xframe_children := 0 |} in
  let f2 := {| xframe_id := "12"; xframe_name := Some "<module>";
               xframe_file := Some "b.py"; xframe_line := "8";
               xframe_children := 0 |} in
  let st :=
    foldl (λ st c, handle id decimal c st) (VSCodeMessageProcessor.init 0%nat)
      [thread_suspend_event 1 {| xsuspended_id := "t"; xsuspended_stop_reason := "111";
                                 xsuspended_frame := [f1; f2] |};
       stackTrace_request 1 1 0 0] in
  ∃ ref st1 fut st2,
    VSCodeMessageProcessor.on_scopes 2 1 st = (Ok tt, st1)
    ∧ IDMap._vscode_to_pydevd (VSCodeMessageProcessor.var_map st1) !! ref
      = Some [AStr "t"; AInt 11; AStr "FRAME"]
    ∧ VSCodeMessageProcessor.on_variables 3 ref st1
      = (Ok ([AStr "t"; AInt 11; AStr "FRAME"], fut), st2)
    ∧ PydevdSocket.pipe (VSCodeMessageProcessor.pydevd st2) =
      PydevdSocket.pipe (VSCodeMessageProcessor.pydevd st1) ++
      [PydevdSocket.packet CMD_GET_FRAME
         (PydevdSocket.seq (VSCodeMessageProcessor.pydevd st1))
         ("t" +:+ tab +:+ "11" +:+ tab +:+ "FRAME")].
Proof.
  intros f1 f2 st.
  assert (consistent (VSCodeMessageProcessor.var_map st)) as Hcons.
  { apply (reachable_maps_ok id decimal). unfold st. cbn [foldl].
    repeat apply reachable_handle. apply reachable_init. }
  assert (IDMap._vscode_to_pydevd (VSCodeMessageProcessor.frame_map st) !! 1
          = Some ("t", 11)) as Hframe by (vm_compute; reflexivity).
  destruct (proj1 (on_scopes_then_variables 2 1 st) "t" 11 Hframe Hcons)
    as (ref & st1 & Hscopes & _ & Href & Hvars).
  destruct (Hvars 3) as (fut & st2 & Hrun & Hpipe).
  exists ref, st1, fut, st2.
  split; [exact Hscopes|]. split; [exact Href|]. split; [exact Hrun|]. exact Hpipe.
Defined.
